(** * Feature aggregation pipeline and Keras dialogue policy

    A shallow embedding of

    - [rasa/utils/tensorflow/model_data_utils.py] (feature extraction,
      surfacing, fake features, masks, sparse feature sizes), and
    - [rasa_core/policies/keras_policy.py] (architecture selection, training
      and incremental training of the recurrent dialogue policy, prediction,
      persistence),

    together with the properties of these functions.

    Python values are modelled as follows.  A call either returns a value or
    raises: [result].  Code that mutates an object its caller can still see
    (the policy instance, the [featurizers] list) is written in the monad
    [prog S], which threads the object and keeps every mutation made before
    an exception.  A [dict] is an association list in insertion order
    ([PyDict]); a [set] of strings is iterated in an order that depends on
    the interpreter's hash seed ([HashSeed]).  What numpy and Keras accept
    and what they raise is theirs to decide: the functions that call them
    take it as a parameter, and the properties hold for every such
    library. *)

From Stdlib Require Import ZArith QArith.
From stdpp Require Import base list strings sorting pretty.
Close Scope Q_scope.
Open Scope string_scope.
Open Scope list_scope.

(** ** Exceptions *)

Inductive exn : Type :=
| ValueError (msg : string)
| IndexError
| KeyError (key : string)
| StopIteration
| AttributeError (msg : string)
| TypeError (msg : string)
| Foreign (name : string).   (* raised inside a collaborator *)

Inductive result (A : Type) : Type :=
| Ok (a : A)
| Raise (e : exn).
Arguments Ok {A} a.
Arguments Raise {A} e.

#[global] Instance result_ret : MRet result := @Ok.
#[global] Instance result_bind : MBind result := fun A B f m =>
  match m with
  | Ok a => f a
  | Raise e => Raise e
  end.

Definition raises {A} (r : result A) : Prop :=
  match r with
  | Ok _ => False
  | Raise _ => True
  end.

(** [l[i]] for a non-negative index, [l[-1]]. *)
Definition py_index {A} (l : list A) (i : nat) : result A :=
  match l !! i with
  | Some x => Ok x
  | None => Raise IndexError
  end.

Definition py_last {A} (l : list A) : result A :=
  match last l with
  | Some x => Ok x
  | None => Raise IndexError
  end.

(** ** Programs that mutate a shared object *)

Definition prog (S A : Type) : Type := S -> result A * S.

Definition pure {S A} (a : A) : prog S A := fun s => (Ok a, s).
Definition throw {S A} (e : exn) : prog S A := fun s => (Raise e, s).
Definition lift {S A} (r : result A) : prog S A := fun s => (r, s).
Definition get_state {S} : prog S S := fun s => (Ok s, s).
Definition put_state {S} (s : S) : prog S unit := fun _ => (Ok tt, s).
Definition bind {S A B} (m : prog S A) (f : A -> prog S B) : prog S B :=
  fun s =>
    match m s with
    | (Ok a, s') => f a s'
    | (Raise e, s') => (Raise e, s')
    end.

Declare Scope prog_scope.
Delimit Scope prog_scope with prog.
Notation "x <- m ;; k" := (bind m (fun x => k))
  (at level 100, m at level 99, right associativity) : prog_scope.
Notation "m ;; k" := (bind m (fun _ => k))
  (at level 100, right associativity) : prog_scope.

(** * [rasa_core/policies/keras_policy.py] *)

Module Keras.

(** A dimension of a shape; [None] is Keras' unknown dimension. *)
Definition dim : Type := option Z.
Definition shape : Type := list dim.

Inductive layer : Type :=
| Masking (mask_value : Z) (input_shape : shape)
| LSTM (units : Z) (return_sequences : bool) (dropout : Q)
| Dense (input_dim : option Z) (units : dim)
| TimeDistributed (inner : layer)
| Activation (name : string).

Record compile_args : Type := {
  loss : string;
  optimizer : string;
  metrics : list string
}.

(** [keras.models.Sequential]: the layers added so far and the arguments of
    [compile]. *)
Record Sequential : Type := {
  layers : list layer;
  compiled : option compile_args
}.

End Keras.

Module KerasPolicy.
Import Keras.

Definition n_hidden : Z := 32.

Definition invalid_shape_msg (n : nat) : string :=
  "Cannot construct the model because" +:+
  "length of output_shape = " +:+ pretty n +:+ " " +:+
  "should be 1 or 2.".

(** Keras checks a layer when it is constructed and added to a model, and
    raises when it rejects it: a recurrent layer, for one, wants a
    3-dimensional input.  What [Sequential.add] raises for a layer, given
    the layers added before, is Keras's to say: [add_error].  A layer that
    is accepted is appended to the layers of the model. *)
Section Architecture.

Variable add_error : list layer -> layer -> option exn.

Definition add (model : Sequential) (l : layer) : result Sequential :=
  match add_error (layers model) l with
  | Some e => Raise e
  | None => Ok {| layers := layers model ++ [l]; compiled := compiled model |}
  end.

(** [model.compile(loss=..., optimizer=..., metrics=...)] *)
Definition compile (model : Sequential) (args : compile_args) : Sequential :=
  {| layers := layers model; compiled := Some args |}.

(** [KerasPolicy.model_architecture] *)
Definition model_architecture (input_shape output_shape : shape)
  : result Sequential :=
  let model := {| layers := []; compiled := None |} in
  model ←
    (if decide (length output_shape = 1) then
       model ← add model (Masking (-1) input_shape);
       model ← add model (LSTM n_hidden false (2 # 10));
       units ← py_last output_shape;
       add model (Dense (Some n_hidden) units)
     else if decide (length output_shape = 2) then
       width ← py_index input_shape 1;
       model ← add model (Masking (-1) [None; width]);
       model ← add model (LSTM n_hidden true (2 # 10));
       units ← py_last output_shape;
       add model (TimeDistributed (Dense None units))
     else
       Raise (ValueError (invalid_shape_msg (length output_shape))));
  model ← add model (Activation "softmax");
  Ok (compile model {| loss := "categorical_crossentropy";
                       optimizer := "rmsprop";
                       metrics := ["accuracy"] |}).

End Architecture.

Section Policy.

(** The collaborators of the policy: trackers, the domain, the arrays and the
    metadata of [DialogueTrainingData], and the featurization inherited from
    [Policy], none of which this class defines. *)
Variables Tracker Domain Array Metadata : Type.
Variable array_shape : Array -> shape.

Record TrainingData : Type := {
  X : Array;
  y : Array;
  metadata : Metadata;
  shuffled_X_y : Array * Array
}.

Record train_kwargs : Type := {
  max_training_samples : option Z;
  validation_split : option Q;
  epochs : option Z;
  other_kwargs : list string
}.

(** [Policy.featurize_for_training] and [Policy._get_valid_params]. *)
Variable featurize_for_training :
  list Tracker -> Domain -> option Z -> result TrainingData.
Variable _get_valid_params : train_kwargs -> train_kwargs.

(** The keyword arguments of one call of [model.fit]. *)
Inductive fit_args : Type :=
| FitParams (params : train_kwargs)
| FitIncremental (epochs : Z) (batch_size : nat) (verbose : Z)
                 (initial_epoch : Z).

Record fit_call : Type := {
  fit_X : Array;
  fit_y : Array;
  fit_kwargs : fit_args
}.

(** A Keras model held by the policy: its architecture and the fit passes it
    has completed, oldest first. *)
Record Model : Type := {
  arch : Sequential;
  fitted : list fit_call
}.

(** Keras again: [add_error] as above, and what [model.fit] raises for a
    model and the arguments of a call, as it does for data without
    samples.  A pass that raises is not among the passes of the model. *)
Variable add_error : list layer -> layer -> option exn.
Variable fit_error : Model -> fit_call -> option exn.

Definition fit (m : Model) (c : fit_call) : Model :=
  {| arch := arch m; fitted := fitted m ++ [c] |}.

Inductive event : Type :=
| Featurized (trackers : list Tracker) (max_samples : option Z)
| Fitted (c : fit_call).

(** The policy instance together with the calls it has made. *)
Record policy : Type := {
  model : option Model;
  current_epoch : Z;
  trace : list event
}.

Definition set_model (m : option Model) : prog policy unit := fun self =>
  (Ok tt, {| model := m; current_epoch := current_epoch self;
             trace := trace self |}).
Definition set_current_epoch (n : Z) : prog policy unit := fun self =>
  (Ok tt, {| model := model self; current_epoch := n;
             trace := trace self |}).
Definition log (e : event) : prog policy unit := fun self =>
  (Ok tt, {| model := model self; current_epoch := current_epoch self;
             trace := trace self ++ [e] |}).

Definition call_featurize (trackers : list Tracker) (domain : Domain)
    (max_samples : option Z) : prog policy TrainingData :=
  (log (Featurized trackers max_samples) ;;
   lift (featurize_for_training trackers domain max_samples))%prog.

(** [self.model.fit(...)]: the attribute lookup fails on [None]; the call
    itself may raise, and the model has one more pass when it returns. *)
Definition call_fit (c : fit_call) : prog policy unit :=
  (self <- get_state ;;
   match model self with
   | None => throw (AttributeError "'NoneType' object has no attribute 'fit'")
   | Some m =>
       log (Fitted c) ;;
       match fit_error m c with
       | Some e => throw e
       | None => set_model (Some (fit m c))
       end
   end)%prog.

Definition train (training_trackers : list Tracker) (domain : Domain)
    (kwargs : train_kwargs) : prog policy Metadata :=
  (training_data <-
     call_featurize training_trackers domain (max_training_samples kwargs) ;;
   let '(shuffled_X, shuffled_y) := shuffled_X_y training_data in
   m <- lift (model_architecture add_error (tail (array_shape shuffled_X))
                                 (tail (array_shape shuffled_y))) ;;
   set_model (Some {| arch := m; fitted := [] |}) ;;
   let params := _get_valid_params kwargs in
   call_fit {| fit_X := shuffled_X; fit_y := shuffled_y;
               fit_kwargs := FitParams params |} ;;
   set_current_epoch (default 1%Z (epochs kwargs)) ;;
   pure (metadata training_data))%prog.

Definition continue_training (trackers : list Tracker) (domain : Domain)
  : prog policy unit :=
  (training_data <- call_featurize trackers domain None ;;
   self <- get_state ;;
   set_current_epoch (current_epoch self + 1) ;;
   self <- get_state ;;
   call_fit {| fit_X := X training_data; fit_y := y training_data;
               fit_kwargs :=
                 FitIncremental (current_epoch self + 1) (length trackers) 0
                                (current_epoch self) |})%prog.

End Policy.

Arguments X {Array Metadata}.
Arguments y {Array Metadata}.
Arguments metadata {Array Metadata}.
Arguments shuffled_X_y {Array Metadata}.
Arguments fit_X {Array}.
Arguments fit_y {Array}.
Arguments fit_kwargs {Array}.
Arguments arch {Array}.
Arguments fitted {Array}.
Arguments fit {Array}.
Arguments Featurized {Tracker Array}.
Arguments Fitted {Tracker Array}.
Arguments model {Tracker Array}.
Arguments current_epoch {Tracker Array}.
Arguments trace {Tracker Array}.
Arguments train {Tracker Domain Array Metadata}.
Arguments continue_training {Tracker Domain Array Metadata}.
Arguments call_fit {Tracker Array}.

(** Collaborators for examples: a tracker carries nothing, an array is given
    by its shape, and featurization returns, for [n] trackers (also for
    none), inputs of shape [(n, 5, 10)] and labels of shape [(n, 7)].  Of
    the checks of Keras the examples have two: a recurrent layer is
    rejected unless its input, the batch dimension included, has 3
    dimensions, and a fit is rejected when the data has no samples. *)
Module Example.


Definition featurize (trackers : list unit) (domain : unit)
    (max_samples : option Z) : result (TrainingData (list Z) string) :=
  let n := Z.of_nat (length trackers) in
  Ok {| X := [n; 5; 10]%Z; y := [n; 7]%Z; metadata := "metadata";
        shuffled_X_y := ([n; 5; 10]%Z, [n; 7]%Z) |}.

(** The number of dimensions of what a stack of layers gives, the batch
    dimension included. *)
Definition output_ndim (stack : list layer) : nat :=
  fold_left (fun n l =>
               match l with
               | Masking _ input_shape => S (length input_shape)
               | LSTM _ return_sequences _ => if return_sequences then 3 else 2
               | _ => n
               end)
            stack 0.

Definition add_error (stack : list layer) (l : layer) : option exn :=
  match l with
  | LSTM _ _ _ =>
      if decide (output_ndim stack = 3) then None
      else Some (ValueError
                   ("Input 0 is incompatible with layer lstm_1: " +:+
                    "expected ndim=3, found ndim=" +:+
                    pretty (output_ndim stack)))
  | _ => None
  end.

Definition fit_error (m : Model (list Z)) (c : fit_call (list Z))
  : option exn :=
  match fit_X c with
  | n :: _ => if decide (n = 0)%Z then Some (Foreign "model.fit") else None
  | [] => None
  end.


Definition untrained : policy unit (list Z) :=
  {| model := None; current_epoch := 0; trace := [] |}.

(** A policy after three epochs of training on two trackers. *)
Definition trained : policy unit (list Z) :=
  {| model :=
       Some {| arch :=
                 {| layers := [Masking (-1) [Some 5%Z; Some 10%Z];
                               LSTM 32 false (2 # 10);
                               Dense (Some 32%Z) (Some 7%Z);
                               Activation "softmax"];
                    compiled := Some {| loss := "categorical_crossentropy";
                                        optimizer := "rmsprop";
                                        metrics := ["accuracy"] |} |};
               fitted :=
                 [{| fit_X := [2; 5; 10]%Z; fit_y := [2; 7]%Z;
                     fit_kwargs :=
                       FitParams {| max_training_samples := None;
                                    validation_split := None;
                                    epochs := Some 3%Z;
                                    other_kwargs := [] |} |}] |};
     current_epoch := 3; trace := [] |}.

End Example.


(** ** Prediction *)

(** A numpy array of numbers: its shape and its elements in row-major
    order. *)
Record tensor : Type := {
  tensor_shape : list nat;
  tensor_data : list Q
}.

(** An integer index on an axis of length [n]: a negative index counts from
    the end, and an index outside of [-n .. n-1] is an [IndexError]. *)
Definition np_axis_index (n : nat) (i : Z) : result nat :=
  if decide (0 <= i < Z.of_nat n)%Z then Ok (Z.to_nat i)
  else if decide (- Z.of_nat n <= i < 0)%Z then Ok (Z.to_nat (Z.of_nat n + i))
  else Raise IndexError.

(** Row [i] of an array whose rows have [k] elements. *)
Definition tensor_row (k i : nat) (data : list Q) : list Q :=
  take k (drop (i * k) data).

(** [layer.batch_input_shape]: what a layer built with [input_shape] or
    [input_dim] records, the batch dimension being unknown; a layer built
    with neither has no such attribute. *)
Definition batch_input_shape (l : layer) : result shape :=
  match l with
  | Masking _ input_shape => Ok (None :: input_shape)
  | Dense (Some input_dim) _ => Ok [None; Some input_dim]
  | _ => Raise (AttributeError "object has no attribute 'batch_input_shape'")
  end.

Section Prediction.

Variables Tracker Domain Array : Type.

(** [self.featurizer.create_X] and [model.predict] of Keras. *)
Variable create_X : list Tracker -> Domain -> result (Array * list Z).
Variable predict : Model Array -> Array -> result tensor.

(** The property [max_len]; Python's [None] is the unknown dimension. *)
Definition max_len (self : policy Tracker Array) : result dim :=
  match model self with
  | Some m =>
      first ← py_index (layers (arch m)) 0;
      batch_shape ← batch_input_shape first;
      py_index batch_shape 1
  | None => Ok None
  end.

Definition predict_action_probabilities (tracker : Tracker) (domain : Domain)
    (self : policy Tracker Array) : result (option (list Q)) :=
  '(X, lengths) ← create_X [tracker] domain;
  y_pred ←
    match model self with
    | Some m => predict m X
    | None =>
        Raise (AttributeError "'NoneType' object has no attribute 'predict'")
    end;
  match tensor_shape y_pred with
  | [n; k] =>
      i ← np_axis_index n (-1);
      Ok (Some (tensor_row k i (tensor_data y_pred)))
  | [b; t; k] =>
      first ← py_index lengths 0;
      let current_idx := (first - 1)%Z in
      _ ← np_axis_index b 0;
      i ← np_axis_index t current_idx;
      Ok (Some (tensor_row k i (tensor_data y_pred)))
  | _ => Ok None
  end.

End Prediction.

Arguments max_len {Tracker Array} self.
Arguments predict_action_probabilities {Tracker Domain Array} create_X
  predict tracker domain self.

(** ** Persistence *)

(** What [load] raises: the [Exception] of its own, or what a callee
    raises. *)
Inductive raised : Type :=
| Exception (msg : string)
| Builtin (e : exn).

Inductive outcome (A : Type) : Type :=
| Returned (a : A)
| Raised (e : raised).
Arguments Returned {A} a.
Arguments Raised {A} e.

Definition of_result {A} (r : result A) : outcome A :=
  match r with
  | Ok a => Returned a
  | Raise e => Raised (Builtin e)
  end.

#[global] Instance outcome_ret : MRet outcome := @Returned.
#[global] Instance outcome_bind : MBind outcome := fun A B f m =>
  match m with
  | Returned a => f a
  | Raised e => Raised e
  end.

(** The configuration written next to the model. *)
Record meta : Type := {
  meta_arch : string;
  meta_weights : string;
  meta_epochs : Z
}.

(** [os.path.join] of two components, as [posixpath] does it. *)
Definition ends_with_slash (path : string) : bool :=
  bool_decide (String.substring (String.length path - 1) 1 path = "/").

Definition path_join (path name : string) : string :=
  if String.prefix "/" name then name
  else if bool_decide (path = "") || ends_with_slash path then path +:+ name
  else path +:+ "/" +:+ name.

Section Persistence.

Variables Tracker Array Featurizer Graph : Type.

(** The texts in which Keras writes an architecture and from which it reads
    one. *)
Variable Str : Type.

(** A file holds such a text, a JSON configuration, or the weights of a
    model; the weights of a model are given by the fit passes it went
    through. *)
Inductive content : Type :=
| Text (s : Str)
| Json (m : meta)
| Hdf5 (weights : list (fit_call Array)).

(** The directories and files the policy works on, and the warnings
    issued. *)
Record world : Type := {
  dirs : list string;
  files : string -> option content;
  warnings : list string
}.

Definition write (file : string) (c : content) : prog world unit := fun w =>
  (Ok tt,
   {| dirs := dirs w;
      files := fun p => if decide (p = file) then Some c else files w p;
      warnings := warnings w |}).

Definition warn (msg : string) : prog world unit := fun w =>
  (Ok tt, {| dirs := dirs w; files := files w;
             warnings := warnings w ++ [msg] |}).

(** [os.path.isfile] and [os.path.exists]. *)
Definition isfile (p : string) (w : world) : bool :=
  match files w p with
  | Some _ => true
  | None => false
  end.
Definition path_exists (p : string) (w : world) : bool :=
  isfile p w || bool_decide (p ∈ dirs w).

(** [io.open(file).read()], [json.loads] of the text of a file. *)
Definition read_text (file : string) (w : world) : result Str :=
  match files w file with
  | Some (Text s) => Ok s
  | _ => Raise (Foreign "io.open")
  end.
Definition read_json (file : string) (w : world) : result meta :=
  match files w file with
  | Some (Json m) => Ok m
  | _ => Raise (Foreign "json.loads")
  end.

(** Keras: [model.to_json], [model_from_json], which gives a model that has
    gone through no fit pass, [model.save_weights] and
    [model.load_weights]. *)
Variable to_json : Sequential -> Str.
Variable model_from_json : Str -> result Sequential.

Definition save_weights (m : Model Array) (file : string) : prog world unit :=
  write file (Hdf5 (fitted m)).

Definition load_weights (m : Model Array) (file : string) (w : world)
  : result (Model Array) :=
  match files w file with
  | Some (Hdf5 weights) => Ok {| arch := arch m; fitted := weights |}
  | _ => Raise (Foreign "load_weights")
  end.

(** The helpers of [rasa_core.utils], [Policy.persist], [Featurizer.load],
    [os.path.abspath] and the state of the Keras backend; this class
    defines none of them. *)
Variable create_dir_for_file : string -> prog world unit.
Variable dump_obj_as_str_to_file : string -> Str -> prog world unit.
Variable dump_obj_as_json_to_file : string -> meta -> prog world unit.
Variable super_persist : string -> prog world unit.
Variable Featurizer_load : string -> world -> result Featurizer.
Variable abspath : string -> string.
Variable is_using_tensorflow : bool.
Variable get_default_graph : Graph.

(** An instance of the class: the featurizer and the graph next to the
    model and the epoch counter. *)
Record instance : Type := {
  featurizer : option Featurizer;
  graph : option Graph;
  state : policy Tracker Array
}.

(** [KerasPolicy.__init__] *)
Definition init (featurizer : option Featurizer)
    (model : option (Model Array)) (graph : option Graph)
    (current_epoch : Z) : instance :=
  {| featurizer := featurizer;
     graph := if is_using_tensorflow && negb (bool_decide (is_Some graph))
              then Some get_default_graph else graph;
     state := {| model := model; current_epoch := current_epoch;
                 trace := [] |} |}.

Definition _persist_configuration (config_file : string)
    (self : policy Tracker Array) : prog world unit :=
  let model_config :=
    {| meta_arch := "keras_arch.json"; meta_weights := "keras_weights.h5";
       meta_epochs := current_epoch self |} in
  dump_obj_as_json_to_file config_file model_config.

Definition persist (path : string) (self : policy Tracker Array)
  : prog world unit :=
  (super_persist path ;;
   match model self with
   | Some m =>
       let arch_file := path_join path "keras_arch.json" in
       let weights_file := path_join path "keras_weights.h5" in
       let config_file := path_join path "keras_policy.json" in
       create_dir_for_file weights_file ;;
       dump_obj_as_str_to_file arch_file (to_json (arch m)) ;;
       _persist_configuration config_file self ;;
       save_weights m weights_file
   | None =>
       warn ("Persist called without a trained model present. " +:+
             "Nothing to persist then!")
   end)%prog.

Definition _load_model_arch (path : string) (meta : meta) (w : world)
  : result (option (Model Array)) :=
  let arch_file := path_join path (meta_arch meta) in
  if isfile arch_file w then
    text ← read_text arch_file w;
    model ← model_from_json text;
    Ok (Some {| arch := model; fitted := [] |})
  else Ok None.

Definition _load_weights_for_model (path : string)
    (model : option (Model Array)) (meta : meta) (w : world)
  : result (option (Model Array)) :=
  let weights_file := path_join path (meta_weights meta) in
  match model with
  | Some m =>
      if path_exists weights_file w
      then m' ← load_weights m weights_file w; Ok (Some m')
      else Ok model
  | None => Ok model
  end.

Definition load (path : string) (w : world) : outcome instance :=
  if path_exists path w then
    featurizer ← of_result (Featurizer_load path w);
    let meta_path := path_join path "keras_policy.json" in
    if isfile meta_path w then
      meta ← of_result (read_json meta_path w);
      model_arch ← of_result (_load_model_arch path meta w);
      model ← of_result (_load_weights_for_model path model_arch meta w);
      Returned (init (Some featurizer) model None (meta_epochs meta))
    else Returned (init (Some featurizer) None None 0)
  else
    Raised (Exception ("Failed to load dialogue model. Path " +:+
                       abspath path +:+ " " +:+ "doesn't exist")).

End Persistence.

Arguments Text {Array Str} s.
Arguments Json {Array Str} m.
Arguments Hdf5 {Array Str} weights.
Arguments dirs {Array Str} w.
Arguments files {Array Str} w.
Arguments warnings {Array Str} w.
Arguments write {Array Str} file c.
Arguments isfile {Array Str} p w.
Arguments path_exists {Array Str} p w.
Arguments featurizer {Tracker Array Featurizer Graph} i.
Arguments graph {Tracker Array Featurizer Graph} i.
Arguments state {Tracker Array Featurizer Graph} i.
Arguments persist {Tracker Array Str} to_json create_dir_for_file
  dump_obj_as_str_to_file dump_obj_as_json_to_file super_persist
  path self.
Arguments load {Tracker Array Featurizer Graph Str} model_from_json
  Featurizer_load abspath is_using_tensorflow get_default_graph path w.

(** Collaborators for examples of prediction and persistence: a featurizer
    that reports two turns for the tracker, a per-turn model that predicts,
    for one tracker and three turns, the probabilities of two actions, and
    helpers that write what they are given.  The text of an architecture
    is given by the layers it describes: what Keras writes holds the
    layers and nothing of the arguments of [compile], and the model read
    from it is not compiled. *)
Module Scenario.

Definition create_X (trackers : list unit) (domain : unit)
  : result (list Z * list Z) :=
  Ok ([1; 3; 4]%Z, [2%Z]).

Definition predict_per_turn (m : Model (list Z)) (X : list Z)
  : result tensor :=
  Ok {| tensor_shape := [1; 3; 2];
        tensor_data := [(1 # 2)%Q; (1 # 2)%Q; (1 # 4)%Q; (3 # 4)%Q;
                        0%Q; 1%Q] |}.

Definition single_step : policy unit (list Z) :=
  {| model :=
       Some {| arch :=
                 {| layers := [Masking (-1) [Some 5%Z; Some 10%Z];
                               LSTM 32 false (2 # 10);
                               Dense (Some 32%Z) (Some 7%Z);
                               Activation "softmax"];
                    compiled := Some {| loss := "categorical_crossentropy";
                                        optimizer := "rmsprop";
                                        metrics := ["accuracy"] |} |};
               fitted := [{| fit_X := [2; 5; 10]%Z; fit_y := [2; 7]%Z;
                             fit_kwargs := FitIncremental 4 2 0 3 |}] |};
     current_epoch := 3; trace := [] |}.

Definition to_json (m : Sequential) : list layer := layers m.
Definition model_from_json (text : list layer) : result Sequential :=
  Ok {| layers := text; compiled := None |}.

Definition disk : world (list Z) (list layer) :=
  {| dirs := ["models"]; files := fun _ => None; warnings := [] |}.

Definition create_dir_for_file (file : string)
  : prog (world (list Z) (list layer)) unit :=
  pure tt.
Definition dump_obj_as_str_to_file (file : string) (s : list layer)
  : prog (world (list Z) (list layer)) unit :=
  write file (Text s).
Definition dump_obj_as_json_to_file (file : string) (c : meta)
  : prog (world (list Z) (list layer)) unit :=
  write file (Json c).
Definition super_persist (path : string)
  : prog (world (list Z) (list layer)) unit :=
  pure tt.
Definition Featurizer_load (path : string) (w : world (list Z) (list layer))
  : result unit :=
  Ok tt.

End Scenario.
End KerasPolicy.

(** * [rasa/utils/tensorflow/model_data_utils.py] *)

(** ** Python containers *)

(** A [dict]: bindings in insertion order, one per key.  Assigning to a key
    that is present keeps its position. *)
Module PyDict.
Section Dict.
Context {K V : Type} `{EqDecision K}.

Fixpoint get (k : K) (d : list (K * V)) : option V :=
  match d with
  | [] => None
  | (k', v) :: d' => if decide (k = k') then Some v else get k d'
  end.

Fixpoint set (k : K) (v : V) (d : list (K * V)) : list (K * V) :=
  match d with
  | [] => [(k, v)]
  | (k', v') :: d' =>
      if decide (k = k') then (k', v) :: d' else (k', v') :: set k v d'
  end.

Definition keys (d : list (K * V)) : list K := d.*1.
Definition values (d : list (K * V)) : list V := d.*2.

End Dict.

(** [d[k].append(x)] on a [defaultdict(list)], and
    [d.setdefault(k, []).append(x)] on a [dict]. *)
Definition append {K A : Type} `{EqDecision K} (k : K) (x : A)
    (d : list (K * list A)) : list (K * list A) :=
  set k (default [] (get k d) ++ [x]) d.

(** Equality of dicts, which ignores the insertion order. *)
Definition equiv {K V : Type} `{EqDecision K} (d1 d2 : list (K * V)) : Prop :=
  forall k, get k d1 = get k d2.

End PyDict.

Abbreviation dict K V := (list (K * V)) (only parsing).

(** The order in which a [set] of strings built from the elements [l] is
    iterated.  It is some enumeration without repetition; which one depends
    on the hash seed of the interpreter. *)
Record HashSeed : Type := {
  set_order : list string -> list string;
  set_order_perm : forall l, set_order l ≡ₚ remove_dups l
}.

(** [list(set(l))]. *)
Definition py_set (h : HashSeed) (l : list string) : list string :=
  set_order h l.

Definition first_seen : HashSeed :=
  {| set_order := remove_dups;
     set_order_perm := fun l => reflexivity (remove_dups l) |}.

Definition last_seen : HashSeed :=
  {| set_order := fun l => reverse (remove_dups l);
     set_order_perm := fun l => reverse_Permutation (remove_dups l) |}.

(** Truth value of an optional list, of a string. *)
Definition truthy {A} (l : option (list A)) : bool :=
  match l with
  | Some (_ :: _) => true
  | _ => false
  end.

Definition truthy_str (s : option string) : bool :=
  match s with
  | Some (String _ _) => true
  | _ => false
  end.

(** [sorted] on the items of a dict.  Keys of a dict are distinct, so the
    comparison of two items is decided by their keys, compared as Python
    compares strings: lexicographically by character code. *)
Fixpoint insert_sorted {V} (x : string * V) (l : list (string * V))
  : list (string * V) :=
  match l with
  | [] => [x]
  | y :: l' =>
      if String.leb (fst x) (fst y) then x :: l else y :: insert_sorted x l'
  end.

Definition sorted {V} (l : list (string * V)) : list (string * V) :=
  foldr insert_sorted [] l.

(** Python's order on strings: lexicographic by character code. *)
Definition string_lt (a b : string) : Prop := String.ltb a b = true.

Fixpoint foldM {S A B} (f : B -> A -> prog S B) (b : B) (l : list A)
  : prog S B :=
  match l with
  | [] => pure b
  | x :: l' => (b' <- f b x ;; foldM f b' l')%prog
  end.

Fixpoint fold_result {A B} (f : B -> A -> result B) (b : B) (l : list A)
  : result B :=
  match l with
  | [] => Ok b
  | x :: l' => b' ← f b x; fold_result f b' l'
  end.

Fixpoint map_result {A B} (f : A -> result B) (l : list A) : result (list B) :=
  match l with
  | [] => Ok []
  | x :: l' => y ← f x; ys ← map_result f l'; Ok (y :: ys)
  end.

(** ** numpy and scipy *)

Inductive dtype : Type := float32 | float64 | int32 | int64.

(** A feature matrix: a dense [np.ndarray] or a [scipy.sparse] matrix, both
    two-dimensional (rows are tokens, columns the feature width).  No
    function of this module looks at the numbers inside. *)
Inductive matrix : Type :=
| ndarray (dt : dtype) (shape : nat * nat) (data : list Q)
| spmatrix (dt : dtype) (shape : nat * nat) (entries : list (nat * nat * Q)).

Definition matrix_dtype (m : matrix) : dtype :=
  match m with
  | ndarray dt _ _ => dt
  | spmatrix dt _ _ => dt
  end.

Definition matrix_shape (m : matrix) : nat * nat :=
  match m with
  | ndarray _ sh _ => sh
  | spmatrix _ sh _ => sh
  end.

Definition issparse (m : matrix) : bool :=
  match m with
  | ndarray _ _ _ => false
  | spmatrix _ _ _ => true
  end.

(** [np.zeros(shape, dtype)] *)
Definition np_zeros (shape : nat * nat) (dt : dtype) : matrix :=
  ndarray dt shape (replicate (fst shape * snd shape) 0%Q).

(** [scipy.sparse.coo_matrix(arg1, shape=None, dtype=None)] with a shape
    tuple as [arg1]: the empty matrix of that shape.  The second positional
    parameter is [shape], which this form of the constructor does not read;
    the element type is [dtype], and [float64] when [dtype] is not given. *)
Definition coo_matrix {T : Type} (arg1 : nat * nat) (shape : option T)
    (dt : option dtype) : matrix :=
  spmatrix (default float64 dt) arg1 [].

(** [np.ones(n, np.float32)], [a[i] = x], [np.expand_dims(a, -1)] *)
Definition np_ones (n : nat) : list Q := replicate n 1%Q.
Definition np_setitem (a : list Q) (i : nat) (x : Q) : list Q := <[i := x]> a.
Definition np_expand_dims (a : list Q) : list (list Q) := (fun x => [x]) <$> a.

(** What [np.array] is applied to in this module: the masks of all examples,
    the matrices of all examples, or one matrix per example. *)
Inductive np_array : Type :=
| ArrMasks (masks : list (list (list Q)))
| ArrNested (values : list (list matrix))
| ArrFlat (values : list matrix).

(** [np.array] raises [ValueError] when it cannot make one array of its
    argument, as happens, for one, with dense matrices that have the same
    number of rows and different widths.  Which arguments it accepts is
    numpy's rule, and not the same in every version of numpy; the
    functions of this module take it as they find it.  The message of the
    error, which names the shapes, is left out. *)
Definition numpy : Type := np_array -> bool.

Definition np_error : exn := ValueError "np.array".

Definition np_array_of (np : numpy) (a : np_array) : result np_array :=
  if np a then Ok a else Raise np_error.

(** A numpy that accepts every argument. *)
Definition lenient : numpy := fun _ => true.

(** Modelled from the spec: the class [FeatureArray] of
    [rasa.utils.tensorflow.model_data]: a batched container of feature
    matrices with a declared number of dimensions. *)
Record FeatureArray : Type := {
  array : np_array;
  number_of_dimensions : nat
}.

(** ** Features and messages *)

(** Modelled from the spec: the class [Features] of
    [rasa.shared.nlu.training_data.features]: a matrix, the subtype tag, the
    attribute name and the origin; [is_sparse] and [is_dense] are the two
    mutually exclusive encodings of the matrix. *)
Record Features : Type := {
  features : matrix;
  type : string;
  attribute : string;
  origin : string
}.

Definition is_sparse (f : Features) : bool := issparse (features f).
Definition is_dense (f : Features) : bool := negb (is_sparse f).

(** [f.type] and [f.attribute], for the functions that have a parameter of
    that name. *)
Definition type_of (f : Features) : string := type f.
Definition attribute_of (f : Features) : string := attribute f.

Definition with_features (f : Features) (m : matrix) : Features :=
  {| features := m; type := type f; attribute := attribute f;
     origin := origin f |}.

(** The constants this module imports from [rasa.utils.tensorflow.constants]
    and [rasa.shared.nlu.constants]. *)
Record constants : Type := {
  MASK : string;
  IDS : string;
  SENTENCE : string;
  SEQUENCE : string;
  TEXT : string;
  ENTITIES : string;
  ENTITY_ATTRIBUTE_TYPE : string;
  ENTITY_ATTRIBUTE_GROUP : string;
  ENTITY_ATTRIBUTE_ROLE : string
}.

(** Their values in the package. *)
Definition rasa_constants : constants :=
  {| MASK := "mask"; IDS := "ids"; SENTENCE := "sentence";
     SEQUENCE := "sequence"; TEXT := "text"; ENTITIES := "entities";
     ENTITY_ATTRIBUTE_TYPE := "entity"; ENTITY_ATTRIBUTE_GROUP := "group";
     ENTITY_ATTRIBUTE_ROLE := "role" |}.

Definition TAG_ID_ORIGIN : string := "tag_id_origin".

Module ModelDataUtils.

Section Messages.

(** The tokens and the entity annotations of a message, and the helpers of
    [rasa.nlu] that label tokens; this module defines none of them. *)
Variables Token Entities : Type.

(** The part of [Message] this module calls. *)
Record Message : Type := {
  get_text : option string;
  get_tokens : list Token;
  get_entities : Entities;
  data : list string;
  get_sparse_features :
    string -> option (list string) -> option Features * option Features;
  get_dense_features :
    string -> option (list string) -> option Features * option Features;
  get_all_features : string -> option (list string) -> list Features;
  get_sparse_feature_sizes :
    string -> option (list string) -> dict string (list Z)
}.

Record EntityTagSpec : Type := {
  tag_name : string;
  tags_to_ids : dict string Z
}.

Variable bilou_tags_to_ids :
  Message -> dict string Z -> string -> result (list Z).
Variable determine_token_labels : Token -> Entities -> string -> string.

Variable K : constants.

Definition fmt (o : option string) : string := default "None" o.

Definition mismatch_msg (level : string) (message : Message)
    (attribute : string) : string :=
  "Sequence dimensions for sparse and dense " +:+ level +:+ " features " +:+
  "don't coincide in '" +:+ fmt (get_text message) +:+ "'" +:+
  "for attribute '" +:+ attribute +:+ "'.".

Definition rows_differ (dense sparse : option Features) : bool :=
  match dense, sparse with
  | Some d, Some s =>
      bool_decide (fst (matrix_shape (features d))
                   ≠ fst (matrix_shape (features s)))
  | _, _ => false
  end.

Definition put_if_present (key : bool * string) (f : option Features)
    (out : dict (bool * string) matrix) : dict (bool * string) matrix :=
  match f with
  | Some f => PyDict.set key (features f) out
  | None => out
  end.

Definition extract_attribute_features_from_message (message : Message)
    (attribute : string) (featurizers : option (list string))
  : result (dict (bool * string) matrix) :=
  let '(sparse_sequence_features, sparse_sentence_features) :=
    get_sparse_features message attribute featurizers in
  let '(dense_sequence_features, dense_sentence_features) :=
    get_dense_features message attribute featurizers in
  if rows_differ dense_sequence_features sparse_sequence_features then
    Raise (ValueError (mismatch_msg "sequence" message attribute))
  else if rows_differ dense_sentence_features sparse_sentence_features then
    Raise (ValueError (mismatch_msg "sentence" message attribute))
  else
    let out := [] in
    let out := put_if_present (true, SENTENCE K) sparse_sentence_features out in
    let out := put_if_present (true, SEQUENCE K) sparse_sequence_features out in
    let out := put_if_present (false, SENTENCE K) dense_sentence_features out in
    let out := put_if_present (false, SEQUENCE K) dense_sequence_features out in
    Ok out.

Definition type_msg (type : option string) : string :=
  "Expected type to be None, " +:+ SENTENCE K +:+ " or " +:+ SEQUENCE K +:+
  " but found " +:+ fmt type +:+ ".".

(** [(type is not None) and (type not in [SEQUENCE, SENTENCE])] *)
Definition bad_type (type : option string) : bool :=
  match type with
  | None => false
  | Some t => negb (bool_decide (t ∈ [SEQUENCE K; SENTENCE K]))
  end.

(** [np.array([_tags]).T]: one column with a row per tag.  numpy gives the
    integers of Python its default integer type, [int64] where this code
    runs, and gives an array without elements the type [float64]. *)
Definition np_column (_tags : list Z) : matrix :=
  ndarray (match _tags with [] => float64 | _ :: _ => int64 end)
          (length _tags, 1) (inject_Z <$> _tags).

Definition get_tag_ids (example : Message) (tag_spec : EntityTagSpec)
    (bilou_tagging : bool) : result Features :=
  _tags ←
    (if bilou_tagging then
       bilou_tags_to_ids example (tags_to_ids tag_spec) (tag_name tag_spec)
     else
       map_result
         (fun token =>
            let _tag :=
              determine_token_labels token (get_entities example)
                                     (tag_name tag_spec) in
            match PyDict.get _tag (tags_to_ids tag_spec) with
            | Some id => Ok id
            | None => Raise (KeyError _tag)
            end)
         (get_tokens example));
  Ok {| features := np_column _tags;
        type := IDS K;
        attribute := tag_name tag_spec;
        origin := TAG_ID_ORIGIN |}.

Definition _collect_sparse_feature_sizes
    (featurized_example : dict string (list Features))
    (training_example : Message) (featurizers : option (list string))
    (type : option string) : result (dict string (dict string (list Z))) :=
  if bad_type type then Raise (ValueError (type_msg type))
  else
    let sparse_attributes :=
      omap (fun '(attribute, features) =>
              match features with
              | f :: _ => if is_sparse f then Some attribute else None
              | [] => None
              end)
           featurized_example in
    Ok (fold_left
          (fun sparse_feature_sizes attribute =>
             let sizes :=
               get_sparse_feature_sizes training_example attribute
                                        featurizers in
             let sizes :=
               if truthy_str type
               then filter (fun kv => Some (fst kv) = type) sizes
               else sizes in
             PyDict.set attribute sizes sparse_feature_sizes)
          sparse_attributes []).

(** The body of the loop over [attributes] for one example. *)
Definition featurize_attribute (example : Message)
    (entity_tag_specs : option (list EntityTagSpec))
    (featurizers : option (list string)) (bilou_tagging : bool)
    (type : option string)
    (attribute_to_features : dict string (list Features)) (attribute : string)
  : result (dict string (list Features)) :=
  attribute_to_features ←
    (if decide (attribute = ENTITIES K) then
       match entity_tag_specs with
       | None => Raise (TypeError "'NoneType' object is not iterable")
       | Some specs =>
           tags ← map_result
                    (fun tag_spec => get_tag_ids example tag_spec bilou_tagging)
                    specs;
           Ok (PyDict.set attribute tags attribute_to_features)
       end
     else if bool_decide (attribute ∈ data example) then
       Ok (PyDict.set attribute
             (get_all_features example attribute featurizers)
             attribute_to_features)
     else Ok attribute_to_features);
  if truthy_str type then
    match PyDict.get attribute attribute_to_features with
    | None => Raise (KeyError attribute)
    | Some fs =>
        Ok (PyDict.set attribute
              (filter (fun f => Some (type_of f) = type) fs)
              attribute_to_features)
    end
  else Ok attribute_to_features.

Definition featurize_training_examples (training_examples : list Message)
    (attributes : list string)
    (entity_tag_specs : option (list EntityTagSpec))
    (featurizers : option (list string)) (bilou_tagging : bool)
    (type : option string)
  : result (list (dict string (list Features)) *
            dict string (dict string (list Z))) :=
  if bad_type type then Raise (ValueError (type_msg type))
  else
    output ←
      map_result
        (fun example =>
           fold_result
             (featurize_attribute example entity_tag_specs featurizers
                                  bilou_tagging type)
             [] attributes)
        training_examples;
    sparse_feature_sizes ←
      match output, training_examples with
      | featurized_example :: _, training_example :: _ =>
          _collect_sparse_feature_sizes featurized_example training_example
                                        featurizers type
      | _, _ => Ok []
      end;
    Ok (output, sparse_feature_sizes).

End Messages.

Arguments get_text {Token Entities}.
Arguments get_tokens {Token Entities}.
Arguments get_entities {Token Entities}.
Arguments data {Token Entities}.
Arguments get_sparse_features {Token Entities}.
Arguments get_dense_features {Token Entities}.
Arguments get_all_features {Token Entities}.
Arguments get_sparse_feature_sizes {Token Entities}.
Arguments extract_attribute_features_from_message {Token Entities}.
Arguments _collect_sparse_feature_sizes {Token Entities}.
Arguments get_tag_ids {Token Entities}.
Arguments featurize_attribute {Token Entities}.
Arguments featurize_training_examples {Token Entities}.

(** ** Surfacing, fake features, masks and the [Data] format *)

(** One turn: attribute to features.  One example: its turns.  After
    surfacing, each attribute has, per example and per turn, its features or
    [None]. *)
Abbreviation turn := (list (string * list Features)) (only parsing).
Abbreviation surfaced_row :=
  (list (string * list (option (list Features)))) (only parsing).
Abbreviation surfaced :=
  (list (string * list (list (option (list Features))))) (only parsing).
Abbreviation fake_feature_set := (list (string * list Features)) (only parsing).
Abbreviation attribute_arrays :=
  (list (string * list FeatureArray)) (only parsing).
Abbreviation Data := (list (string * list (string * list FeatureArray)))
  (only parsing).

(** The two forms of the argument [features] of [convert_to_data_format]. *)
Inductive raw_features : Type :=
| Flat (examples : list (list (string * list Features)))
| Nested (examples : list (list (list (string * list Features)))).

(** A callee that receives the caller's [featurizers]; [None] is passed as it
    is and is falsy like the empty list. *)
Definition with_list {A} (m : prog (list string) A)
  : prog (option (list string)) A :=
  fun s =>
    match s with
    | Some l => let '(r, l') := m l in (r, Some l')
    | None => (fst (m []), None)
    end.

Definition _filter_features (features : option (list Features))
  : prog (list string) (option (list Features)) :=
  (featurizers <- get_state ;;
   match features, featurizers with
   | Some fs, _ :: _ =>
       put_state (featurizers ++ [TAG_ID_ORIGIN]) ;;
       featurizers <- get_state ;;
       pure (Some (filter (fun f => origin f ∈ featurizers) fs))
   | _, _ => pure features
   end)%prog.

Section Pipeline.

Variable K : constants.
Variable h : HashSeed.
Variable np : numpy.

Definition all_attributes (features : list (list turn)) : list string :=
  list_of_attribute_to_features ← features;
  attribute_to_features ← list_of_attribute_to_features;
  PyDict.keys attribute_to_features.

Definition surface_cell (attribute_to_features : turn)
    (intermediate_features : surfaced_row) (attribute : string)
  : prog (option (list string)) surfaced_row :=
  (let attribute_features := PyDict.get attribute attribute_to_features in
   featurizers <- get_state ;;
   attribute_features <-
     (if truthy featurizers
      then with_list (_filter_features attribute_features)
      else pure attribute_features) ;;
   pure (PyDict.append attribute attribute_features
                       intermediate_features))%prog.

Definition _surface_attributes (features : list (list turn))
  : prog (option (list string)) surfaced :=
  let attributes := py_set h (all_attributes features) in
  foldM
    (fun output list_of_attribute_to_features =>
       (intermediate_features <-
          foldM
            (fun intermediate_features attribute_to_features =>
               foldM (surface_cell attribute_to_features)
                     intermediate_features attributes)
            [] list_of_attribute_to_features ;;
        pure (fold_left
                (fun output '(key, collection_of_feature_collections) =>
                   PyDict.append key collection_of_feature_collections output)
                intermediate_features output))%prog)
    [] features.

Definition fake_of (_features : Features) : Features :=
  let new_features := _features in
  let width := snd (matrix_shape (features _features)) in
  let dt := matrix_dtype (features _features) in
  let new_features :=
    if is_dense _features
    then with_features new_features (np_zeros (0, width) dt)
    else new_features in
  let new_features :=
    if is_sparse _features
    then with_features new_features (coo_matrix (0, width) (Some dt) None)
    else new_features in
  new_features.

Definition _create_fake_features
    (all_features : list (list (option (list Features))))
  : result (list Features) :=
  match
    (list_of_list_of_features ← all_features;
     omap id list_of_list_of_features)
  with
  | [] => Raise StopIteration
  | example_features :: _ => Ok (fake_of <$> example_features)
  end.

Definition feature_key (attribute : string) (f : Features) : string :=
  if bool_decide (attribute = ENTITIES K)
     && bool_decide (attribute_of f ∈ [ENTITY_ATTRIBUTE_TYPE K;
                                       ENTITY_ATTRIBUTE_GROUP K;
                                       ENTITY_ATTRIBUTE_ROLE K])
  then attribute_of f
  else type f.

Fixpoint enumerate_from {A} (i : nat) (l : list A) : list (nat * A) :=
  match l with
  | [] => []
  | x :: l' => (i, x) :: enumerate_from (S i) l'
  end.
Definition enumerate {A} (l : list A) : list (nat * A) := enumerate_from 0 l.

(** The sparse and the dense matrices of one example, by key. *)
Abbreviation buckets :=
  (list (string * list matrix) * list (string * list matrix))%type
  (only parsing).

Definition bucket (attribute : string) (dialogue : buckets) (f : Features)
  : buckets :=
  let '(dialogue_sparse_features, dialogue_dense_features) := dialogue in
  let key := feature_key attribute f in
  if is_sparse f
  then (PyDict.append key (features f) dialogue_sparse_features,
        dialogue_dense_features)
  else (dialogue_sparse_features,
        PyDict.append key (features f) dialogue_dense_features).

Definition extract_turn (fake_features : list Features) (attribute : string)
    (acc : buckets * list Q) (turn : nat * option (list Features))
  : buckets * list Q :=
  let '(dialogue, attribute_mask) := acc in
  let '(i, list_of_features) := turn in
  let '(attribute_mask, list_of_features) :=
    match list_of_features with
    | None => (np_setitem attribute_mask i 0%Q, fake_features)
    | Some l => (attribute_mask, l)
    end in
  (fold_left (bucket attribute) list_of_features dialogue, attribute_mask).

Definition append_all {A} (collected : list (string * list A))
    (d : list (string * A)) : list (string * list A) :=
  fold_left (fun collected '(key, value) => PyDict.append key value collected)
            d collected.

Definition extract_example (fake_features : list Features) (attribute : string)
    (acc : list (string * list (list matrix)) *
           list (string * list (list matrix)) * list (list (list Q)))
    (list_of_list_of_features : list (option (list Features))) :=
  let '(sparse_features, dense_features, attribute_masks) := acc in
  let attribute_mask := np_ones (length list_of_list_of_features) in
  let '((dialogue_sparse_features, dialogue_dense_features), attribute_mask) :=
    fold_left (extract_turn fake_features attribute)
              (enumerate list_of_list_of_features)
              (([], []), attribute_mask) in
  let sparse_features := append_all sparse_features dialogue_sparse_features in
  let dense_features := append_all dense_features dialogue_dense_features in
  let attribute_mask := np_expand_dims attribute_mask in
  (sparse_features, dense_features, attribute_masks ++ [attribute_mask]).

Definition _extract_features
    (features : list (list (option (list Features))))
    (fake_features : list Features) (attribute : string) :=
  let '(sparse_features, dense_features, attribute_masks) :=
    fold_left (extract_example fake_features attribute) features ([], [], []) in
  (attribute_masks, dense_features, sparse_features).

(** The body of the loops over the sparse and over the dense matrices, and
    the loops. *)
Definition feature_array_step (consider_dialogue_dimension : bool)
    (out : list (string * FeatureArray))
    (item : string * list (list matrix))
  : result (list (string * FeatureArray)) :=
  let '(key, values) := item in
  if consider_dialogue_dimension then
    a ← np_array_of np (ArrNested values);
    Ok (PyDict.set key {| array := a; number_of_dimensions := 4 |} out)
  else
    firsts ← map_result (fun v => py_index v 0) values;
    a ← np_array_of np (ArrFlat firsts);
    Ok (PyDict.set key {| array := a; number_of_dimensions := 3 |} out).

Definition to_feature_arrays (consider_dialogue_dimension : bool)
    (d : list (string * list (list matrix)))
  : result (list (string * FeatureArray)) :=
  fold_result (feature_array_step consider_dialogue_dimension) [] d.

Definition add_feature_type
    (sparse_features dense_features : list (string * FeatureArray))
    (attribute_to_feature_arrays : attribute_arrays) (feature_type : string)
  : attribute_arrays :=
  let out := PyDict.set feature_type [] attribute_to_feature_arrays in
  let out :=
    match PyDict.get feature_type sparse_features with
    | Some a => PyDict.append feature_type a out
    | None => out
    end in
  match PyDict.get feature_type dense_features with
  | Some a => PyDict.append feature_type a out
  | None => out
  end.

Definition _feature_arrays_for_attribute (attribute : string)
    (absent_features : list (list (option (list Features))))
    (attribute_to_features : surfaced) (training : bool)
    (fake_features : fake_feature_set) (consider_dialogue_dimension : bool)
  : result (attribute_arrays * fake_feature_set) :=
  let features :=
    match PyDict.get attribute attribute_to_features with
    | Some fs => fs
    | None => absent_features
    end in
  fake_features ←
    (if training then
       fake ← _create_fake_features features;
       Ok (PyDict.set attribute fake fake_features)
     else Ok fake_features);
  fake ← match PyDict.get attribute fake_features with
         | Some fake => Ok fake
         | None => Raise (KeyError attribute)
         end;
  let '(attribute_masks, _dense_features, _sparse_features) :=
    _extract_features features fake attribute in
  sparse_features ← to_feature_arrays consider_dialogue_dimension
                                      _sparse_features;
  dense_features ← to_feature_arrays consider_dialogue_dimension
                                     _dense_features;
  masks ← np_array_of np (ArrMasks attribute_masks);
  let attribute_to_feature_arrays :=
    [(MASK K, [{| array := masks; number_of_dimensions := 3 |}])] in
  let feature_types :=
    py_set h (PyDict.keys dense_features ++ PyDict.keys sparse_features) in
  Ok (fold_left (add_feature_type sparse_features dense_features)
                feature_types attribute_to_feature_arrays,
      fake_features).

(** [isinstance(features[0], Dict)] and the wrapping of the flat form. *)
Definition unify_format (features : raw_features)
  : result (list (list turn)) :=
  match features with
  | Flat [] => Raise IndexError
  | Nested [] => Raise IndexError
  | Flat examples => Ok ((fun dicts => [dicts]) <$> examples)
  | Nested examples => Ok examples
  end.

(** [dialogue_length] and [num_examples] of [absent_features]. *)
Definition absent_dimensions (attribute_to_features : surfaced)
  : result (nat * nat) :=
  fold_result
    (fun '(dialogue_length, num_examples) _features =>
       let num_examples := max num_examples (length _features) in
       first ← py_index _features 0;
       Ok (max dialogue_length (length first), num_examples))
    (1, 1) (PyDict.values attribute_to_features).

Definition convert_to_data_format (features : raw_features)
    (fake_features : option fake_feature_set)
    (consider_dialogue_dimension : bool)
  : prog (option (list string)) (Data * fake_feature_set) :=
  (let training := negb (truthy fake_features) in
   let fake_features := if training then [] else default [] fake_features in
   features <- lift (unify_format features) ;;
   attribute_to_features <- _surface_attributes features ;;
   let attributes :=
     if training then PyDict.keys attribute_to_features
     else PyDict.keys fake_features in
   dimensions <- lift (absent_dimensions attribute_to_features) ;;
   let '(dialogue_length, num_examples) := dimensions in
   let absent_features :=
     replicate num_examples (replicate dialogue_length None) in
   built <-
     lift (fold_result
             (fun '(attribute_data, fake_features) attribute =>
                '(arrays, fake_features) ←
                  _feature_arrays_for_attribute attribute absent_features
                    attribute_to_features training fake_features
                    consider_dialogue_dimension;
                Ok (PyDict.set attribute arrays attribute_data, fake_features))
             ([], fake_features) attributes) ;;
   let '(attribute_data, fake_features) := built in
   pure (sorted attribute_data, fake_features))%prog.

End Pipeline.

(** ** Vocabulary of the properties *)

(** The token counts of a dense and a sparse matrix of one subtype differ. *)
Definition token_counts_differ (dense sparse : option Features) : Prop :=
  exists d s, dense = Some d /\ sparse = Some s
              /\ fst (matrix_shape (features d))
                 <> fst (matrix_shape (features s)).

(** The sizes reported for one attribute: what the raw example gives,
    restricted to [type] when one is asked for. *)
Definition reported_sizes {Token Entities : Type}
    (training_example : Message Token Entities)
    (featurizers : option (list string)) (type : option string)
    (attribute : string) : list (string * list Z) :=
  let sizes :=
    get_sparse_feature_sizes training_example attribute featurizers in
  if truthy_str type then filter (fun kv => Some (fst kv) = type) sizes
  else sizes.

(** What one turn holds for an attribute once the featurizer filter, if there
    is one, has been applied: [None] when the turn lacks the attribute. *)
Definition cell (featurizers : option (list string)) (attribute : string)
    (t : turn) : option (list Features) :=
  match featurizers with
  | Some (x :: l) =>
      filter (fun f => origin f ∈ (x :: l) ++ [TAG_ID_ORIGIN])
        <$> PyDict.get attribute t
  | _ => PyDict.get attribute t
  end.

Definition has_turns {A} (example : list A) : bool :=
  match example with
  | [] => false
  | _ :: _ => true
  end.

(** The examples that have at least one turn. *)
Definition with_turns (features : list (list turn)) : list (list turn) :=
  filter (fun example => has_turns example) features.

(** The surfaced features of an attribute: per example with turns, per turn. *)
Definition rows (featurizers : option (list string)) (attribute : string)
    (features : list (list turn)) : list (list (option (list Features))) :=
  (fun example : list turn => cell featurizers attribute <$> example)
    <$> with_turns features.

(** The number of (turn, attribute) pairs that carry a feature list. *)
Definition real_cells (features : list (list turn)) : nat :=
  sum_list_with
    (sum_list_with (fun t : turn => length (remove_dups (PyDict.keys t))))
    features.

(** The caller's [featurizers] after [n] appends of [TAG_ID_ORIGIN]; a
    missing or empty list is never appended to. *)
Definition grow (featurizers : option (list string)) (n : nat)
  : option (list string) :=
  match featurizers with
  | Some (x :: l) => Some ((x :: l) ++ replicate n TAG_ID_ORIGIN)
  | _ => featurizers
  end.

(** The mask value of a turn: [1.0] with a feature list, [0.0] without. *)
Definition mask_bit (c : option (list Features)) : Q :=
  match c with
  | Some _ => 1%Q
  | None => 0%Q
  end.

(** The examples in nested form; no examples for an argument that
    [convert_to_data_format] cannot index. *)
Definition examples_of (features : raw_features) : list (list turn) :=
  match features with
  | Flat examples => (fun dicts => [dicts]) <$> examples
  | Nested examples => examples
  end.

(** Whether a turn has the attribute, as a count. *)
Definition bump (t : turn) (attribute : string) : nat :=
  match PyDict.get attribute t with
  | Some _ => 1
  | None => 0
  end.

Definition count_turns (attributes : list string) (turns : list turn) : nat :=
  sum_list_with (fun t => sum_list_with (bump t) attributes) turns.

(** The surfaced dict after the examples [seen], all of which have turns. *)
Definition surfaced_so_far (featurizers : option (list string))
    (attributes : list string) (seen : list (list turn)) : surfaced :=
  if has_turns seen
  then (fun a => (a, (fun example : list turn =>
                        cell featurizers a <$> example) <$> seen))
         <$> attributes
  else [].

(** The mask of every example: per turn, the one-element row of its bit. *)
Definition mask_of_example (turns : list (option (list Features)))
  : list (list Q) :=
  (fun c => [mask_bit c]) <$> turns.
Definition masks_of (features : list (list (option (list Features))))
  : list (list (list Q)) :=
  mask_of_example <$> features.

(** The masks of the examples for an attribute, from the input. *)
Definition expected_masks (attribute : string) (examples : list (list turn))
  : list (list (list Q)) :=
  (fun example : list turn =>
     (fun t => [mask_bit (PyDict.get attribute t)]) <$> example)
    <$> with_turns examples.

(** The feature lists of an attribute that are not [None], in order. *)
Definition real_lists (features : list (list (option (list Features))))
  : list (list Features) :=
  list_of_list_of_features ← features; omap id list_of_list_of_features.

(** The features [_feature_arrays_for_attribute] works on. *)
Definition features_for (attribute : string)
    (absent_features : list (list (option (list Features))))
    (attribute_to_features : surfaced)
  : list (list (option (list Features))) :=
  match PyDict.get attribute attribute_to_features with
  | Some fs => fs
  | None => absent_features
  end.

(** The features used for an attribute when it is in none of the examples. *)
Definition absent_of (dimensions : nat * nat)
  : list (list (option (list Features))) :=
  replicate (snd dimensions) (replicate (fst dimensions) None).

(** The fake features of an attribute: built from its features in training,
    looked up in the given fake feature set otherwise. *)
Definition fake_for (training : bool) (fake_features : fake_feature_set)
    (features : list (list (option (list Features)))) (attribute : string)
  : list Features :=
  if training then
    match _create_fake_features features with
    | Ok fake => fake
    | Raise _ => []
    end
  else default [] (PyDict.get attribute fake_features).

(** The arrays of one feature type: the sparse one, then the dense one. *)
Definition arrays_value (sparse dense : list (string * FeatureArray))
    (feature_type : string) : list FeatureArray :=
  option_list (PyDict.get feature_type sparse)
  ++ option_list (PyDict.get feature_type dense).

Definition mask_array (masks : list (list (list Q))) : FeatureArray :=
  {| array := ArrMasks masks; number_of_dimensions := 3 |}.

(** A dict of lists all of whose keys satisfy [P] and all of whose values
    are non-empty lists of elements that satisfy [R]. *)
Definition dict_ok {A} (P : string -> Prop) (R : A -> Prop)
    (d : list (string * list A)) : Prop :=
  Forall (fun kv => P (fst kv) /\ snd kv <> [] /\ Forall R (snd kv)) d.

Definition buckets_ok (P : string -> Prop)
    (b : list (string * list matrix) * list (string * list matrix)) : Prop :=
  dict_ok P (fun _ => True) (fst b) /\ dict_ok P (fun _ => True) (snd b).

Definition collected_ok (P : string -> Prop)
    (d : list (string * list (list matrix))) : Prop :=
  dict_ok P (fun v : list matrix => v <> []) d.

(** What [np.array] is given for the matrices collected under one key: the
    matrices of all turns of every example, or those of its first turn. *)
Definition array_arg (consider_dialogue_dimension : bool)
    (values : list (list matrix)) : np_array :=
  if consider_dialogue_dimension then ArrNested values
  else ArrFlat (omap head values).

Section Keyed.

Variable K : constants.

(** Whether numpy accepts all that it is given for an attribute: the sparse
    matrices under each key, the dense matrices under each key, and the
    masks. *)
Definition accepted (np : numpy) (consider_dialogue_dimension : bool)
    (features : list (list (option (list Features))))
    (fake_features : list Features) (attribute : string) : bool :=
  let '(attribute_masks, _dense_features, _sparse_features) :=
    _extract_features K features fake_features attribute in
  forallb (fun kv => np (array_arg consider_dialogue_dimension (snd kv)))
          _sparse_features
  && forallb (fun kv => np (array_arg consider_dialogue_dimension (snd kv)))
             _dense_features
  && np (ArrMasks attribute_masks).

(** The sparse and the dense arrays of an attribute, by feature type, as
    they are when numpy accepts them. *)
Definition typed_arrays (attribute : string)
    (features : list (list (option (list Features))))
    (fake_features : list Features) (consider_dialogue_dimension : bool)
  : result (list (string * FeatureArray) * list (string * FeatureArray)) :=
  let '(_, _dense_features, _sparse_features) :=
    _extract_features K features fake_features attribute in
  sparse_features ← to_feature_arrays lenient consider_dialogue_dimension
                                      _sparse_features;
  dense_features ← to_feature_arrays lenient consider_dialogue_dimension
                                     _dense_features;
  Ok (sparse_features, dense_features).

(** The dict of an attribute: the mask, then the feature types in the
    iteration order of their set. *)
Definition assemble (h : HashSeed) (masks : list (list (list Q)))
    (sparse dense : list (string * FeatureArray)) : attribute_arrays :=
  fold_left (fun out feature_type =>
               PyDict.set feature_type
                          (arrays_value sparse dense feature_type) out)
            (py_set h (PyDict.keys dense ++ PyDict.keys sparse))
            [(MASK K, [mask_array masks])].

(** The dict of an attribute in [Data]. *)
Definition arrays_for (h : HashSeed) (consider_dialogue_dimension : bool)
    (features : list (list (option (list Features))))
    (fake : list Features) (attribute : string) : attribute_arrays :=
  match typed_arrays attribute features fake consider_dialogue_dimension with
  | Ok (sparse, dense) => assemble h (masks_of features) sparse dense
  | Raise _ => []
  end.

Variable P : string -> Prop.

(** The features under [attribute] whose key satisfies [P], and the cells
    made of such features. *)
Definition feature_ok (attribute : string) (f : Features) : Prop :=
  P (feature_key K attribute f).
Definition cell_ok (attribute : string) (c : option (list Features)) : Prop :=
  forall l, c = Some l -> Forall (feature_ok attribute) l.

(** Every feature under [attribute], in the examples and in the given fake
    feature set, has a key that satisfies [P]. *)
Definition keyed (attribute : string) (examples : list (list turn))
    (fake_features : option fake_feature_set) : Prop :=
  (forall example t fs,
     example ∈ examples -> t ∈ example ->
     PyDict.get attribute t = Some fs -> Forall (feature_ok attribute) fs)
  /\ (forall given fs,
        fake_features = Some given -> PyDict.get attribute given = Some fs ->
        Forall (feature_ok attribute) fs).

(** The same for every attribute. *)
Definition well_keyed (examples : list (list turn))
    (fake_features : option fake_feature_set) : Prop :=
  (forall example t a fs,
     example ∈ examples -> t ∈ example -> PyDict.get a t = Some fs ->
     Forall (feature_ok a) fs)
  /\ (forall given a fs,
        fake_features = Some given -> PyDict.get a given = Some fs ->
        Forall (feature_ok a) fs).

(** What the loop over the attributes needs of an attribute. *)
Definition ready (absent_features : list (list (option (list Features))))
    (attribute_to_features : surfaced) (training : bool)
    (given : fake_feature_set) (a : string) : Prop :=
  Forall (Forall (cell_ok a))
         (features_for a absent_features attribute_to_features)
  /\ if training
     then exists first others,
            real_lists (features_for a absent_features attribute_to_features)
            = first :: others
     else exists fake, PyDict.get a given = Some fake
                       /\ Forall (feature_ok a) fake.

End Keyed.

(** Data for examples: two NLU examples, the first with text features
    (sparse sequence and sentence features from a count-vector featurizer,
    a dense sentence feature) and an intent label, the second with a sparse
    sentence feature only; and two messages. *)
Module Example.

Definition sparse_sequence : Features :=
  {| features := spmatrix int64 (3, 16) [(0, 3, 1%Q); (2, 7, 1%Q)];
     type := "sequence"; attribute := "text"; origin := "CountVectors" |}.
Definition sparse_sentence : Features :=
  {| features := spmatrix int64 (1, 16) [(0, 3, 1%Q); (0, 7, 1%Q)];
     type := "sentence"; attribute := "text"; origin := "CountVectors" |}.
Definition dense_sentence : Features :=
  {| features := ndarray float32 (1, 2) [(1 # 2)%Q; (1 # 4)%Q];
     type := "sentence"; attribute := "text"; origin := "Embeddings" |}.
Definition dense_sequence : Features :=
  {| features := ndarray float32 (2, 2) [1%Q; 0%Q; 0%Q; 1%Q];
     type := "sequence"; attribute := "text"; origin := "Embeddings" |}.
Definition label : Features :=
  {| features := ndarray float32 (1, 4) [0%Q; 1%Q; 0%Q; 0%Q];
     type := "sentence"; attribute := "intent"; origin := "Labels" |}.

Definition dense_wide : Features :=
  {| features := ndarray float32 (1, 3) [(1 # 2)%Q; (1 # 4)%Q; (1 # 4)%Q];
     type := "sentence"; attribute := "text"; origin := "Embeddings" |}.


Definition first_example : turn :=
  [("text", [sparse_sequence; sparse_sentence; dense_sentence]);
   ("intent", [label])].
Definition second_example : turn := [("text", [sparse_sentence])].
Definition examples : raw_features := Flat [first_example; second_example].

(** A message whose features are those of [first_example]; in
    [misaligned] the dense sequence features have 2 rows where the sparse
    ones have 3. *)
Definition message : Message unit unit :=
  {| get_text := Some "hello there you";
     get_tokens := [tt; tt; tt];
     get_entities := tt;
     data := ["text"; "intent"];
     get_sparse_features := fun attribute _ =>
       if decide (attribute = "text")
       then (Some sparse_sequence, Some sparse_sentence) else (None, None);
     get_dense_features := fun attribute _ =>
       if decide (attribute = "text")
       then (None, Some dense_sentence) else (None, None);
     get_all_features := fun attribute _ =>
       default [] (PyDict.get attribute first_example);
     get_sparse_feature_sizes := fun attribute _ =>
       if decide (attribute = "text")
       then [("sequence", [16%Z]); ("sentence", [16%Z])] else [] |}.

Definition misaligned : Message unit unit :=
  {| get_text := get_text message;
     get_tokens := get_tokens message;
     get_entities := tt;
     data := data message;
     get_sparse_features := get_sparse_features message;
     get_dense_features := fun attribute _ =>
       if decide (attribute = "text")
       then (Some dense_sequence, Some dense_sentence) else (None, None);
     get_all_features := get_all_features message;
     get_sparse_feature_sizes := get_sparse_feature_sizes message |}.

(** The same message before tokenization. *)
Definition untokenized : Message unit unit :=
  {| get_text := get_text message;
     get_tokens := [];
     get_entities := tt;
     data := data message;
     get_sparse_features := get_sparse_features message;
     get_dense_features := get_dense_features message;
     get_all_features := get_all_features message;
     get_sparse_feature_sizes := get_sparse_feature_sizes message |}.

Definition no_bilou (example : Message unit unit)
    (tags_to_ids : list (string * Z)) (tag_name : string)
  : result (list Z) := Ok [].
Definition no_label (token : unit) (entities : unit) (key : string)
  : string := "O".

(** numpy for the examples, as it makes an array of a list of matrices up to
    version 1.23.  The array gets the dimensions that all elements share,
    found from the outside in: the lengths of the lists, then the numbers
    of rows, then the widths; a sparse matrix has none to share.  Elements
    that share all of them are copied into one block, elements that
    differ at the first are kept as objects, and a dense matrix that shares
    the number of rows but not the width fits neither way: [ValueError]. *)
Definition same {A} `{EqDecision A} (l : list A) : bool :=
  match l with
  | [] => true
  | x :: l' => forallb (fun y => bool_decide (y = x)) l'
  end.

Definition stackable (values : list matrix) : bool :=
  existsb issparse values
  || negb (same ((fun m => fst (matrix_shape m)) <$> values))
  || same ((fun m => snd (matrix_shape m)) <$> values).

Definition np_rule : numpy := fun a =>
  match a with
  | ArrMasks _ => true
  | ArrNested values =>
      negb (same (length <$> values)) || stackable (concat values)
  | ArrFlat values => stackable values
  end.

End Example.


(** ** [extract_attribute_features_from_all_messages] *)

Section AllMessages.

Variables Token Entities : Type.
Variable K : constants.
Variable np : numpy.

Definition found_msg (feat_type : string) : string :=
  "Expected types of extracted features to be " +:+ SENTENCE K +:+ " or " +:+
  SEQUENCE K +:+ " but found " +:+ feat_type +:+ ".".

(** The body of the loop over the items of what one message gives. *)
Definition collect_feature (type : option string)
    (collected_features : dict (bool * string) (list matrix))
    (item : (bool * string) * matrix)
  : result (dict (bool * string) (list matrix)) :=
  let '((feat_is_sparse, feat_type), feat_mat) := item in
  if negb (bool_decide (feat_type ∈ [SEQUENCE K; SENTENCE K])) then
    Raise (ValueError (found_msg feat_type))
  else if bool_decide (type = None) || bool_decide (type = Some feat_type) then
    Ok (PyDict.append (feat_is_sparse, feat_type) feat_mat collected_features)
  else Ok collected_features.

(** The body of the loop over the messages. *)
Definition collect_message (attribute : string) (type : option string)
    (featurizers : option (list string))
    (collected_features : dict (bool * string) (list matrix))
    (msg : Message Token Entities)
  : result (dict (bool * string) (list matrix)) :=
  is_sparse_and_type_to_feature ←
    extract_attribute_features_from_message K msg attribute featurizers;
  fold_result (collect_feature type) collected_features
              is_sparse_and_type_to_feature.

(** The arrays of one feature type: the loop over [[True, False]]. *)
Definition wrap_collected
    (collected_features : dict (bool * string) (list matrix))
    (type : string) : result (list FeatureArray) :=
  fold_result
    (fun collection (is_sparse : bool) =>
       match PyDict.get (is_sparse, type) collected_features with
       | Some (m :: list_of_matrices) =>
           a ← np_array_of np (ArrFlat (m :: list_of_matrices));
           Ok (collection ++ [{| array := a; number_of_dimensions := 3 |}])
       | _ => Ok collection
       end)
    [] [true; false].

Definition extract_attribute_features_from_all_messages
    (messages : list (Message Token Entities)) (attribute : string)
    (type : option string) (featurizers : option (list string))
  : result (list FeatureArray * list FeatureArray) :=
  if match type with
     | Some t => negb (bool_decide (t ∈ [SENTENCE K; SEQUENCE K]))
     | None => false
     end
  then Raise (ValueError (type_msg K type))
  else
    collected_features ←
      fold_result (collect_message attribute type featurizers) [] messages;
    sequence_features ← wrap_collected collected_features (SEQUENCE K);
    sentence_features ← wrap_collected collected_features (SENTENCE K);
    Ok (sequence_features, sentence_features).

End AllMessages.

Arguments collect_feature K type collected_features item : assert.
Arguments collect_message {Token Entities} K attribute type featurizers
  collected_features msg.
Arguments extract_attribute_features_from_all_messages {Token Entities} K np
  messages attribute type featurizers.

(** ** Vocabulary of the properties of the feature arrays *)

(** A dict entry that holds a list, extended by more elements; without more
    elements the entry stays as it is, missing if it was. *)
Definition extend {A} (o : option (list A)) (l : list A) : option (list A) :=
  match l with
  | [] => o
  | _ :: _ => Some (default [] o ++ l)
  end.

(** The values that a list of items holds for [key], in order. *)
Definition picked {Key A} `{EqDecision Key} (key : Key)
    (items : list (Key * A)) : list A :=
  kv ← items; if decide (key = fst kv) then [snd kv] else [].

Definition non_empty {A} (l : list A) : option (list A) :=
  match l with
  | [] => None
  | _ :: _ => Some l
  end.

Section Collected.

Variable K : constants.

(** The matrices that one example puts under [key], the sparse ones or the
    dense ones, in the order of its turns and, in a turn, of its features; a
    turn without features counts with the fake features. *)
Definition matrices_of (attribute : string) (sparse : bool) (key : string)
    (fake_features : list Features) (turns : list (option (list Features)))
  : list matrix :=
  f ← (c ← turns; default fake_features c);
  if bool_decide (is_sparse f = sparse /\ feature_key K attribute f = key)
  then [features f] else [].

(** The same for all examples: one list per example that has such a matrix. *)
Definition collected_for (attribute : string) (sparse : bool) (key : string)
    (fake_features : list Features)
    (features : list (list (option (list Features))))
  : list (list matrix) :=
  filter (fun l => l <> [])
         (matrices_of attribute sparse key fake_features <$> features).

(** The array made of the matrices collected under a key. *)
Definition feature_array (consider_dialogue_dimension : bool)
    (values : list (list matrix)) : FeatureArray :=
  if consider_dialogue_dimension
  then {| array := ArrNested values; number_of_dimensions := 4 |}
  else {| array := ArrFlat (omap head values); number_of_dimensions := 3 |}.

Definition wrap (consider_dialogue_dimension : bool)
    (values : list (list matrix)) : list FeatureArray :=
  match values with
  | [] => []
  | _ :: _ => [feature_array consider_dialogue_dimension values]
  end.

(** The kinds and keys of the features of a list. *)
Definition signature (attribute : string) (fs : list Features)
  : list (bool * string) :=
  (fun f => (is_sparse f, feature_key K attribute f)) <$> fs.

End Collected.

(** The number of examples an array has an entry for. *)
Definition batch_size (a : FeatureArray) : nat :=
  match array a with
  | ArrMasks masks => length masks
  | ArrNested values => length values
  | ArrFlat values => length values
  end.

(** An array that holds matrices only, all sparse or all dense. *)
Definition holds_kind (sparse : bool) (a : FeatureArray) : Prop :=
  match array a with
  | ArrMasks _ => False
  | ArrNested values => Forall (Forall (fun m => issparse m = sparse)) values
  | ArrFlat values => Forall (fun m => issparse m = sparse) values
  end.

(** The feature lists of every attribute agree on the kinds and keys of
    their features: whatever the featurizers (those that pass the filter)
    give for an attribute in one turn, they give in every turn that has the
    attribute. *)
Definition uniform (K : constants) (featurizers : option (list string))
    (examples : list (list turn)) : Prop :=
  Forall
    (fun a =>
       Forall (fun fs =>
                 Forall (fun fs' => signature K a fs ⊆ signature K a fs')
                        (real_lists (rows featurizers a examples)))
              (real_lists (rows featurizers a examples)))
    (all_attributes examples).

(** Data for examples: three stories, the last one without turns; the text
    has a sparse and a dense sentence feature wherever it occurs, the action
    a dense one. *)
Module Stories.

Definition action : Features :=
  {| features := ndarray float32 (1, 3) [0%Q; 0%Q; 1%Q];
     type := "sentence"; attribute := "action_name"; origin := "Labels" |}.

Definition user_turn : turn :=
  [("text", [Example.sparse_sentence; Example.dense_sentence])].
Definition bot_turn : turn := [("action_name", [action])].

Definition stories : raw_features :=
  Nested [[user_turn; bot_turn]; [user_turn]; []].

End Stories.

(** The number of turns and the number of examples that an attribute gets
    when it is in none of the examples: the turns of the first example that
    has turns, for every such example; one turn of one example when the
    input has no attribute at all. *)
Definition absent_shape (examples : list (list turn)) : nat * nat :=
  match all_attributes examples, with_turns examples with
  | _ :: _, first :: others => (length first, S (length others))
  | _, _ => (1, 1)
  end.
End ModelDataUtils.

(** * Properties of the Keras policy *)

Section KerasPolicyProperties.
Import Keras KerasPolicy.

Variable add_error : list layer -> layer -> option exn.

(** What [add] raises is what Keras raises for the layer. *)
Lemma add_Raise (model : Sequential) (l : layer) (e : exn) :
  add add_error model l = Raise e -> add_error (layers model) l = Some e.
Proof.
  unfold add. destruct (add_error (layers model) l); by intros [= ->].
Qed.

Lemma add_Ok (model model' : Sequential) (l : layer) :
  add add_error model l = Ok model' ->
  add_error (layers model) l = None
  /\ model' = {| layers := layers model ++ [l]; compiled := compiled model |}.
Proof.
  unfold add. destruct (add_error (layers model) l); by intros [= <-].
Qed.

(** The layers that [model_architecture] adds, in order, for the two ranks
    of [output_shape] it accepts. *)
Lemma model_architecture_Ok (input_shape output_shape : shape)
    (m : Sequential) :
  model_architecture add_error input_shape output_shape = Ok m ->
  compiled m = Some {| loss := "categorical_crossentropy";
                       optimizer := "rmsprop"; metrics := ["accuracy"] |}
  /\ (forall k l, layers m !! k = Some l ->
                  add_error (take k (layers m)) l = None)
  /\ ((exists units,
         output_shape = [units]
         /\ layers m = [Masking (-1) input_shape; LSTM 32 false (2 # 10);
                        Dense (Some 32%Z) units; Activation "softmax"])
      \/ (exists d width units,
            output_shape = [d; units] /\ input_shape !! 1 = Some width
            /\ layers m = [Masking (-1) [None; width]; LSTM 32 true (2 # 10);
                           TimeDistributed (Dense None units);
                           Activation "softmax"])).
Proof.
  unfold model_architecture. intros Hm.
  destruct (decide (length output_shape = 1)) as [E1|N1].
  - destruct output_shape as [|units [|? ?]]; simplify_eq/=.
    destruct (add _ _ (Masking _ _)) as [m1|] eqn:H1; simplify_eq/=.
    destruct (add _ m1 _) as [m2|] eqn:H2; simplify_eq/=.
    destruct (add _ m2 _) as [m3|] eqn:H3; simplify_eq/=.
    destruct (add _ m3 _) as [m4|] eqn:H4; simplify_eq/=.
    apply add_Ok in H1 as [A1 ->]. apply add_Ok in H2 as [A2 ->].
    apply add_Ok in H3 as [A3 ->]. apply add_Ok in H4 as [A4 ->].
    split; [done|]. split; [|left; by exists units].
    intros [|[|[|[|k]]]] l [= <-]; assumption.
  - destruct (decide (length output_shape = 2)) as [E2|N2]; [|done].
    destruct output_shape as [|d [|units [|? ?]]]; simplify_eq/=.
    destruct (py_index input_shape 1) as [width|] eqn:Hw; simplify_eq/=.
    assert (Hwidth : input_shape !! 1 = Some width).
    { unfold py_index in Hw. by destruct (_ !! _); simplify_eq. }
    destruct (add _ _ (Masking _ _)) as [m1|] eqn:H1; simplify_eq/=.
    destruct (add _ m1 _) as [m2|] eqn:H2; simplify_eq/=.
    destruct (add _ m2 _) as [m3|] eqn:H3; simplify_eq/=.
    destruct (add _ m3 _) as [m4|] eqn:H4; simplify_eq/=.
    apply add_Ok in H1 as [A1 ->]. apply add_Ok in H2 as [A2 ->].
    apply add_Ok in H3 as [A3 ->]. apply add_Ok in H4 as [A4 ->].
    split; [done|]. split; [|right; by exists d, width, units].
    intros [|[|[|[|k]]]] l [= <-]; assumption.
Qed.

(** With an accepted rank, what [model_architecture] raises is the
    [IndexError] of [input_shape[1]] or what Keras raises for a layer. *)
Lemma model_architecture_Raise (input_shape output_shape : shape) (e : exn) :
  length output_shape = 1 \/ length output_shape = 2 ->
  model_architecture add_error input_shape output_shape = Raise e ->
  (e = IndexError /\ length output_shape = 2 /\ length input_shape < 2)
  \/ (exists stack l, add_error stack l = Some e).
Proof.
  unfold model_architecture. intros Hrank He.
  destruct (decide (length output_shape = 1)) as [E1|N1].
  - destruct output_shape as [|units [|? ?]]; simplify_eq/=. right.
    destruct (add _ _ (Masking _ _)) as [m1|] eqn:H1; simplify_eq/=;
      [|apply add_Raise in H1; eauto].
    destruct (add _ m1 _) as [m2|] eqn:H2; simplify_eq/=;
      [|apply add_Raise in H2; eauto].
    destruct (add _ m2 _) as [m3|] eqn:H3; simplify_eq/=;
      [|apply add_Raise in H3; eauto].
    destruct (add _ m3 _) as [m4|] eqn:H4; simplify_eq/=.
    apply add_Raise in H4; eauto.
  - destruct (decide (length output_shape = 2)) as [E2|N2]; [|lia].
    destruct output_shape as [|d [|units [|? ?]]]; simplify_eq/=.
    destruct (py_index input_shape 1) as [width|] eqn:Hw; simplify_eq/=.
    + right.
      destruct (add _ _ (Masking _ _)) as [m1|] eqn:H1; simplify_eq/=;
        [|apply add_Raise in H1; eauto].
      destruct (add _ m1 _) as [m2|] eqn:H2; simplify_eq/=;
        [|apply add_Raise in H2; eauto].
      destruct (add _ m2 _) as [m3|] eqn:H3; simplify_eq/=;
        [|apply add_Raise in H3; eauto].
      destruct (add _ m3 _) as [m4|] eqn:H4; simplify_eq/=.
      apply add_Raise in H4; eauto.
    + left. unfold py_index in Hw.
      destruct (_ !! _) eqn:Hnone in Hw; simplify_eq.
      apply lookup_ge_None in Hnone. split; [done|]. split; [done|lia].
Qed.

Lemma model_architecture_invalid (input_shape output_shape : shape) :
  length output_shape <> 1 -> length output_shape <> 2 ->
  model_architecture add_error input_shape output_shape
  = Raise (ValueError (invalid_shape_msg (length output_shape))).
Proof.
  intros H1 H2. unfold model_architecture.
  destruct (decide (length output_shape = 1)) as [E|_]; [contradiction|].
  destruct (decide (length output_shape = 2)) as [E|_]; [contradiction|].
  reflexivity.
Qed.

(** C7 (as the code has it).  [model_architecture] looks at the rank of
    [output_shape] and at nothing else of it.  With a rank other than 1 and
    2 it raises its invalid-shape [ValueError], before any layer is made.
    With rank 1 or 2, [(3, 3)] included, its own [raise] is not reached:
    what it raises then is the [IndexError] of [input_shape[1]] or an
    exception of Keras for a layer.  So, Keras not raising that very
    exception, the invalid-shape error is raised exactly for the ranks other
    than 1 and 2. *)
Theorem model_architecture_invalid_shape_iff
    (input_shape output_shape : shape) :
  let invalid_shape :=
    ValueError (invalid_shape_msg (length output_shape)) in
  (length output_shape <> 1 /\ length output_shape <> 2 ->
   model_architecture add_error input_shape output_shape
   = Raise invalid_shape)
  /\ (length output_shape = 1 \/ length output_shape = 2 ->
      forall e,
        model_architecture add_error input_shape output_shape = Raise e ->
        e = IndexError \/ exists stack l, add_error stack l = Some e)
  /\ ((forall stack l, add_error stack l <> Some invalid_shape) ->
      model_architecture add_error input_shape output_shape
      = Raise invalid_shape
      <-> length output_shape <> 1 /\ length output_shape <> 2).
Proof.
  intros invalid_shape. split; [|split].
  - intros [H1 H2]. by apply model_architecture_invalid.
  - intros Hrank e He.
    destruct (model_architecture_Raise _ _ _ Hrank He) as [[-> _]|Hk]; auto.
  - intros Hkeras. split; [|intros [H1 H2]; by apply model_architecture_invalid].
    intros He.
    destruct (decide (length output_shape = 1 \/ length output_shape = 2))
      as [Hrank|Hrank]; [|lia].
    destruct (model_architecture_Raise _ _ _ Hrank He)
      as [[? _]|(stack & l & Hk)]; [done|].
    by apply Hkeras in Hk.
Qed.

Context {Tracker Domain Array Metadata : Type}.
Variable array_shape : Array -> shape.
Variable featurize_for_training :
  list Tracker -> Domain -> option Z -> result (TrainingData Array Metadata).
Variable _get_valid_params : train_kwargs -> train_kwargs.
Variable fit_error : Model Array -> fit_call Array -> option exn.

(** [train], step by step, for any list of trackers. *)
Lemma train_outcome (self : policy Tracker Array)
    (training_trackers : list Tracker) (domain : Domain)
    (kwargs : train_kwargs) :
  let called :=
    {| model := model self; current_epoch := current_epoch self;
       trace := trace self
                ++ [Featurized training_trackers (max_training_samples kwargs)]
    |} in
  train array_shape featurize_for_training _get_valid_params add_error
        fit_error training_trackers domain kwargs self
  = match featurize_for_training training_trackers domain
                                 (max_training_samples kwargs) with
    | Raise e => (Raise e, called)
    | Ok training_data =>
        let '(shuffled_X, shuffled_y) := shuffled_X_y training_data in
        match model_architecture add_error (tail (array_shape shuffled_X))
                                 (tail (array_shape shuffled_y)) with
        | Raise e => (Raise e, called)
        | Ok m =>
            let fresh := {| arch := m; fitted := [] |} in
            let c := {| fit_X := shuffled_X; fit_y := shuffled_y;
                        fit_kwargs := FitParams (_get_valid_params kwargs) |} in
            match fit_error fresh c with
            | Some e =>
                (Raise e,
                 {| model := Some fresh;
                    current_epoch := current_epoch self;
                    trace := trace called ++ [Fitted c] |})
            | None =>
                (Ok (metadata training_data),
                 {| model := Some {| arch := m; fitted := [c] |};
                    current_epoch := default 1%Z (epochs kwargs);
                    trace := trace called ++ [Fitted c] |})
            end
        end
    end.
Proof.
  intros called. unfold train, call_featurize, bind, log, lift.
  destruct (featurize_for_training training_trackers domain _) as [td|e];
    [|done].
  destruct (shuffled_X_y td) as [sx sy].
  destruct (model_architecture _ _ _) as [m|e]; [|done].
  unfold call_fit, bind, get_state, set_model, log, throw. simpl.
  destruct (fit_error _ _); done.
Qed.


(** [continue_training], step by step. *)
Lemma continue_training_outcome (self : policy Tracker Array)
    (trackers : list Tracker) (domain : Domain) :
  let called := trace self ++ [Featurized trackers None] in
  let epoch := (current_epoch self + 1)%Z in
  continue_training featurize_for_training fit_error trackers domain self
  = match featurize_for_training trackers domain None with
    | Raise e =>
        (Raise e, {| model := model self;
                     current_epoch := current_epoch self;
                     trace := called |})
    | Ok training_data =>
        let c := {| fit_X := X training_data; fit_y := y training_data;
                    fit_kwargs :=
                      FitIncremental (epoch + 1) (length trackers) 0 epoch |}
        in
        match model self with
        | None =>
            (Raise (AttributeError
                      "'NoneType' object has no attribute 'fit'"),
             {| model := None; current_epoch := epoch; trace := called |})
        | Some m =>
            match fit_error m c with
            | Some e =>
                (Raise e, {| model := Some m; current_epoch := epoch;
                             trace := called ++ [Fitted c] |})
            | None =>
                (Ok tt, {| model := Some (fit m c); current_epoch := epoch;
                           trace := called ++ [Fitted c] |})
            end
        end
    end.
Proof.
  intros called epoch.
  unfold continue_training, call_featurize, call_fit, bind, log, lift,
    get_state, set_current_epoch, set_model, throw. simpl.
  destruct (featurize_for_training trackers domain None) as [td|e]; [|done].
  simpl. destruct (model self) as [m|]; simpl; [|done].
  destruct (fit_error m _); done.
Qed.

(** C9 (as the code has it).  [continue_training] does not check for a
    model.  It featurizes the trackers first and raises what that raises,
    the policy unchanged.  Then it increments the epoch counter by one, and
    only then calls [self.model.fit]: without a model this is the
    [AttributeError] of [None], and the counter stays incremented.  With a
    model there is exactly one call of [fit], which starts at the new
    counter and runs for one epoch; when it returns the model has that one
    more pass, and when it raises the model has the passes it had. *)
Theorem continue_training_one_more_pass (self : policy Tracker Array)
    (trackers : list Tracker) (domain : Domain) :
  let called := trace self ++ [Featurized trackers None] in
  let epoch := (current_epoch self + 1)%Z in
  continue_training featurize_for_training fit_error trackers domain self
  = match featurize_for_training trackers domain None with
    | Raise e =>
        (Raise e, {| model := model self;
                     current_epoch := current_epoch self;
                     trace := called |})
    | Ok training_data =>
        let c := {| fit_X := X training_data; fit_y := y training_data;
                    fit_kwargs :=
                      FitIncremental (epoch + 1) (length trackers) 0 epoch |}
        in
        match model self with
        | None =>
            (Raise (AttributeError
                      "'NoneType' object has no attribute 'fit'"),
             {| model := None; current_epoch := epoch; trace := called |})
        | Some m =>
            match fit_error m c with
            | Some e =>
                (Raise e, {| model := Some m; current_epoch := epoch;
                             trace := called ++ [Fitted c] |})
            | None =>
                (Ok tt, {| model := Some {| arch := arch m;
                                            fitted := fitted m ++ [c] |};
                           current_epoch := epoch;
                           trace := called ++ [Fitted c] |})
            end
        end
    end.
Proof. apply continue_training_outcome. Qed.

End KerasPolicyProperties.

(** C7, the claim as stated fails: [output_shape = (3, 3)] has rank 2 and is
    accepted; the per-turn model with 3 output units is built. *)
Lemma model_architecture_3_3_accepted :
  KerasPolicy.model_architecture KerasPolicy.Example.add_error
    [Some 5%Z; Some 10%Z] [Some 3%Z; Some 3%Z]
  = Ok {| Keras.layers :=
            [Keras.Masking (-1) [None; Some 10%Z];
             Keras.LSTM 32 true (2 # 10);
             Keras.TimeDistributed (Keras.Dense None (Some 3%Z));
             Keras.Activation "softmax"];
          Keras.compiled :=
            Some {| Keras.loss := "categorical_crossentropy";
                    Keras.optimizer := "rmsprop";
                    Keras.metrics := ["accuracy"] |} |}.
Proof. reflexivity. Qed.

(** An input of rank 1 with an output of rank 1: the recurrent layer is
    refused, and [model_architecture] raises the [ValueError] of Keras. *)
Example model_architecture_flat_input_refused :
  exists msg,
    KerasPolicy.model_architecture KerasPolicy.Example.add_error
      [Some 10%Z] [Some 7%Z]
    = Raise (ValueError msg)
    /\ msg <> KerasPolicy.invalid_shape_msg 1.
Proof. eexists. split; [reflexivity | discriminate]. Qed.


(** C9, the claim as stated fails: on a policy that was never trained,
    [continue_training] featurizes the trackers and increments the epoch
    counter before it fails, and the failure is the [AttributeError] of
    [None.fit]: there is no check for a model. *)
Lemma continue_training_untrained_no_check :
  let '(r, self) :=
    KerasPolicy.continue_training KerasPolicy.Example.featurize
      KerasPolicy.Example.fit_error [tt] tt KerasPolicy.Example.untrained in
  r = Raise (AttributeError "'NoneType' object has no attribute 'fit'")
  /\ KerasPolicy.current_epoch KerasPolicy.Example.untrained = 0%Z
  /\ KerasPolicy.current_epoch self = 1%Z
  /\ KerasPolicy.model self = None
  /\ KerasPolicy.trace self = [KerasPolicy.Featurized [tt] None].
Proof. vm_compute. repeat split. Qed.
(** * Properties of the feature pipeline *)

(** ** Dicts *)

Section PyDictFacts.
Context {K V : Type} `{EqDecision K}.
Implicit Types (k : K) (v : V) (d : list (K * V)).

Lemma get_set_eq k v d : PyDict.get k (PyDict.set k v d) = Some v.
Proof.
  induction d as [|[k' v'] d IH]; simpl.
  - by rewrite decide_True.
  - destruct (decide (k = k')) as [->|Hne]; simpl.
    + by rewrite decide_True.
    + by rewrite decide_False.
Qed.

Lemma get_set_ne k k' v d :
  k <> k' -> PyDict.get k' (PyDict.set k v d) = PyDict.get k' d.
Proof.
  intros Hne. induction d as [|[k0 v0] d IH]; simpl.
  - by rewrite decide_False.
  - destruct (decide (k = k0)) as [->|Hne0]; simpl.
    + by rewrite !decide_False.
    + destruct (decide (k' = k0)); done.
Qed.

Lemma get_None_keys k d : PyDict.get k d = None <-> k ∉ PyDict.keys d.
Proof.
  unfold PyDict.keys. induction d as [|[k' v'] d IH]; simpl.
  - split; [intros _; apply not_elem_of_nil | done].
  - rewrite not_elem_of_cons. destruct (decide (k = k')) as [->|Hne].
    + split; [done | intros [? _]; done].
    + rewrite IH. tauto.
Qed.

Lemma get_Some_keys k d : is_Some (PyDict.get k d) <-> k ∈ PyDict.keys d.
Proof.
  destruct (PyDict.get k d) as [v|] eqn:E.
  - split; [intros _|by eauto].
    destruct (decide (k ∈ PyDict.keys d)) as [|Hn]; [done|].
    apply get_None_keys in Hn. congruence.
  - split; [by intros [? ?]|]. intros Hin. by apply get_None_keys in E.
Qed.

Lemma get_Some_elem k v d : PyDict.get k d = Some v -> (k, v) ∈ d.
Proof.
  induction d as [|[k' v'] d IH]; simpl; [done|].
  destruct (decide (k = k')) as [->|Hne].
  - intros [= ->]. left.
  - intros Hg. right. by apply IH.
Qed.

Lemma elem_get_NoDup k v d :
  NoDup (PyDict.keys d) -> (k, v) ∈ d -> PyDict.get k d = Some v.
Proof.
  unfold PyDict.keys. induction d as [|[k' v'] d IH]; simpl.
  - intros _ Hin. by apply elem_of_nil in Hin.
  - rewrite NoDup_cons. intros [Hnotin Hnd] Hin.
    apply elem_of_cons in Hin as [[= -> ->]|Hin].
    + by rewrite decide_True.
    + rewrite decide_False; [by apply IH|].
      intros ->. apply Hnotin. apply list_elem_of_fmap. by exists (k', v).
Qed.

Lemma keys_set k v d :
  PyDict.keys (PyDict.set k v d)
  = if decide (k ∈ PyDict.keys d) then PyDict.keys d
    else PyDict.keys d ++ [k].
Proof.
  unfold PyDict.keys. induction d as [|[k' v'] d IH].
  - destruct (decide (k ∈ _)) as [Hin|_]; [|reflexivity].
    by apply elem_of_nil in Hin.
  - cbn [PyDict.set]. destruct (decide (k = k')) as [->|Hne].
    + clear IH. destruct (decide (k' ∈ _)) as [|Hn]; [reflexivity|].
      exfalso. apply Hn. left.
    + rewrite !fmap_cons, IH. cbn [fst].
      destruct (decide (k ∈ d.*1)) as [Hin|Hnin];
        destruct (decide (k ∈ k' :: d.*1)) as [Hin'|Hnin']; try done.
      * exfalso. apply Hnin'. by right.
      * apply elem_of_cons in Hin' as [?|?]; done.
Qed.

Lemma elem_keys_set k k' v d :
  k' ∈ PyDict.keys (PyDict.set k v d) <-> k' = k \/ k' ∈ PyDict.keys d.
Proof.
  rewrite keys_set. destruct (decide (k ∈ PyDict.keys d)).
  - split; [by right | intros [->|]; done].
  - rewrite elem_of_app, list_elem_of_singleton. tauto.
Qed.

Lemma NoDup_keys_set k v d :
  NoDup (PyDict.keys d) -> NoDup (PyDict.keys (PyDict.set k v d)).
Proof.
  intros Hnd. rewrite keys_set.
  destruct (decide (k ∈ PyDict.keys d)); [done|].
  apply NoDup_app. split; [done|]. split; [|apply NoDup_singleton].
  intros x Hx Hx'. apply list_elem_of_singleton in Hx'. by subst.
Qed.

Lemma keys_fmap_pair (g : K -> V) (l : list K) :
  PyDict.keys ((fun k => (k, g k)) <$> l) = l.
Proof.
  unfold PyDict.keys. rewrite <- list_fmap_compose.
  induction l as [|k l IH]; [done|]. cbn. by rewrite IH.
Qed.

Lemma set_absent k v d :
  k ∉ PyDict.keys d -> PyDict.set k v d = d ++ [(k, v)].
Proof.
  unfold PyDict.keys. induction d as [|[k' v'] d IH]; [done|].
  rewrite fmap_cons, not_elem_of_cons. cbn. intros [Hne Hnin].
  rewrite decide_False by done. by rewrite IH.
Qed.

Lemma set_present k v w d1 d2 :
  k ∉ PyDict.keys d1 ->
  PyDict.set k v (d1 ++ (k, w) :: d2) = d1 ++ (k, v) :: d2.
Proof.
  unfold PyDict.keys. induction d1 as [|[k' v'] d1 IH].
  - intros _. cbn. by rewrite decide_True.
  - rewrite fmap_cons, not_elem_of_cons. cbn. intros [Hne Hnin].
    rewrite decide_False by done. by rewrite IH.
Qed.

Lemma get_present k w d1 d2 :
  k ∉ PyDict.keys d1 -> PyDict.get k (d1 ++ (k, w) :: d2) = Some w.
Proof.
  unfold PyDict.keys. induction d1 as [|[k' v'] d1 IH].
  - intros _. cbn. by rewrite decide_True.
  - rewrite fmap_cons, not_elem_of_cons. cbn. intros [Hne Hnin].
    rewrite decide_False by done. by apply IH.
Qed.

End PyDictFacts.

Section AppendFacts.
Context {K A : Type} `{EqDecision K}.

(** One pass of [d[k].append(x k)] over distinct keys, on an empty dict and
    on a dict that has exactly these keys. *)
Lemma append_pass_fresh (x : K -> A) (todo seen : list K) :
  NoDup (seen ++ todo) ->
  fold_left (fun d k => PyDict.append k (x k) d) todo
            ((fun k => (k, [x k])) <$> seen)
  = (fun k => (k, [x k])) <$> (seen ++ todo).
Proof.
  revert seen. induction todo as [|k todo IH]; intros seen Hnd.
  - by rewrite app_nil_r.
  - cbn [fold_left]. rewrite cons_middle, app_assoc in Hnd |- *.
    rewrite <- (IH _ Hnd). f_equal.
    apply NoDup_app in Hnd as [Hnd _].
    apply NoDup_app in Hnd as (_ & Hdisj & _).
    assert (Hk : k ∉ PyDict.keys ((fun k => (k, [x k])) <$> seen)).
    { rewrite keys_fmap_pair. intros Hin. apply (Hdisj _ Hin). left. }
    unfold PyDict.append. rewrite (proj2 (get_None_keys _ _) Hk).
    rewrite set_absent by done. by rewrite fmap_app.
Qed.

Lemma append_pass (f : K -> list A) (x : K -> A) (todo seen : list K) :
  NoDup (seen ++ todo) ->
  fold_left (fun d k => PyDict.append k (x k) d) todo
            (((fun k => (k, f k ++ [x k])) <$> seen)
             ++ ((fun k => (k, f k)) <$> todo))
  = (fun k => (k, f k ++ [x k])) <$> (seen ++ todo).
Proof.
  revert seen. induction todo as [|k todo IH]; intros seen Hnd.
  - by rewrite !app_nil_r.
  - cbn [fold_left]. rewrite cons_middle, app_assoc in Hnd |- *.
    rewrite <- (IH _ Hnd). f_equal.
    apply NoDup_app in Hnd as [Hnd _].
    apply NoDup_app in Hnd as (_ & Hdisj & _).
    assert (Hk : k ∉ PyDict.keys ((fun k => (k, f k ++ [x k])) <$> seen)).
    { rewrite keys_fmap_pair. intros Hin. apply (Hdisj _ Hin). left. }
    unfold PyDict.append. rewrite fmap_cons.
    rewrite get_present, set_present by done.
    rewrite fmap_app. cbn. by rewrite <- app_assoc.
Qed.

Lemma append_all_fresh (x : K -> A) (keys : list K) :
  NoDup keys ->
  fold_left (fun d k => PyDict.append k (x k) d) keys []
  = (fun k => (k, [x k])) <$> keys.
Proof. intros Hnd. by apply (append_pass_fresh x keys []). Qed.

Lemma append_all_present (f : K -> list A) (x : K -> A) (keys : list K) :
  NoDup keys ->
  fold_left (fun d k => PyDict.append k (x k) d) keys
            ((fun k => (k, f k)) <$> keys)
  = (fun k => (k, f k ++ [x k])) <$> keys.
Proof. intros Hnd. by apply (append_pass f x keys []). Qed.

End AppendFacts.

(** ** Features of one message *)

Section MessageProperties.
Import ModelDataUtils.
Context {Token Entities : Type}.
Variable K : constants.

Lemma rows_differ_spec dense sparse :
  rows_differ dense sparse = true <-> token_counts_differ dense sparse.
Proof.
  unfold rows_differ, token_counts_differ.
  destruct dense as [d|], sparse as [s|];
    try (split; [done|]; intros (?&?&?&?&?); done).
  rewrite bool_decide_eq_true. split.
  - intros Hne. by exists d, s.
  - intros (d' & s' & [= <-] & [= <-] & Hne). done.
Qed.

(** C5.  [extract_attribute_features_from_message] raises its [ValueError]
    exactly when the sparse and the dense matrix of one subtype (sequence or
    sentence) are both present and differ in their number of rows, and it
    raises nothing else.  Otherwise the returned dict holds, for each of the
    four (sparsity, subtype) keys, the matrix of the feature that is present
    for it, and no entry for a combination that is absent. *)
Theorem extract_attribute_features_from_message_spec
    (message : Message Token Entities) (attribute : string)
    (featurizers : option (list string)) :
  SENTENCE K <> SEQUENCE K ->
  let sparse := get_sparse_features message attribute featurizers in
  let dense := get_dense_features message attribute featurizers in
  let mismatch :=
    token_counts_differ (fst dense) (fst sparse)
    \/ token_counts_differ (snd dense) (snd sparse) in
  let r := extract_attribute_features_from_message K message attribute
                                                   featurizers in
  (raises r <-> mismatch)
  /\ (mismatch -> exists msg, r = Raise (ValueError msg))
  /\ (~ mismatch ->
      exists out, r = Ok out
        /\ PyDict.get (true, SEQUENCE K) out = features <$> fst sparse
        /\ PyDict.get (true, SENTENCE K) out = features <$> snd sparse
        /\ PyDict.get (false, SEQUENCE K) out = features <$> fst dense
        /\ PyDict.get (false, SENTENCE K) out = features <$> snd dense
        /\ forall key, PyDict.get key out <> None ->
             key ∈ [(true, SEQUENCE K); (true, SENTENCE K);
                    (false, SEQUENCE K); (false, SENTENCE K)]).
Proof.
  intros HK sparse dense mismatch r.
  subst r. unfold extract_attribute_features_from_message.
  fold sparse dense. subst mismatch.
  destruct sparse as [sp_seq sp_sen], dense as [d_seq d_sen]. cbn [fst snd].
  rewrite <- !rows_differ_spec.
  destruct (rows_differ d_seq sp_seq) eqn:Eseq.
  { split; [split; [by left | done]|]. split; [by eauto|]. intros []. by left. }
  destruct (rows_differ d_sen sp_sen) eqn:Esen.
  { split; [split; [by right | done]|]. split; [by eauto|].
    intros []. by right. }
  split; [split; [done | intros [|]; done]|]. split; [intros [|]; done|].
  intros _. eexists. split; [reflexivity|].
  assert (Hne : (true, SENTENCE K) <> (true, SEQUENCE K)) by congruence.
  assert (Hne' : (false, SENTENCE K) <> (false, SEQUENCE K)) by congruence.
  unfold put_if_present.
  destruct sp_seq as [a|], sp_sen as [b|], d_seq as [c|], d_sen as [e|];
    cbn [fmap option_fmap option_map];
    (split_and!;
     [repeat (rewrite get_set_eq || rewrite get_set_ne by congruence);
      reflexivity ..
     |intros [sp ty] Hget;
      repeat match type of Hget with
      | context [PyDict.set ?k _ _] =>
          destruct (decide (k = (sp, ty))) as [<-|];
          [solve [repeat first [left | right]]
          |rewrite get_set_ne in Hget by done]
      end; done]).
Qed.

End MessageProperties.

(** ** Sparse feature sizes *)

Section SparseSizeProperties.
Import ModelDataUtils.
Context {Token Entities : Type}.
Variable bilou_tags_to_ids :
  Message Token Entities -> list (string * Z) -> string -> result (list Z).
Variable determine_token_labels : Token -> Entities -> string -> string.
Variable K : constants.

Lemma fold_result_invariant {A B} (P : B -> Prop) (f : B -> A -> result B)
    (l : list A) (b b' : B) :
  (forall b x b', P b -> f b x = Ok b' -> P b') ->
  P b -> fold_result f b l = Ok b' -> P b'.
Proof.
  intros Hstep. revert b. induction l as [|x l IH]; intros b Hb Hfold.
  - by injection Hfold as <-.
  - cbn [fold_result] in Hfold. destruct (f b x) as [b1|e] eqn:E; [|done].
    eapply IH; [|exact Hfold]. by eapply Hstep.
Qed.

Lemma featurize_attribute_NoDup example specs featurizers bilou type d a d' :
  NoDup (PyDict.keys d) ->
  featurize_attribute bilou_tags_to_ids determine_token_labels K example specs
                      featurizers bilou type d a = Ok d' ->
  NoDup (PyDict.keys d').
Proof.
  intros Hnd. unfold featurize_attribute.
  set (first_step := if decide (a = ENTITIES K) then _ else _).
  assert (Hfirst : forall d1, first_step = Ok d1 -> NoDup (PyDict.keys d1)).
  { subst first_step. intros d1. destruct (decide (a = ENTITIES K)).
    - destruct specs as [specs|]; [|done].
      destruct (map_result _ specs) as [tags|]; [|done].
      intros [= <-]. by apply NoDup_keys_set.
    - case_bool_decide; intros [= <-]; [by apply NoDup_keys_set | done]. }
  destruct first_step as [d1|e]; [|done]. specialize (Hfirst d1 eq_refl).
  cbn. destruct (truthy_str type); [|by intros [= <-]].
  destruct (PyDict.get a d1); [|done]. intros [= <-]. by apply NoDup_keys_set.
Qed.

Lemma fold_set_get {V} (g : string -> V) (l : list string)
    (d : list (string * V)) (a : string) :
  PyDict.get a (fold_left (fun d a => PyDict.set a (g a) d) l d)
  = if decide (a ∈ l) then Some (g a) else PyDict.get a d.
Proof.
  revert d. induction l as [|x l IH]; intros d; cbn [fold_left].
  - rewrite decide_False; [done | apply not_elem_of_nil].
  - rewrite IH. destruct (decide (a ∈ l)) as [Hin|Hnin].
    + rewrite decide_True; [done | by right].
    + destruct (decide (a = x)) as [->|Hne].
      * rewrite decide_True by left. apply get_set_eq.
      * rewrite decide_False by (rewrite not_elem_of_cons; done).
        by apply get_set_ne.
Qed.

(** C6.  For a non-empty list of training examples, the sparse feature sizes
    that [featurize_training_examples] returns are those collected from the
    first featurized example and the first training example, so they are the
    same as for that first example alone; their keys are exactly the
    attributes whose feature list in the first featurized example starts
    with a sparse feature, each with the sizes of the first training
    example. *)
Theorem sparse_feature_sizes_from_first_example
    (example : Message Token Entities) (others : list (Message Token Entities))
    (attributes : list string)
    (entity_tag_specs : option (list EntityTagSpec))
    (featurizers : option (list string)) (bilou_tagging : bool)
    (type : option string)
    (output : list (list (string * list Features)))
    (sparse_feature_sizes : list (string * list (string * list Z))) :
  featurize_training_examples bilou_tags_to_ids determine_token_labels K
    (example :: others) attributes entity_tag_specs featurizers bilou_tagging
    type = Ok (output, sparse_feature_sizes) ->
  exists featurized_example,
    head output = Some featurized_example
    /\ _collect_sparse_feature_sizes K featurized_example example featurizers
                                     type = Ok sparse_feature_sizes
    /\ featurize_training_examples bilou_tags_to_ids determine_token_labels K
         [example] attributes entity_tag_specs featurizers bilou_tagging type
       = Ok ([featurized_example], sparse_feature_sizes)
    /\ forall attribute,
         PyDict.get attribute sparse_feature_sizes
         = match PyDict.get attribute featurized_example with
           | Some (f :: _) =>
               if is_sparse f
               then Some (reported_sizes example featurizers type attribute)
               else None
           | _ => None
           end.
Proof.
  unfold featurize_training_examples. intros H.
  destruct (bad_type K type) eqn:Hbad; [done|].
  cbn [map_result] in H |- *.
  destruct (fold_result _ [] attributes) as [fe|e] eqn:Efe; [|done].
  destruct (map_result _ others) as [rest|e]; [|done].
  cbn in H.
  destruct (_collect_sparse_feature_sizes K fe example featurizers type)
    as [sizes|e] eqn:Esizes; [|done].
  cbn in H. injection H as <- <-.
  exists fe. split; [done|]. split; [done|].
  cbn. rewrite Esizes. split; [done|].
  assert (Hnd : NoDup (PyDict.keys fe)).
  { refine (fold_result_invariant (fun d => NoDup (PyDict.keys d)) _
              attributes [] fe _ _ Efe); [|apply NoDup_nil_2].
    intros b x b' Hb. by apply featurize_attribute_NoDup. }
  unfold _collect_sparse_feature_sizes in Esizes. rewrite Hbad in Esizes.
  injection Esizes as <-. intros a.
  rewrite (fold_set_get (reported_sizes example featurizers type)).
  destruct (decide (a ∈ _)) as [Hin|Hnin].
  - apply list_elem_of_omap in Hin as ([a' fs] & Hin & Hsp).
    destruct fs as [|f fs]; [done|]. destruct (is_sparse f) eqn:Hf; [|done].
    injection Hsp as ->. by rewrite (elem_get_NoDup _ _ _ Hnd Hin), Hf.
  - destruct (PyDict.get a fe) as [[|f fs]|] eqn:Hget; try done.
    destruct (is_sparse f) eqn:Hf; [|done]. exfalso. apply Hnin.
    apply list_elem_of_omap. exists (a, f :: fs).
    split; [by apply get_Some_elem|]. by rewrite Hf.
Qed.

End SparseSizeProperties.

(** ** Surfacing *)

Section SurfaceProperties.
Import ModelDataUtils.
Variable h : HashSeed.

Lemma py_set_NoDup (l : list string) : NoDup (py_set h l).
Proof.
  unfold py_set. rewrite (set_order_perm h l). apply NoDup_remove_dups.
Qed.

Lemma py_set_elem (l : list string) (x : string) : x ∈ py_set h l <-> x ∈ l.
Proof.
  unfold py_set. rewrite (set_order_perm h l). apply elem_of_remove_dups.
Qed.

Lemma grow_0 featurizers : grow featurizers 0 = featurizers.
Proof. destruct featurizers as [[|x l]|]; cbn; by rewrite ?app_nil_r. Qed.

Lemma origin_kept (featurizers : list string) (k : nat) (x : string) :
  x ∈ (featurizers ++ replicate k TAG_ID_ORIGIN) ++ [TAG_ID_ORIGIN]
  <-> x ∈ featurizers ++ [TAG_ID_ORIGIN].
Proof.
  rewrite !elem_of_app, elem_of_replicate, list_elem_of_singleton. tauto.
Qed.

Lemma surface_cell_spec featurizers k t inter a :
  surface_cell t inter a (grow featurizers k)
  = (Ok (PyDict.append a (cell featurizers a t) inter),
     grow featurizers (k + bump t a)).
Proof.
  unfold surface_cell, bind, get_state, pure, bump.
  destruct featurizers as [[|x l]|]; cbn [grow truthy cell].
  - by destruct (PyDict.get a t).
  - cbn [app truthy with_list _filter_features bind get_state put_state pure].
    destruct (PyDict.get a t) as [fs|]; cbn.
    + rewrite Nat.add_1_r, replicate_S_end, <- app_assoc.
      rewrite (list_filter_iff _
                 (fun f => origin f ∈ (x :: l) ++ [TAG_ID_ORIGIN]) fs);
        [done|].
      intros f. rewrite app_assoc. apply (origin_kept (x :: l) k (origin f)).
    + by rewrite Nat.add_0_r.
  - by destruct (PyDict.get a t).
Qed.

Lemma surface_turn_spec featurizers t attributes : forall k inter,
  foldM (surface_cell t) inter attributes (grow featurizers k)
  = (Ok (fold_left (fun d a => PyDict.append a (cell featurizers a t) d)
                   attributes inter),
     grow featurizers (k + sum_list_with (bump t) attributes)).
Proof.
  induction attributes as [|a attributes IH]; intros k inter.
  - cbn. by rewrite Nat.add_0_r.
  - cbn [foldM]. unfold bind at 1. rewrite surface_cell_spec, IH.
    cbn [fold_left sum_list_with]. by rewrite Nat.add_assoc.
Qed.

Lemma surface_more_turns featurizers attributes :
  NoDup attributes ->
  forall turns seen k,
  foldM (fun inter t => foldM (surface_cell t) inter attributes)
        ((fun a => (a, cell featurizers a <$> seen)) <$> attributes)
        turns (grow featurizers k)
  = (Ok ((fun a => (a, cell featurizers a <$> (seen ++ turns))) <$> attributes),
     grow featurizers (k + count_turns attributes turns)).
Proof.
  intros Hnd. induction turns as [|t turns IH]; intros seen k.
  - cbn. by rewrite app_nil_r, Nat.add_0_r.
  - cbn [foldM]. unfold bind at 1. rewrite surface_turn_spec.
    rewrite (append_all_present (fun a => cell featurizers a <$> seen)
               (fun a => cell featurizers a t)) by done.
    rewrite (list_fmap_ext _
               (fun a => (a, cell featurizers a <$> (seen ++ [t]))) attributes)
      by (intros; by rewrite fmap_app).
    rewrite IH. unfold count_turns. cbn [sum_list_with].
    by rewrite <- app_assoc, Nat.add_assoc.
Qed.

Lemma surface_example_spec featurizers attributes :
  NoDup attributes ->
  forall turns k,
  foldM (fun inter t => foldM (surface_cell t) inter attributes) [] turns
        (grow featurizers k)
  = (Ok (if has_turns turns
         then (fun a => (a, cell featurizers a <$> turns)) <$> attributes
         else []),
     grow featurizers (k + count_turns attributes turns)).
Proof.
  intros Hnd [|t turns] k.
  - cbn. by rewrite Nat.add_0_r.
  - cbn [foldM has_turns]. unfold bind at 1. rewrite surface_turn_spec.
    rewrite (append_all_fresh (fun a => cell featurizers a t)) by done.
    rewrite (surface_more_turns featurizers attributes Hnd turns [t]).
    unfold count_turns. cbn [sum_list_with app]. by rewrite Nat.add_assoc.
Qed.

Lemma fold_left_items {A B} (g : string -> A) (step : B -> string -> A -> B)
    (l : list string) (b : B) :
  fold_left (fun b '(key, value) => step b key value)
            ((fun a => (a, g a)) <$> l) b
  = fold_left (fun b a => step b a (g a)) l b.
Proof.
  revert b. induction l as [|a l IH]; intros b; [done|]. cbn. apply IH.
Qed.

Lemma surface_examples_spec featurizers attributes :
  NoDup attributes ->
  forall examples seen k,
  Forall (fun example => has_turns example) seen ->
  foldM
    (fun output list_of_attribute_to_features =>
       (intermediate_features <-
          foldM (fun inter t => foldM (surface_cell t) inter attributes)
                [] list_of_attribute_to_features ;;
        pure (fold_left
                (fun output '(key, collection) =>
                   PyDict.append key collection output)
                intermediate_features output))%prog)
    (surfaced_so_far featurizers attributes seen) examples
    (grow featurizers k)
  = (Ok (surfaced_so_far featurizers attributes (seen ++ with_turns examples)),
     grow featurizers (k + sum_list_with (count_turns attributes) examples)).
Proof.
  intros Hnd. induction examples as [|example examples IH]; intros seen k Hseen.
  - cbn. by rewrite app_nil_r, Nat.add_0_r.
  - cbn [foldM]. unfold bind at 1. unfold bind at 1.
    rewrite surface_example_spec by done. unfold pure at 1.
    destruct example as [|t turns].
    + cbn [has_turns fold_left]. rewrite IH by done.
      unfold with_turns. rewrite filter_cons_False by (cbn; tauto).
      cbn [sum_list_with]. by rewrite Nat.add_assoc.
    + cbn [has_turns].
      rewrite (fold_left_items _ (fun output key collection =>
                 PyDict.append key collection output)).
      assert (Hstep :
        fold_left (fun b a =>
                     PyDict.append a (cell featurizers a <$> t :: turns) b)
                  attributes (surfaced_so_far featurizers attributes seen)
        = surfaced_so_far featurizers attributes (seen ++ [t :: turns])).
      { unfold surfaced_so_far. destruct seen as [|e0 seen].
        - cbn [has_turns app].
          by rewrite (append_all_fresh
                        (fun a => cell featurizers a <$> t :: turns)).
        - cbn [has_turns app].
          rewrite (append_all_present
            (fun a => (fun example : list (list (string * list Features)) =>
                         cell featurizers a <$> example) <$> e0 :: seen)
            (fun a => cell featurizers a <$> t :: turns)) by done.
          apply list_fmap_ext. intros _ a _. f_equal.
          change (e0 :: seen ++ [t :: turns])
            with ((e0 :: seen) ++ [t :: turns]).
          by rewrite fmap_app. }
      rewrite Hstep, IH.
      * unfold with_turns. rewrite filter_cons_True by done.
        cbn [sum_list_with]. by rewrite <- app_assoc, Nat.add_assoc.
      * apply Forall_app. split; [done|]. by apply Forall_singleton.
Qed.

Lemma sum_list_with_ext_in {A} (f g : A -> nat) (l : list A) :
  (forall x, x ∈ l -> f x = g x) -> sum_list_with f l = sum_list_with g l.
Proof.
  induction l as [|x l IH]; intros Hext; [done|]. cbn.
  rewrite (Hext x) by left. rewrite IH; [done|].
  intros y Hy. apply Hext. by right.
Qed.

Lemma bump_sum (t : list (string * list Features)) (attributes : list string) :
  NoDup attributes ->
  (forall a, a ∈ PyDict.keys t -> a ∈ attributes) ->
  sum_list_with (bump t) attributes = length (remove_dups (PyDict.keys t)).
Proof.
  intros Hnd Hsub.
  assert (Hcount : sum_list_with (bump t) attributes
                   = length (filter (fun a => a ∈ PyDict.keys t) attributes)).
  { clear. induction attributes as [|a l IH]; [done|]. cbn [sum_list_with].
    rewrite IH. unfold bump at 1.
    destruct (PyDict.get a t) as [fs|] eqn:Hget.
    - rewrite filter_cons_True; [done|]. apply get_Some_keys. by rewrite Hget.
    - rewrite filter_cons_False; [done|]. by apply get_None_keys. }
  rewrite Hcount. apply Permutation_length, NoDup_Permutation.
  - by apply NoDup_filter.
  - apply NoDup_remove_dups.
  - intros a. rewrite list_elem_of_filter, elem_of_remove_dups.
    split; [tauto | auto].
Qed.

Lemma count_real_cells
    (features : list (list (list (string * list Features)))) :
  sum_list_with (count_turns (py_set h (all_attributes features))) features
  = real_cells features.
Proof.
  unfold real_cells. apply sum_list_with_ext_in. intros example Hexample.
  unfold count_turns. apply sum_list_with_ext_in. intros t Ht.
  apply bump_sum; [apply py_set_NoDup|].
  intros a Ha. apply py_set_elem. unfold all_attributes.
  apply list_elem_of_bind. exists example. split; [|done].
  apply list_elem_of_bind. by exists t.
Qed.

(** [_surface_attributes] in closed form: every attribute that occurs
    anywhere, in the iteration order of the set, with its cells per example
    that has turns; the caller's [featurizers] has grown by one
    [TAG_ID_ORIGIN] per cell that carries a feature list. *)
Lemma surface_closed_form featurizers
    (features : list (list (list (string * list Features)))) :
  _surface_attributes h features featurizers
  = (Ok (surfaced_so_far featurizers (py_set h (all_attributes features))
                         (with_turns features)),
     grow featurizers (real_cells features)).
Proof.
  unfold _surface_attributes.
  pose proof (surface_examples_spec featurizers
                (py_set h (all_attributes features))
                (py_set_NoDup _) features [] 0 (Forall_nil_2 _)) as Hspec.
  rewrite grow_0 in Hspec. cbn [app Nat.add] in Hspec.
  rewrite count_real_cells in Hspec. exact Hspec.
Qed.

End SurfaceProperties.

(** ** The featurizer filter, fake features, empty input *)

Section ConvertBasics.
Import ModelDataUtils.
Variable K : constants.
Variable h : HashSeed.
Variable np : numpy.

Lemma convert_featurizers features fake_features consider_dialogue_dimension
    featurizers :
  snd (convert_to_data_format K h np features fake_features
                              consider_dialogue_dimension featurizers)
  = grow featurizers
         (real_cells (match unify_format features with
                      | Ok examples => examples
                      | Raise _ => []
                      end)).
Proof.
  unfold convert_to_data_format, bind, lift.
  destruct (unify_format features) as [examples|e].
  - rewrite surface_closed_form.
    destruct (absent_dimensions _) as [[dl ne]|e]; [|done].
    by destruct (fold_result _ _ _) as [[data fake]|e].
  - cbn. by rewrite grow_0.
Qed.

(** C10.  [_filter_features] changes the list its caller passed as
    [featurizers]: called with a non-empty list and a feature list that is
    not [None], it appends [TAG_ID_ORIGIN], so the list is one element longer
    after the call; called with [None] as features it leaves the list as it
    was.  A call of [convert_to_data_format] with such a list as featurizer
    filter therefore returns it longer by one [TAG_ID_ORIGIN] for every
    (turn, attribute) pair of the input that carries a feature list. *)
Theorem filter_features_appends_to_featurizers
    (featurizers : list string) (features : list Features) :
  featurizers <> [] ->
  snd (_filter_features (Some features) featurizers)
  = featurizers ++ [TAG_ID_ORIGIN]
  /\ length (snd (_filter_features (Some features) featurizers))
     = S (length featurizers)
  /\ fst (_filter_features (Some features) featurizers)
     = Ok (Some (filter (fun f => origin f ∈ featurizers ++ [TAG_ID_ORIGIN])
                        features))
  /\ _filter_features None featurizers = (Ok None, featurizers)
  /\ forall raw fake_features consider_dialogue_dimension,
       snd (convert_to_data_format K h np raw fake_features
              consider_dialogue_dimension (Some featurizers))
       = Some (featurizers
               ++ replicate (real_cells (examples_of raw)) TAG_ID_ORIGIN).
Proof.
  intros Hne. destruct featurizers as [|x l]; [done|].
  split_and!; try done.
  - cbn. rewrite length_app. cbn. lia.
  - intros raw fake cdd. rewrite convert_featurizers. cbn [grow].
    destruct raw as [[|e es]|[|e es]]; cbn [unify_format examples_of];
      try done; cbn; by rewrite app_nil_r.
Qed.

(** C3, what the code does: on an empty list of examples, in either form,
    [convert_to_data_format] raises [IndexError] at [features[0]] and
    returns nothing; the featurizers are untouched. *)
Theorem convert_empty_raises_IndexError
    (fake_features : option (list (string * list Features)))
    (consider_dialogue_dimension : bool) (featurizers : option (list string)) :
  convert_to_data_format K h np (Flat []) fake_features
                         consider_dialogue_dimension featurizers
  = (Raise IndexError, featurizers)
  /\ convert_to_data_format K h np (Nested []) fake_features
                            consider_dialogue_dimension featurizers
     = (Raise IndexError, featurizers).
Proof. done. Qed.

(** What [_create_fake_features] returns: one template per feature of the
    first feature list that is not [None], with no rows, the width of its
    source, and the kind (dense or sparse) of its source.  A dense template
    has the dtype of its source; a sparse template is [float64]. *)
Lemma create_fake_features_spec
    (all_features : list (list (option (list Features))))
    (example_features : list Features) (others : list (list Features)) :
  (list_of_list_of_features ← all_features; omap id list_of_list_of_features)
  = example_features :: others ->
  exists fake_features,
    _create_fake_features all_features = Ok fake_features
    /\ Forall2
         (fun source fake =>
            matrix_shape (features fake)
            = (0, snd (matrix_shape (features source)))
            /\ is_sparse fake = is_sparse source
            /\ type fake = type source
            /\ attribute fake = attribute source
            /\ origin fake = origin source
            /\ matrix_dtype (features fake)
               = if is_sparse source then float64
                 else matrix_dtype (features source))
         example_features fake_features.
Proof.
  intros Hfirst. unfold _create_fake_features. rewrite Hfirst.
  eexists. split; [done|]. apply Forall2_fmap_r, Forall_Forall2_diag.
  apply Forall_forall. intros [[dt sh data|dt sh entries] ty at' og] _; done.
Qed.

End ConvertBasics.

(** ** Masks and buckets *)

Section ExtractProperties.
Import ModelDataUtils.
Variable K : constants.

Lemma insert_at_length {A} (l1 l2 : list A) (x y : A) :
  <[length l1 := y]> (l1 ++ x :: l2) = l1 ++ y :: l2.
Proof. induction l1 as [|z l1 IH]; [done|]. simpl. f_equal. apply IH. Qed.

(** The loop over the turns of one example leaves, in the mask, 0.0 at the
    turns without features and 1.0 elsewhere. *)
Lemma extract_turns_mask fake_features attribute :
  forall (todo seen : list (option (list Features))) dialogue,
  snd (fold_left (extract_turn K fake_features attribute)
                 (enumerate_from (length seen) todo)
                 (dialogue, (mask_bit <$> seen) ++ np_ones (length todo)))
  = mask_bit <$> (seen ++ todo).
Proof.
  induction todo as [|c todo IH]; intros seen dialogue.
  - cbn. by rewrite !app_nil_r.
  - cbn [enumerate_from fold_left length].
    destruct (extract_turn K fake_features attribute _ (length seen, c))
      as [dialogue' mask] eqn:Hturn.
    assert (Hmask :
      mask = (mask_bit <$> (seen ++ [c])) ++ np_ones (length todo)).
    { unfold extract_turn in Hturn. unfold np_ones in *.
      rewrite replicate_S in Hturn. rewrite fmap_app, <- app_assoc.
      destruct c as [l|]; injection Hturn as _ <-; [done|].
      unfold np_setitem.
      rewrite <- (length_fmap mask_bit seen). apply insert_at_length. }
    subst mask.
    replace (S (length seen)) with (length (seen ++ [c])) by
      (rewrite length_app; cbn; lia).
    change (seen ++ c :: todo) with (seen ++ [c] ++ todo).
    rewrite (app_assoc seen [c] todo). apply IH.
Qed.

Lemma dict_ok_set {A} (P : string -> Prop) (R : A -> Prop) d k v :
  dict_ok P R d -> P k -> v <> [] -> Forall R v ->
  dict_ok P R (PyDict.set k v d).
Proof.
  unfold dict_ok. intros Hd Hk Hv HR.
  induction d as [|[k' v'] d IH]; cbn.
  - by repeat constructor.
  - apply Forall_cons in Hd as [Hkv Hd].
    destruct (decide (k = k')) as [->|Hne].
    + constructor; [|done]. by split_and!.
    + constructor; [done|]. by apply IH.
Qed.

Lemma dict_ok_get {A} (P : string -> Prop) (R : A -> Prop) d k v :
  dict_ok P R d -> PyDict.get k d = Some v -> P k /\ v <> [] /\ Forall R v.
Proof.
  intros Hd Hget. apply get_Some_elem in Hget.
  unfold dict_ok in Hd. rewrite Forall_forall in Hd. apply (Hd _ Hget).
Qed.

Lemma dict_ok_append {A} (P : string -> Prop) (R : A -> Prop) d k x :
  dict_ok P R d -> P k -> R x -> dict_ok P R (PyDict.append k x d).
Proof.
  intros Hd Hk Hx. unfold PyDict.append. apply dict_ok_set; try done.
  - by destruct (default [] (PyDict.get k d)).
  - apply Forall_app. split; [|by apply Forall_singleton].
    destruct (PyDict.get k d) as [v|] eqn:Hget; [|done].
    by apply (dict_ok_get P R d k v Hd).
Qed.

Lemma dict_ok_keys {A} (P : string -> Prop) (R : A -> Prop) d :
  dict_ok P R d -> Forall P (PyDict.keys d).
Proof.
  unfold dict_ok, PyDict.keys. intros Hd. apply Forall_fmap.
  eapply Forall_impl; [exact Hd|]. by intros [k v] (? & _).
Qed.

Section Buckets.
Variable P : string -> Prop.
Variable attribute : string.

Lemma bucket_ok b f :
  buckets_ok P b -> feature_ok K P attribute f ->
  buckets_ok P (bucket K attribute b f).
Proof.
  destruct b as [s d]. intros [Hs Hd] Hf. unfold bucket.
  destruct (is_sparse f); split; cbn [fst snd]; try done;
    by apply dict_ok_append.
Qed.

Lemma fold_bucket_ok fs : forall b,
  buckets_ok P b -> Forall (feature_ok K P attribute) fs ->
  buckets_ok P (fold_left (bucket K attribute) fs b).
Proof.
  induction fs as [|f fs IH]; intros b Hb Hfs; [done|].
  apply Forall_cons in Hfs as [Hf Hfs]. cbn. apply IH; [|done].
  by apply bucket_ok.
Qed.

Lemma extract_turns_ok fake_features : forall turns i acc,
  Forall (feature_ok K P attribute) fake_features ->
  Forall (cell_ok K P attribute) turns ->
  buckets_ok P (fst acc) ->
  buckets_ok P (fst (fold_left (extract_turn K fake_features attribute)
                             (enumerate_from i turns) acc)).
Proof.
  induction turns as [|c turns IH]; intros i [b mask] Hfake Hturns Hb; [done|].
  apply Forall_cons in Hturns as [Hc Hturns].
  cbn [enumerate_from fold_left]. apply IH; try done.
  unfold extract_turn. destruct c as [l|]; cbn [fst].
  - apply fold_bucket_ok; [done|]. by apply Hc.
  - by apply fold_bucket_ok.
Qed.

Lemma append_all_ok (dialogue : list (string * list matrix)) : forall collected,
  collected_ok P collected -> dict_ok P (fun _ => True) dialogue ->
  collected_ok P (append_all collected dialogue).
Proof.
  unfold append_all.
  induction dialogue as [|[key value] dialogue IH]; intros collected Hc Hd;
    [done|].
  apply Forall_cons in Hd as [(Hkey & Hvalue & _) Hd]. cbn [fold_left].
  apply IH; [|done]. by apply dict_ok_append.
Qed.

Lemma extract_example_spec fake_features sparse dense masks turns :
  Forall (feature_ok K P attribute) fake_features ->
  Forall (cell_ok K P attribute) turns ->
  collected_ok P sparse -> collected_ok P dense ->
  exists sparse' dense',
    extract_example K fake_features attribute (sparse, dense, masks) turns
    = (sparse', dense', masks ++ [mask_of_example turns])
    /\ collected_ok P sparse' /\ collected_ok P dense'.
Proof.
  intros Hfake Hturns Hs Hd. unfold extract_example.
  pose proof (extract_turns_mask fake_features attribute turns [] ([], []))
    as Hmask.
  pose proof (extract_turns_ok fake_features turns 0
                (([], []), np_ones (length turns)) Hfake Hturns) as Hok.
  cbn [length app fmap list_fmap] in Hmask. unfold enumerate.
  destruct (fold_left _ (enumerate_from 0 turns) _) as [[ds dd] mask].
  cbn [fst snd] in Hmask, Hok. subst mask.
  destruct Hok as [Hds Hdd]; [by split; constructor|].
  cbn [fst snd] in Hds, Hdd.
  eexists _, _. split.
  - unfold np_expand_dims, mask_of_example.
    rewrite <- list_fmap_compose. reflexivity.
  - split; by apply append_all_ok.
Qed.

Lemma extract_features_spec fake_features
    (features : list (list (option (list Features)))) :
  Forall (feature_ok K P attribute) fake_features ->
  Forall (Forall (cell_ok K P attribute)) features ->
  exists dense sparse,
    _extract_features K features fake_features attribute
    = (masks_of features, dense, sparse)
    /\ collected_ok P dense /\ collected_ok P sparse.
Proof.
  intros Hfake Hfeatures. unfold _extract_features.
  assert (Hgen : forall sparse dense masks,
    collected_ok P sparse -> collected_ok P dense ->
    exists sparse' dense',
      fold_left (extract_example K fake_features attribute) features
                (sparse, dense, masks)
      = (sparse', dense', masks ++ masks_of features)
      /\ collected_ok P sparse' /\ collected_ok P dense').
  { induction features as [|turns features IH]; intros sparse dense masks Hs Hd.
    - exists sparse, dense. by rewrite app_nil_r.
    - apply Forall_cons in Hfeatures as [Hturns Hfeatures]. cbn [fold_left].
      destruct (extract_example_spec fake_features sparse dense masks turns)
        as (s1 & d1 & -> & Hs1 & Hd1); try done.
      destruct (IH Hfeatures s1 d1 (masks ++ [mask_of_example turns]) Hs1 Hd1)
        as (s2 & d2 & -> & Hs2 & Hd2).
      exists s2, d2. split; [|done]. unfold masks_of.
      by rewrite fmap_cons, <- app_assoc. }
  destruct (Hgen [] [] []) as (s & d & -> & Hs & Hd); [by constructor..|].
  by exists d, s.
Qed.

End Buckets.
End ExtractProperties.

(** ** The arrays of one attribute *)

Section AttributeProperties.
Import ModelDataUtils.
Variable K : constants.

Lemma set_set {V} (k : string) (v w : V) (d : list (string * V)) :
  PyDict.set k v (PyDict.set k w d) = PyDict.set k v d.
Proof.
  induction d as [|[k' v'] d IH]; cbn.
  - by rewrite decide_True.
  - destruct (decide (k = k')) as [->|Hne]; cbn.
    + by rewrite decide_True.
    + rewrite decide_False by done. by rewrite IH.
Qed.

Lemma append_after_set {A} (k : string) (l : list A) (x : A)
    (d : list (string * list A)) :
  PyDict.append k x (PyDict.set k l d) = PyDict.set k (l ++ [x]) d.
Proof. unfold PyDict.append. by rewrite get_set_eq, set_set. Qed.

Lemma add_feature_type_set sparse dense out feature_type :
  add_feature_type sparse dense out feature_type
  = PyDict.set feature_type (arrays_value sparse dense feature_type) out.
Proof.
  unfold add_feature_type, arrays_value.
  destruct (PyDict.get feature_type sparse) as [s|],
           (PyDict.get feature_type dense) as [d|]; cbn [option_list];
    by rewrite ?append_after_set.
Qed.

Lemma assemble_fold h masks sparse dense :
  fold_left (add_feature_type sparse dense)
            (py_set h (PyDict.keys dense ++ PyDict.keys sparse))
            [(MASK K, [mask_array masks])]
  = assemble K h masks sparse dense.
Proof.
  unfold assemble. generalize [(MASK K, [mask_array masks])].
  induction (py_set h _) as [|ft l IH]; intros out; [done|].
  cbn [fold_left]. by rewrite add_feature_type_set, IH.
Qed.

(** The lookups of the dict of an attribute do not depend on the hash seed. *)
Lemma assemble_get h masks sparse dense key :
  PyDict.get key (assemble K h masks sparse dense)
  = if decide (key ∈ PyDict.keys dense ++ PyDict.keys sparse)
    then Some (arrays_value sparse dense key)
    else if decide (key = MASK K) then Some [mask_array masks] else None.
Proof.
  unfold assemble. rewrite (fold_set_get (arrays_value sparse dense)).
  destruct (decide (key ∈ py_set h _)) as [Hin|Hnin].
  - apply py_set_elem in Hin. by rewrite decide_True.
  - rewrite py_set_elem in Hnin. rewrite decide_False by done. cbn.
    destruct (decide (key = MASK K)); done.
Qed.

Lemma map_result_first {A} (values : list (list A)) :
  Forall (fun v => v <> []) values ->
  exists firsts, map_result (fun v => py_index v 0) values = Ok firsts.
Proof.
  induction values as [|v values IH]; intros Hv; [by eexists|].
  apply Forall_cons in Hv as [Hne Hv]. destruct (IH Hv) as [firsts Hfirsts].
  destruct v as [|x v]; [done|]. cbn. rewrite Hfirsts. by eexists.
Qed.

Lemma map_result_heads {A} (values : list (list A)) :
  Forall (fun v => v <> []) values ->
  map_result (fun v => py_index v 0) values = Ok (omap head values).
Proof.
  induction values as [|v values IH]; intros Hv; [done|].
  apply Forall_cons in Hv as [Hne Hv]. destruct v as [|x v]; [done|].
  cbn. by rewrite (IH Hv).
Qed.

(** One round of the loop of [to_feature_arrays], for a key whose lists of
    matrices are not empty. *)
Lemma feature_array_step_spec (np : numpy)
    (consider_dialogue_dimension : bool) out key values :
  Forall (fun v => v <> []) values ->
  feature_array_step np consider_dialogue_dimension out (key, values)
  = if np (array_arg consider_dialogue_dimension values)
    then Ok (PyDict.set key
               {| array := array_arg consider_dialogue_dimension values;
                  number_of_dimensions :=
                    if consider_dialogue_dimension then 4 else 3 |} out)
    else Raise np_error.
Proof.
  intros Hvalues. unfold feature_array_step, array_arg, np_array_of.
  destruct consider_dialogue_dimension.
  - by destruct (np _).
  - rewrite (map_result_heads values Hvalues). cbn. by destruct (np _).
Qed.

(** What numpy refuses is all that can go wrong in [to_feature_arrays]. *)
Lemma to_feature_arrays_accepted (np : numpy) (P : string -> Prop)
    (consider_dialogue_dimension : bool)
    (d : list (string * list (list matrix))) :
  collected_ok P d ->
  to_feature_arrays np consider_dialogue_dimension d
  = if forallb (fun kv => np (array_arg consider_dialogue_dimension (snd kv)))
               d
    then to_feature_arrays lenient consider_dialogue_dimension d
    else Raise np_error.
Proof.
  unfold to_feature_arrays.
  generalize (@nil (string * FeatureArray)).
  induction d as [|[key values] d IH]; intros out Hd; [done|].
  apply Forall_cons in Hd as [(_ & _ & Hvalues) Hd].
  cbn [fold_result forallb snd].
  rewrite !feature_array_step_spec by done. unfold lenient at 1.
  destruct (np _); cbn [andb mbind result_bind]; [|done].
  by apply IH.
Qed.

Lemma to_feature_arrays_total (P : string -> Prop)
    (consider_dialogue_dimension : bool)
    (d : list (string * list (list matrix))) :
  collected_ok P d ->
  exists out, to_feature_arrays lenient consider_dialogue_dimension d = Ok out
              /\ Forall P (PyDict.keys out).
Proof.
  unfold to_feature_arrays. intros Hd.
  assert (Hgen : forall out, Forall P (PyDict.keys out) ->
    exists out',
      fold_result (feature_array_step lenient consider_dialogue_dimension)
                  out d = Ok out'
      /\ Forall P (PyDict.keys out')).
  { induction d as [|[key values] d IH]; intros out Hout; [by eexists|].
    apply Forall_cons in Hd as [(Hkey & _ & Hvalues) Hd]. cbn [fold_result].
    assert (Hset : forall v, Forall P (PyDict.keys (PyDict.set key v out))).
    { intros v. apply Forall_forall. intros k Hk.
      apply elem_keys_set in Hk as [->|Hk]; [done|].
      by apply (proj1 (Forall_forall _ _) Hout). }
    rewrite feature_array_step_spec by done. cbn [lenient mbind result_bind].
    by apply IH. }
  apply Hgen. constructor.
Qed.

Lemma feature_key_fake_of attribute f :
  feature_key K attribute (fake_of f) = feature_key K attribute f.
Proof.
  unfold fake_of, feature_key, attribute_of.
  by destruct (is_dense f), (is_sparse f).
Qed.

Section OneAttribute.
Variable h : HashSeed.
Variable np : numpy.
Variable P : string -> Prop.
Variables (attribute : string)
          (absent_features : list (list (option (list Features))))
          (attribute_to_features :
             list (string * list (list (option (list Features)))))
          (consider_dialogue_dimension : bool).

#[local] Abbreviation feats :=
  (features_for attribute absent_features attribute_to_features).

Lemma typed_arrays_total fake_features :
  Forall (feature_ok K P attribute) fake_features ->
  Forall (Forall (cell_ok K P attribute)) feats ->
  exists sparse dense,
    typed_arrays K attribute feats fake_features
                 consider_dialogue_dimension = Ok (sparse, dense)
    /\ Forall P (PyDict.keys sparse) /\ Forall P (PyDict.keys dense).
Proof.
  intros Hfake Hfeatures. unfold typed_arrays.
  destruct (extract_features_spec K P attribute fake_features feats)
    as (d & s & -> & Hd & Hs); [done..|].
  destruct (to_feature_arrays_total P consider_dialogue_dimension s Hs)
    as (sparse & -> & Hsparse).
  destruct (to_feature_arrays_total P consider_dialogue_dimension d Hd)
    as (dense & -> & Hdense).
  by exists sparse, dense.
Qed.

(** One call of [_feature_arrays_for_attribute] with the fake features
    [fake] of the attribute: built by [_create_fake_features] in training,
    looked up otherwise.  The call raises when numpy refuses one of the
    arrays, and otherwise returns the arrays assembled. *)
Lemma feature_arrays_spec (training : bool) fake_features fake :
  (if training then _create_fake_features feats = Ok fake
   else PyDict.get attribute fake_features = Some fake) ->
  Forall (feature_ok K P attribute) fake ->
  Forall (Forall (cell_ok K P attribute)) feats ->
  exists sparse dense,
    typed_arrays K attribute feats fake consider_dialogue_dimension
    = Ok (sparse, dense)
    /\ Forall P (PyDict.keys sparse) /\ Forall P (PyDict.keys dense)
    /\ _feature_arrays_for_attribute K h np attribute absent_features
         attribute_to_features training fake_features
         consider_dialogue_dimension
       = if accepted K np consider_dialogue_dimension feats fake attribute
         then Ok (assemble K h (masks_of feats) sparse dense,
                  if training then PyDict.set attribute fake fake_features
                  else fake_features)
         else Raise np_error.
Proof.
  intros Hmode Hfake Hfeatures.
  destruct (typed_arrays_total fake Hfake Hfeatures)
    as (sparse & dense & Htyped & Hsparse & Hdense).
  exists sparse, dense. split_and!; try done.
  unfold _feature_arrays_for_attribute. fold feats.
  assert (Hget : PyDict.get attribute
            (if training then PyDict.set attribute fake fake_features
             else fake_features) = Some fake).
  { destruct training; [apply get_set_eq | done]. }
  unfold typed_arrays in Htyped.
  destruct (extract_features_spec K P attribute fake feats)
    as (d & s & Hextract & Hd & Hs); [done..|].
  rewrite Hextract in Htyped.
  assert (Hbody :
    (fake0 ← match PyDict.get attribute
                     (if training
                      then PyDict.set attribute fake fake_features
                      else fake_features) with
             | Some fake0 => Ok fake0
             | None => Raise (KeyError attribute)
             end;
     let '(attribute_masks, _dense_features, _sparse_features) :=
       _extract_features K feats fake0 attribute in
     sparse_features ← to_feature_arrays np consider_dialogue_dimension
                                         _sparse_features;
     dense_features ← to_feature_arrays np consider_dialogue_dimension
                                        _dense_features;
     masks ← np_array_of np (ArrMasks attribute_masks);
     let attribute_to_feature_arrays :=
       [(MASK K, [{| array := masks; number_of_dimensions := 3 |}])] in
     let feature_types :=
       py_set h (PyDict.keys dense_features
                 ++ PyDict.keys sparse_features) in
     Ok (fold_left (add_feature_type sparse_features dense_features)
                   feature_types attribute_to_feature_arrays,
         if training then PyDict.set attribute fake fake_features
         else fake_features))
    = if accepted K np consider_dialogue_dimension feats fake attribute
      then Ok (assemble K h (masks_of feats) sparse dense,
               if training then PyDict.set attribute fake fake_features
               else fake_features)
      else Raise np_error).
  { unfold accepted. rewrite Hget. cbn [mbind result_bind]. rewrite Hextract.
    rewrite (to_feature_arrays_accepted np P _ s Hs).
    rewrite (to_feature_arrays_accepted np P _ d Hd).
    destruct (forallb _ s); cbn [andb mbind result_bind]; [|done].
    destruct (to_feature_arrays lenient _ s) as [sp|]; [|done].
    cbn [mbind result_bind].
    destruct (forallb _ d); cbn [andb mbind result_bind]; [|done].
    destruct (to_feature_arrays lenient _ d) as [de|]; [|done].
    injection Htyped as -> ->. cbn [mbind result_bind].
    unfold np_array_of. destruct (np _); cbn [mbind result_bind]; [|done].
    by rewrite <- assemble_fold. }
  destruct training.
  - rewrite Hmode. cbn [mbind result_bind]. exact Hbody.
  - cbn [mbind result_bind]. exact Hbody.
Qed.

End OneAttribute.
End AttributeProperties.

(** ** Sorting by attribute *)

Section SortedProperties.

Lemma ascii_compare_refl c : Ascii.compare c c = Eq.
Proof. unfold Ascii.compare. apply N.compare_refl. Qed.

Lemma string_compare_lt_trans s1 : forall s2 s3,
  String.compare s1 s2 = Lt -> String.compare s2 s3 = Lt ->
  String.compare s1 s3 = Lt.
Proof.
  induction s1 as [|c1 s1 IH]; intros [|c2 s2] [|c3 s3]; cbn; try done.
  destruct (Ascii.compare c1 c2) eqn:E12; try done;
    destruct (Ascii.compare c2 c3) eqn:E23; try done.
  - apply Ascii.compare_eq_iff in E12, E23. subst.
    rewrite ascii_compare_refl. apply IH.
  - apply Ascii.compare_eq_iff in E12. subst. by rewrite E23.
  - apply Ascii.compare_eq_iff in E23. subst. by rewrite E12.
  - intros _ _. unfold Ascii.compare in *.
    rewrite N.compare_lt_iff in E12, E23.
    assert (Hlt : (Ascii.N_of_ascii c1 < Ascii.N_of_ascii c3)%N) by lia.
    apply N.compare_lt_iff in Hlt. by rewrite Hlt.
Qed.

#[local] Instance string_lt_trans : Transitive string_lt.
Proof.
  intros a b c. unfold string_lt, String.ltb.
  destruct (String.compare a b) eqn:Eab; try done.
  destruct (String.compare b c) eqn:Ebc; try done.
  by rewrite (string_compare_lt_trans a b c).
Qed.

#[local] Instance string_lt_antisym : AntiSymm eq string_lt.
Proof.
  intros a b. unfold string_lt, String.ltb.
  rewrite (String.compare_antisym b a).
  by destruct (String.compare a b).
Qed.

Lemma leb_ne_lt (a b : string) :
  String.leb a b = true -> a <> b -> string_lt a b.
Proof.
  unfold string_lt, String.leb, String.ltb.
  destruct (String.compare a b) eqn:E; try done.
  apply String.compare_eq_iff in E. done.
Qed.

Context {V : Type}.
Implicit Types (x : string * V) (l : list (string * V)).

Lemma insert_sorted_perm x l : insert_sorted x l ≡ₚ x :: l.
Proof.
  induction l as [|y l IH]; [done|]. cbn.
  destruct (String.leb x.1 y.1); [done|].
  rewrite IH. apply Permutation_swap.
Qed.

Lemma sorted_perm l : sorted l ≡ₚ l.
Proof.
  induction l as [|x l IH]; [done|]. cbn.
  by rewrite insert_sorted_perm, IH.
Qed.

Lemma insert_sorted_Sorted x l :
  Sorted (fun x y => String.leb x.1 y.1 = true) l ->
  Sorted (fun x y => String.leb x.1 y.1 = true) (insert_sorted x l).
Proof.
  induction 1 as [|y l Hl IH Hhd]; cbn; [by repeat constructor|].
  destruct (String.leb x.1 y.1) eqn:E.
  - by repeat constructor.
  - constructor; [done|].
    assert (Hyx : String.leb y.1 x.1 = true).
    { destruct (String.leb_total x.1 y.1); congruence. }
    destruct Hhd as [|z l Hyz]; cbn; [by constructor|].
    destruct (String.leb x.1 z.1); by constructor.
Qed.

Lemma sorted_Sorted l :
  Sorted (fun x y => String.leb x.1 y.1 = true) (sorted l).
Proof.
  induction l as [|x l IH]; cbn; [constructor|]. by apply insert_sorted_Sorted.
Qed.

Lemma Sorted_leb_NoDup (ks : list string) :
  Sorted (fun a b => String.leb a b = true) ks -> NoDup ks ->
  Sorted string_lt ks.
Proof.
  induction 1 as [|a ks Hks IH Hhd]; intros Hnd; [constructor|].
  apply NoDup_cons in Hnd as [Hnotin Hnd]. constructor; [by apply IH|].
  destruct Hhd as [|b ks Hab]; constructor.
  apply leb_ne_lt; [done|]. intros ->. apply Hnotin. left.
Qed.

(** Sorting the items of a dict orders its keys strictly. *)
Lemma sorted_keys l :
  NoDup (PyDict.keys l) -> Sorted string_lt (PyDict.keys (sorted l)).
Proof.
  intros Hnd. apply Sorted_leb_NoDup.
  - unfold PyDict.keys.
    apply (Sorted_fmap fst (fun x y => String.leb x.1 y.1 = true));
      [done | apply sorted_Sorted].
  - unfold PyDict.keys. by rewrite (sorted_perm l).
Qed.

Lemma sorted_get l k :
  NoDup (PyDict.keys l) -> PyDict.get k (sorted l) = PyDict.get k l.
Proof.
  intros Hnd.
  assert (Hnd' : NoDup (PyDict.keys (sorted l))).
  { unfold PyDict.keys. by rewrite (sorted_perm l). }
  destruct (PyDict.get k l) as [v|] eqn:Hget.
  - apply elem_get_NoDup; [done|]. rewrite (sorted_perm l).
    by apply get_Some_elem.
  - apply get_None_keys. apply get_None_keys in Hget.
    unfold PyDict.keys in *. by rewrite (sorted_perm l).
Qed.

Lemma sorted_keys_unique {W} (l1 : list (string * V)) (l2 : list (string * W)) :
  Sorted string_lt (PyDict.keys l1) -> Sorted string_lt (PyDict.keys l2) ->
  PyDict.keys l1 ≡ₚ PyDict.keys l2 -> PyDict.keys l1 = PyDict.keys l2.
Proof. apply Sorted_unique; apply _. Qed.

End SortedProperties.

(** ** [convert_to_data_format] in closed form *)

Section ConvertProperties.
Import ModelDataUtils.
Variable K : constants.
Variable h : HashSeed.
Variable np : numpy.

Lemma get_fmap_pair {V} (g : string -> V) (l : list string) (a : string) :
  PyDict.get a ((fun k => (k, g k)) <$> l)
  = if decide (a ∈ l) then Some (g a) else None.
Proof.
  induction l as [|k l IH]; [done|]. rewrite fmap_cons. cbn [PyDict.get].
  destruct (decide (a = k)) as [->|Hne].
  - rewrite decide_True; [done | left].
  - rewrite IH. destruct (decide (a ∈ l)) as [Hin|Hnin].
    + rewrite decide_True; [done | by right].
    + rewrite decide_False; [done|]. rewrite not_elem_of_cons. done.
Qed.

Lemma elem_real_lists (features : list (list (option (list Features)))) l :
  l ∈ real_lists features
  <-> exists turns, turns ∈ features /\ Some l ∈ turns.
Proof.
  unfold real_lists. rewrite list_elem_of_bind. split.
  - intros (turns & Hl & Hturns). exists turns. split; [done|].
    apply list_elem_of_omap in Hl as (c & Hc & Hid). cbn in Hid. by subst.
  - intros (turns & Hturns & Hl). exists turns. split; [|done].
    apply list_elem_of_omap. by exists (Some l).
Qed.

Lemma create_fake_features_first
    (features : list (list (option (list Features)))) first others :
  real_lists features = first :: others ->
  _create_fake_features features = Ok (fake_of <$> first).
Proof. unfold _create_fake_features, real_lists. by intros ->. Qed.

Section Fold.
Variable P : string -> Prop.
Variables (absent_features : list (list (option (list Features))))
          (attribute_to_features :
             list (string * list (list (option (list Features)))))
          (consider_dialogue_dimension training : bool)
          (given : list (string * list Features)).

Let feats (a : string) :=
  features_for a absent_features attribute_to_features.
Let F (a : string) := fake_for training given (feats a) a.
Let A (a : string) :=
  arrays_for K h consider_dialogue_dimension (feats a) (F a) a.

Lemma ready_fake a :
  ready K P absent_features attribute_to_features training given a ->
  (if training then _create_fake_features (feats a) = Ok (F a)
   else PyDict.get a given = Some (F a))
  /\ Forall (feature_ok K P a) (F a).
Proof.
  intros [Hcells Hmode]. unfold F, fake_for, feats. cbn beta.
  destruct training.
  - destruct Hmode as (first & others & Hreal).
    rewrite (create_fake_features_first _ _ _ Hreal). split; [done|].
    apply Forall_fmap. apply Forall_forall. intros f Hf.
    unfold feature_ok. cbn. rewrite feature_key_fake_of.
    assert (Hfirst : first ∈ real_lists (features_for a absent_features
                                           attribute_to_features))
      by (rewrite Hreal; left).
    apply elem_real_lists in Hfirst as (turns & Hturns & Hfirst).
    rewrite Forall_forall in Hcells. specialize (Hcells _ Hturns).
    rewrite Forall_forall in Hcells. specialize (Hcells _ Hfirst _ eq_refl).
    rewrite Forall_forall in Hcells. by apply Hcells.
  - destruct Hmode as (fake & -> & Hfake). done.
Qed.

Lemma ready_typed a :
  ready K P absent_features attribute_to_features training given a ->
  exists sparse dense,
    typed_arrays K a (feats a) (F a) consider_dialogue_dimension
    = Ok (sparse, dense)
    /\ Forall P (PyDict.keys sparse) /\ Forall P (PyDict.keys dense)
    /\ A a = assemble K h (masks_of (feats a)) sparse dense.
Proof.
  intros Hready. destruct (ready_fake a Hready) as [_ Hfake].
  destruct Hready as [Hcells _].
  destruct (typed_arrays_total K P a absent_features attribute_to_features
              consider_dialogue_dimension (F a) Hfake Hcells)
    as (sparse & dense & Htyped & Hs & Hd).
  exists sparse, dense. split_and!; try done.
  unfold A, arrays_for. unfold F, feats in *. by rewrite Htyped.
Qed.

Let G (a : string) :=
  accepted K np consider_dialogue_dimension (feats a) (F a) a.

Lemma step_spec a fake_features :
  ready K P absent_features attribute_to_features training given a ->
  (training = false -> fake_features = given) ->
  _feature_arrays_for_attribute K h np a absent_features
    attribute_to_features training fake_features consider_dialogue_dimension
  = if G a
    then Ok (A a, if training then PyDict.set a (F a) fake_features
                  else fake_features)
    else Raise np_error.
Proof.
  intros Hready Hgiven.
  destruct (ready_fake a Hready) as [Hmode Hfake].
  destruct (ready_typed a Hready) as (sparse & dense & Htyped & _ & _ & HA).
  destruct Hready as [Hcells _].
  destruct (feature_arrays_spec K h np P a absent_features
              attribute_to_features consider_dialogue_dimension training
              fake_features (F a))
    as (sparse' & dense' & Htyped' & _ & _ & Hcall); try done.
  { destruct training; [done|]. by rewrite Hgiven. }
  rewrite Hcall. unfold G, F, feats in *. rewrite Htyped in Htyped'.
  injection Htyped' as <- <-. by rewrite HA.
Qed.

Lemma fold_attributes_spec : forall attributes attribute_data fake_features,
  (forall a, a ∈ attributes ->
     ready K P absent_features attribute_to_features training given a) ->
  (training = false -> fake_features = given) ->
  fold_result
    (fun '(attribute_data, fake_features) attribute =>
       '(arrays, fake_features) ←
         _feature_arrays_for_attribute K h np attribute absent_features
           attribute_to_features training fake_features
           consider_dialogue_dimension;
       Ok (PyDict.set attribute arrays attribute_data, fake_features))
    (attribute_data, fake_features) attributes
  = if forallb G attributes
    then Ok (fold_left (fun d a => PyDict.set a (A a) d) attributes
                       attribute_data,
             if training
             then fold_left (fun d a => PyDict.set a (F a) d) attributes
                            fake_features
             else fake_features)
    else Raise np_error.
Proof.
  induction attributes as [|a attributes IH]; intros ad ff Hready Hgiven.
  - cbn. by destruct training.
  - cbn [fold_result fold_left forallb].
    rewrite step_spec; [|apply Hready; left|done].
    destruct (G a); cbn [andb mbind result_bind]; [|done].
    rewrite IH.
    + by destruct training.
    + intros b Hb. apply Hready. by right.
    + intros Ht. rewrite Ht. by apply Hgiven.
Qed.

End Fold.

Lemma keys_surfaced featurizers attributes seen :
  PyDict.keys (surfaced_so_far featurizers attributes seen)
  = if has_turns seen then attributes else [].
Proof.
  unfold surfaced_so_far. destruct (has_turns seen); [|done].
  apply keys_fmap_pair.
Qed.

Lemma get_surfaced featurizers attributes seen a :
  PyDict.get a (surfaced_so_far featurizers attributes seen)
  = if has_turns seen && bool_decide (a ∈ attributes)
    then Some ((fun example : list (list (string * list Features)) =>
                  cell featurizers a <$> example) <$> seen)
    else None.
Proof.
  unfold surfaced_so_far. destruct (has_turns seen); [|done].
  rewrite get_fmap_pair. cbn. by case_bool_decide; case_decide.
Qed.

Lemma absent_dimensions_surfaced featurizers attributes seen :
  exists dimensions,
    absent_dimensions (surfaced_so_far featurizers attributes seen)
    = Ok dimensions.
Proof.
  unfold absent_dimensions, surfaced_so_far, PyDict.values.
  destruct seen as [|example seen]; cbn [has_turns]; [by eexists|].
  generalize (1, 1). induction attributes as [|a attributes IH];
    intros [dl ne]; [by eexists|].
  cbn. apply IH.
Qed.

Section Cells.
Variable P : string -> Prop.
Variables (examples : list (list (list (string * list Features))))
          (fake_features : option (list (string * list Features)))
          (a : string).
Hypothesis Hkeyed : keyed K P a examples fake_features.

Lemma cell_ok_cell featurizers example t :
  example ∈ examples -> t ∈ example ->
  cell_ok K P a (cell featurizers a t).
Proof.
  intros Hexample Ht l Hl.
  assert (Hsub : exists fs, PyDict.get a t = Some fs
                            /\ forall f, f ∈ l -> f ∈ fs).
  { unfold cell in Hl. destruct (PyDict.get a t) as [fs|] eqn:Hget.
    2: { destruct featurizers as [[|? ?]|]; done. }
    exists fs. split; [done|].
    destruct featurizers as [[|x fz]|]; cbn in Hl; injection Hl as <-;
      try done.
    intros f Hf. by apply list_elem_of_filter in Hf as [_ Hf]. }
  destruct Hsub as (fs & Hget & Hsub).
  pose proof (proj1 Hkeyed example t fs Hexample Ht Hget) as Hfs.
  rewrite Forall_forall in Hfs |- *. auto.
Qed.

Lemma rows_ok featurizers :
  Forall (Forall (cell_ok K P a)) (rows featurizers a examples).
Proof.
  unfold rows. apply Forall_fmap, Forall_forall. intros example Hexample.
  apply list_elem_of_filter in Hexample as [_ Hexample].
  apply Forall_fmap, Forall_forall. intros t Ht.
  by apply (cell_ok_cell featurizers example t).
Qed.

End Cells.

Lemma rows_real
    (examples : list (list (list (string * list Features)))) featurizers a :
  a ∈ all_attributes examples ->
  has_turns (with_turns examples) = true
  /\ exists first others,
       real_lists (rows featurizers a examples) = first :: others.
Proof.
  unfold all_attributes. intros Ha.
  apply list_elem_of_bind in Ha as (example & Ha & Hexample).
  apply list_elem_of_bind in Ha as (t & Ha & Ht).
  assert (Hwith : example ∈ with_turns examples).
  { apply list_elem_of_filter. split; [|done].
    destruct example; [by apply elem_of_nil in Ht | done]. }
  split; [by destruct (with_turns examples); [apply elem_of_nil in Hwith|]|].
  apply get_Some_keys in Ha as [fs Hfs].
  assert (Hcell : exists l, cell featurizers a t = Some l).
  { unfold cell. rewrite Hfs. destruct featurizers as [[|? ?]|]; by eexists. }
  destruct Hcell as [l Hl].
  assert (Hin : l ∈ real_lists (rows featurizers a examples)).
  { apply elem_real_lists. exists (cell featurizers a <$> example). split.
    - unfold rows. apply list_elem_of_fmap. by exists example.
    - rewrite <- Hl. apply list_elem_of_fmap. by exists t. }
  destruct (real_lists _) as [|first others]; [by apply elem_of_nil in Hin|].
  by eexists _, _.
Qed.

Lemma well_keyed_True examples fake_features :
  well_keyed K (fun _ => True) examples fake_features.
Proof.
  split; intros; apply Forall_forall; by intros.
Qed.

Lemma well_keyed_keyed (P : string -> Prop) examples fake_features a :
  well_keyed K P examples fake_features -> keyed K P a examples fake_features.
Proof.
  intros [Hexamples Hgiven]. split.
  - intros example t fs. apply Hexamples.
  - intros given fs. apply Hgiven.
Qed.

(** The attributes that [convert_to_data_format] loops over are ready, each
    one for the keys of its own features. *)
Lemma ready_attribute (P : string -> Prop)
    (examples : list (list (list (string * list Features))))
    (fake_features : option (list (string * list Features)))
    (featurizers : option (list string)) (dimensions : nat * nat)
    (a : string) :
  let training := negb (truthy fake_features) in
  let given := if training then [] else default [] fake_features in
  let surfaced :=
    surfaced_so_far featurizers (py_set h (all_attributes examples))
                    (with_turns examples) in
  let attributes :=
    if training then py_set h (all_attributes examples)
    else PyDict.keys given in
  keyed K P a examples fake_features ->
  a ∈ attributes ->
  ready K P (absent_of dimensions) surfaced training given a.
Proof.
  intros training given surfaced attributes Hkeyed Ha.
  unfold ready, features_for. subst surfaced.
  rewrite get_surfaced. subst attributes training.
  destruct (truthy fake_features) eqn:Htruthy; cbn [negb] in *.
  - assert (Hgiven : exists fake, PyDict.get a given = Some fake
                                 /\ Forall (feature_ok K P a) fake).
    { apply get_Some_keys in Ha as [fake Hfake]. exists fake.
      split; [done|]. subst given.
      destruct fake_features as [ffs|]; [|done].
      by apply (proj2 Hkeyed ffs fake). }
    split; [|done].
    destruct (has_turns (with_turns examples) && bool_decide _).
    + by apply (rows_ok P examples fake_features).
    + unfold absent_of. cbn [fst snd].
      apply Forall_replicate, Forall_replicate. by intros l.
  - apply py_set_elem in Ha.
    destruct (rows_real examples featurizers a Ha) as [Hturns Hreal].
    rewrite Hturns, bool_decide_eq_true_2 by (by apply py_set_elem).
    cbn [andb]. split; [|done].
    by apply (rows_ok P examples fake_features).
Qed.

Lemma absent_dimensions_fold featurizers
    (seen : list (list (list (string * list Features))))
    first others (attributes : list string) :
  seen = first :: others ->
  forall dl ne,
  fold_result
    (fun '(dialogue_length, num_examples)
         (_features : list (list (option (list Features)))) =>
       let num_examples := max num_examples (length _features) in
       first ← py_index _features 0;
       Ok (max dialogue_length (length first), num_examples))
    (dl, ne)
    (PyDict.values
       ((fun a => (a, (fun example : list (list (string * list Features)) =>
                         cell featurizers a <$> example) <$> seen))
          <$> attributes))
  = Ok (match attributes with
        | [] => (dl, ne)
        | _ :: _ => (max dl (length first), max ne (length seen))
        end).
Proof.
  intros ->. unfold PyDict.values.
  induction attributes as [|a attributes IH]; intros dl ne; [done|].
  cbn [fmap list_fmap fold_result]. cbn -[max fold_result].
  rewrite !length_fmap. rewrite IH. f_equal.
  destruct attributes; [done|]. cbn [length]. f_equal; lia.
Qed.

Lemma absent_dimensions_value featurizers
    (examples : list (list (list (string * list Features)))) :
  absent_dimensions
    (surfaced_so_far featurizers (py_set h (all_attributes examples))
                     (with_turns examples))
  = Ok (absent_shape examples).
Proof.
  unfold absent_dimensions, surfaced_so_far, absent_shape.
  destruct (all_attributes examples) as [|a0 attrs] eqn:Hattrs.
  - assert (Hset : py_set h [] = []).
    { destruct (py_set h []) as [|a l] eqn:Hset; [done|].
      assert (Ha : a ∈ py_set h []) by (rewrite Hset; left).
      apply py_set_elem in Ha. by apply elem_of_nil in Ha. }
    rewrite Hset. by destruct (has_turns _).
  - destruct (rows_real examples featurizers a0) as [Hturns _].
    { rewrite Hattrs. left. }
    rewrite Hturns.
    destruct (with_turns examples) as [|first others] eqn:Hseen; [done|].
    rewrite (absent_dimensions_fold featurizers _ first others _ eq_refl).
    destruct (py_set h (a0 :: attrs)) as [|a l] eqn:Hset.
    { assert (Ha : a0 ∈ py_set h (a0 :: attrs)) by (apply py_set_elem; left).
      rewrite Hset in Ha. by apply elem_of_nil in Ha. }
    assert (Hfirst : first ∈ with_turns examples) by (rewrite Hseen; left).
    apply list_elem_of_filter in Hfirst as [Hhas _].
    destruct first; [done|]. cbn [length]. do 2 f_equal; lia.
Qed.

(** [convert_to_data_format] on a list with at least one example: it raises
    when numpy refuses an array of one of the attributes, and otherwise
    returns, and what it returns is, attribute by attribute, [arrays_for]
    and [fake_for]. *)
Lemma convert_closed_form_shape (P : string -> Prop) raw fake_features
    consider_dialogue_dimension featurizers examples :
  unify_format raw = Ok examples ->
  well_keyed K P examples fake_features ->
  let training := negb (truthy fake_features) in
  let given := if training then [] else default [] fake_features in
  let surfaced :=
    surfaced_so_far featurizers (py_set h (all_attributes examples))
                    (with_turns examples) in
  let attributes :=
    if training then py_set h (all_attributes examples)
    else PyDict.keys given in
  let feats a := features_for a (absent_of (absent_shape examples)) surfaced in
  let F a := fake_for training given (feats a) a in
  let A a := arrays_for K h consider_dialogue_dimension (feats a) (F a) a in
  let G a := accepted K np consider_dialogue_dimension (feats a) (F a) a in
  convert_to_data_format K h np raw fake_features
                         consider_dialogue_dimension featurizers
  = (if forallb G attributes
     then Ok (sorted (fold_left (fun d a => PyDict.set a (A a) d)
                                attributes []),
              if training
              then fold_left (fun d a => PyDict.set a (F a) d) attributes []
              else given)
     else Raise np_error,
     grow featurizers (real_cells examples)).
Proof.
  intros Hunify Hkeyed.
  pose proof (absent_dimensions_value featurizers examples) as Hdim.
  destruct (absent_shape examples) as [dl ne].
  intros training given surfaced attributes feats F A G.
  assert (Hready : forall a, a ∈ attributes ->
            ready K P (absent_of (dl, ne)) surfaced training given a).
  { intros a Ha.
    by apply (ready_attribute P examples fake_features featurizers (dl, ne) a
                (well_keyed_keyed P _ _ a Hkeyed)). }
  unfold G, A, F, feats. clear G A F feats. subst surfaced.
  unfold convert_to_data_format, bind, lift, pure. rewrite Hunify.
  rewrite surface_closed_form, Hdim, keys_surfaced. fold training given.
  assert (Hattributes :
    (if training
     then if has_turns (with_turns examples)
          then py_set h (all_attributes examples) else []
     else PyDict.keys given) = attributes).
  { subst attributes. destruct training; [|done].
    destruct (has_turns (with_turns examples)) eqn:Hturns; [done|].
    destruct (py_set h (all_attributes examples)) as [|a l] eqn:Hset; [done|].
    assert (Ha : a ∈ all_attributes examples).
    { apply (proj1 (py_set_elem h (all_attributes examples) a)).
      rewrite Hset. left. }
    destruct (rows_real examples featurizers a Ha) as [Hturns' _]. congruence. }
  rewrite Hattributes.
  rewrite (fold_attributes_spec P (absent_of (dl, ne)) _
             consider_dialogue_dimension training given attributes [] given).
  - destruct (forallb _ attributes); [|done].
    subst given. clearbody training. by destruct training.
  - done.
  - intros Ht. subst given. by rewrite Ht.
Qed.

Lemma convert_closed_form (P : string -> Prop) raw fake_features
    consider_dialogue_dimension featurizers examples :
  unify_format raw = Ok examples ->
  well_keyed K P examples fake_features ->
  exists dimensions,
    let training := negb (truthy fake_features) in
    let given := if training then [] else default [] fake_features in
    let surfaced :=
      surfaced_so_far featurizers (py_set h (all_attributes examples))
                      (with_turns examples) in
    let attributes :=
      if training then py_set h (all_attributes examples)
      else PyDict.keys given in
    let feats a := features_for a (absent_of dimensions) surfaced in
    let F a := fake_for training given (feats a) a in
    let A a := arrays_for K h consider_dialogue_dimension (feats a) (F a) a in
    let G a :=
      accepted K np consider_dialogue_dimension (feats a) (F a) a in
    convert_to_data_format K h np raw fake_features
                           consider_dialogue_dimension featurizers
    = (if forallb G attributes
       then Ok (sorted (fold_left (fun d a => PyDict.set a (A a) d)
                                  attributes []),
                if training
                then fold_left (fun d a => PyDict.set a (F a) d) attributes []
                else given)
       else Raise np_error,
       grow featurizers (real_cells examples))
    /\ forall a, a ∈ attributes ->
         ready K P (absent_of dimensions) surfaced training given a.
Proof.
  intros Hunify Hkeyed. exists (absent_shape examples). cbv zeta. split.
  - by apply (convert_closed_form_shape P).
  - intros a Ha.
    by apply (ready_attribute P examples fake_features featurizers _ a
                (well_keyed_keyed P _ _ a Hkeyed)).
Qed.

End ConvertProperties.

(** ** Masks in [Data] *)

Section MaskProperties.
Import ModelDataUtils.
Variable K : constants.
Variable h : HashSeed.
Variable np : numpy.

Lemma unify_examples raw :
  examples_of raw <> [] -> unify_format raw = Ok (examples_of raw).
Proof. by destruct raw as [[|e es]|[|e es]]. Qed.

Lemma NoDup_keys_fold_set {V} (g : string -> V) (l : list string) :
  forall d : list (string * V),
  NoDup (PyDict.keys d) ->
  NoDup (PyDict.keys (fold_left (fun d a => PyDict.set a (g a) d) l d)).
Proof.
  induction l as [|a l IH]; intros d Hd; [done|]. cbn.
  by apply IH, NoDup_keys_set.
Qed.

Lemma elem_keys_fold_set {V} (g : string -> V) (l : list string) (k : string) :
  forall d : list (string * V),
  k ∈ PyDict.keys (fold_left (fun d a => PyDict.set a (g a) d) l d)
  <-> k ∈ l \/ k ∈ PyDict.keys d.
Proof.
  induction l as [|a l IH]; intros d; cbn [fold_left].
  - rewrite elem_of_nil. tauto.
  - rewrite IH, elem_keys_set, elem_of_cons. tauto.
Qed.




(** What a call returned, attribute by attribute. *)
Lemma convert_returned (raw : raw_features)
    (fake_features : option (list (string * list Features)))
    (consider_dialogue_dimension : bool) (featurizers : option (list string))
    data fake_features' :
  fst (convert_to_data_format K h np raw fake_features
         consider_dialogue_dimension featurizers)
  = Ok (data, fake_features') ->
  let examples := examples_of raw in
  let training := negb (truthy fake_features) in
  let given := if training then [] else default [] fake_features in
  let surfaced :=
    surfaced_so_far featurizers (py_set h (all_attributes examples))
                    (with_turns examples) in
  let attributes :=
    if training then py_set h (all_attributes examples)
    else PyDict.keys given in
  let feats a := features_for a (absent_of (absent_shape examples)) surfaced in
  let F a := fake_for training given (feats a) a in
  let A a := arrays_for K h consider_dialogue_dimension (feats a) (F a) a in
  examples <> []
  /\ data = sorted (fold_left (fun d a => PyDict.set a (A a) d) attributes [])
  /\ fake_features'
     = (if training
        then fold_left (fun d a => PyDict.set a (F a) d) attributes []
        else given)
  /\ forall a, a ∈ attributes ->
       accepted K np consider_dialogue_dimension (feats a) (F a) a = true.
Proof.
  intros Hresult examples.
  assert (Hexamples : examples <> []).
  { intros Hempty. subst examples. by destruct raw as [[|? ?]|[|? ?]]. }
  pose proof (convert_closed_form_shape K h np (fun _ => True) raw
                fake_features consider_dialogue_dimension featurizers
                examples (unify_examples raw Hexamples)
                (well_keyed_True K _ _)) as Hconvert.
  cbv zeta in Hconvert |- *. rewrite Hconvert in Hresult. cbn [fst] in Hresult.
  destruct (forallb _ _) eqn:Hall; [|done]. injection Hresult as <- <-.
  split_and!; try done.
  intros a Ha. rewrite forallb_forall in Hall. apply Hall.
  by apply list_elem_of_In.
Qed.


End MaskProperties.

(** ** Two calls on the same input *)

Section TwiceProperties.
Import ModelDataUtils.
Variable K : constants.
Variable np : numpy.

Lemma cell_grow featurizers n a t :
  cell (grow featurizers n) a t = cell featurizers a t.
Proof.
  destruct featurizers as [[|x l]|]; [done| |done].
  unfold cell. cbn [grow app].
  destruct (PyDict.get a t) as [fs|]; [|done]. cbn. f_equal.
  apply list_filter_iff. intros f.
  apply (origin_kept (x :: l) n (origin f)).
Qed.

Lemma rows_grow featurizers n a examples :
  rows (grow featurizers n) a examples = rows featurizers a examples.
Proof.
  unfold rows. apply list_fmap_ext. intros _ example _.
  apply list_fmap_ext. intros _ t _. apply cell_grow.
Qed.

Lemma features_for_present h featurizers absent_features examples a :
  a ∈ all_attributes examples ->
  features_for a absent_features
    (surfaced_so_far featurizers (py_set h (all_attributes examples))
                     (with_turns examples))
  = rows featurizers a examples.
Proof.
  intros Ha. unfold features_for. rewrite get_surfaced.
  destruct (rows_real examples featurizers a Ha) as [-> _].
  by rewrite bool_decide_eq_true_2 by (by apply py_set_elem).
Qed.

Lemma surfaced_grow featurizers n attributes seen :
  surfaced_so_far (grow featurizers n) attributes seen
  = surfaced_so_far featurizers attributes seen.
Proof.
  unfold surfaced_so_far. destruct (has_turns seen); [|done].
  apply list_fmap_ext. intros _ a _. f_equal.
  apply list_fmap_ext. intros _ example _.
  apply list_fmap_ext. intros _ t _. apply cell_grow.
Qed.

(** What a call returns does not depend on the [TAG_ID_ORIGIN] entries that
    earlier calls have appended to the featurizers. *)
Lemma convert_grow h raw fake_features consider_dialogue_dimension
    featurizers n :
  fst (convert_to_data_format K h np raw fake_features
         consider_dialogue_dimension (grow featurizers n))
  = fst (convert_to_data_format K h np raw fake_features
           consider_dialogue_dimension featurizers).
Proof.
  unfold convert_to_data_format, bind, lift, pure.
  destruct (unify_format raw) as [examples|]; [|done].
  rewrite !surface_closed_form, surfaced_grow.
  destruct (absent_dimensions _) as [[dl ne]|]; [|done].
  by destruct (fold_result _ _ _) as [[ad ff]|].
Qed.

(** In every result, the attributes of [Data] are in strictly increasing
    lexicographic order. *)
Lemma convert_sorted h raw fake_features consider_dialogue_dimension
    featurizers data fake_features' :
  fst (convert_to_data_format K h np raw fake_features
         consider_dialogue_dimension featurizers)
  = Ok (data, fake_features') ->
  Sorted string_lt (PyDict.keys data).
Proof.
  unfold convert_to_data_format, bind, lift, pure.
  destruct (unify_format raw) as [examples|]; [|done].
  destruct (_surface_attributes h examples featurizers) as [[surfaced|] fz];
    [|done].
  destruct (absent_dimensions surfaced) as [[dl ne]|]; [|done].
  destruct (fold_result _ _ _) as [[ad ff]|] eqn:Hfold; [|done].
  cbn. intros [= <- <-]. apply sorted_keys.
  refine (fold_result_invariant
            (fun acc : list (string * list (string * list FeatureArray))
                       * list (string * list Features) =>
               NoDup (PyDict.keys (fst acc)))
            _ _ _ (ad, ff) _ _ Hfold); [|apply NoDup_nil_2].
  intros [ad0 ff0] a [ad1 ff1] Hnd.
  destruct (_feature_arrays_for_attribute _ _ _ _ _ _ _ _) as [[arrays ff2]|];
    [|done].
  cbn. intros [= <- <-]. by apply NoDup_keys_set.
Qed.

(** C4.  Two calls in training mode on the same input, the second with the
    featurizers as the first call left them and under any iteration order of
    the sets: both raise the same exception, or both return; then the two
    [Data] have the same attributes in the same order, which is strictly
    increasing lexicographic order, every attribute has equal dicts of
    arrays, and the two fake feature sets are equal dicts.  Under the same
    iteration order the second call returns exactly what the first did.  The
    attributes are in that order in every result, of either mode. *)
Theorem convert_twice_identical (h1 h2 : HashSeed) (raw : raw_features)
    (consider_dialogue_dimension : bool) (featurizers : option (list string)) :
  (let first :=
     convert_to_data_format K h1 np raw None consider_dialogue_dimension
                            featurizers in
   let second :=
     convert_to_data_format K h2 np raw None consider_dialogue_dimension
                            (snd first) in
   match fst first, fst second with
   | Ok (data1, fake1), Ok (data2, fake2) =>
       PyDict.keys data1 = PyDict.keys data2
       /\ Sorted string_lt (PyDict.keys data1)
       /\ (forall attribute,
             match PyDict.get attribute data1, PyDict.get attribute data2 with
             | Some arrays1, Some arrays2 => PyDict.equiv arrays1 arrays2
             | None, None => True
             | _, _ => False
             end)
       /\ PyDict.equiv fake1 fake2
   | Raise e1, Raise e2 => e1 = e2
   | _, _ => False
   end)
  /\ (let first :=
        convert_to_data_format K h1 np raw None consider_dialogue_dimension
                               featurizers in
      fst (convert_to_data_format K h1 np raw None consider_dialogue_dimension
                                  (snd first)) = fst first)
  /\ (forall h fake_features featurizers' data fake_features',
        fst (convert_to_data_format K h np raw fake_features
               consider_dialogue_dimension featurizers')
        = Ok (data, fake_features') ->
        Sorted string_lt (PyDict.keys data)).
Proof.
  split; [|split; [|intros; by eapply convert_sorted]].
  2: { cbv zeta. rewrite convert_featurizers. apply convert_grow. }
  destruct (decide (examples_of raw = [])) as [Hempty|Hexamples].
  { by destruct raw as [[|? ?]|[|? ?]]. }
  set (examples := examples_of raw) in *.
  pose proof (unify_examples raw Hexamples) as Hunify.
  destruct (convert_closed_form K h1 np _ raw None
              consider_dialogue_dimension featurizers examples Hunify
              (well_keyed_True K _ _))
    as (dims1 & Hfirst & Hready1).
  cbv zeta in Hfirst, Hready1. cbn [truthy negb] in Hfirst, Hready1.
  cbv zeta. rewrite Hfirst. cbn [fst snd].
  destruct (convert_closed_form K h2 np _ raw None
              consider_dialogue_dimension
              (grow featurizers (real_cells examples)) examples Hunify
              (well_keyed_True K _ _))
    as (dims2 & Hsecond & Hready2).
  cbv zeta in Hsecond, Hready2. cbn [truthy negb] in Hsecond, Hready2.
  rewrite Hsecond. cbn [fst].
  match goal with
  | |- context [if forallb ?G1 ?l1 then _ else _] =>
      set (ok1 := forallb G1 l1)
  end.
  match goal with
  | |- context [if forallb ?G2 ?l2 then _ else _] =>
      set (ok2 := forallb G2 l2)
  end.
  assert (Hsame : ok1 = ok2).
  { subst ok1 ok2. apply eq_true_iff_eq. rewrite !forallb_forall. split.
    - intros Hall a Ha. apply list_elem_of_In, py_set_elem in Ha.
      rewrite (features_for_present h2 _ _ _ a Ha), rows_grow.
      rewrite <- (features_for_present h1 featurizers (absent_of dims1) _ a
                    Ha).
      apply Hall. by apply list_elem_of_In, py_set_elem.
    - intros Hall a Ha. apply list_elem_of_In, py_set_elem in Ha.
      rewrite (features_for_present h1 _ _ _ a Ha).
      rewrite <- (rows_grow featurizers (real_cells examples)).
      rewrite <- (features_for_present h2
                    (grow featurizers (real_cells examples))
                    (absent_of dims2) _ a Ha).
      apply Hall. by apply list_elem_of_In, py_set_elem. }
  clearbody ok1 ok2. subst ok1. destruct ok2; [|done].
  match goal with
  | |- PyDict.keys (sorted ?l1) = PyDict.keys (sorted ?l2) /\ _ =>
      set (built1 := l1); set (built2 := l2)
  end.
  assert (Hnd1 : NoDup (PyDict.keys built1))
    by apply NoDup_keys_fold_set, NoDup_nil_2.
  assert (Hnd2 : NoDup (PyDict.keys built2))
    by apply NoDup_keys_fold_set, NoDup_nil_2.
  assert (Hkeys :
    forall a, a ∈ PyDict.keys built1 <-> a ∈ PyDict.keys built2).
  { intros a. unfold built1, built2.
    rewrite !elem_keys_fold_set, !py_set_elem. tauto. }
  split_and!.
  - apply sorted_keys_unique; [by apply sorted_keys..|].
    unfold PyDict.keys. rewrite !(sorted_perm _).
    by apply NoDup_Permutation.
  - by apply sorted_keys.
  - intros a. rewrite !sorted_get by done. unfold built1, built2.
    rewrite !fold_set_get.
    destruct (decide (a ∈ py_set h1 _)) as [Ha1|Ha1];
      destruct (decide (a ∈ py_set h2 _)) as [Ha2|Ha2];
      try (rewrite py_set_elem in Ha1; rewrite py_set_elem in Ha2; done).
    destruct (ready_typed K h1 _ _ _ consider_dialogue_dimension _ _ a
                (Hready1 a Ha1))
      as (sparse1 & dense1 & Htyped1 & _ & _ & ->).
    destruct (ready_typed K h2 _ _ _ consider_dialogue_dimension _ _ a
                (Hready2 a Ha2))
      as (sparse2 & dense2 & Htyped2 & _ & _ & ->).
    apply py_set_elem in Ha1.
    rewrite (features_for_present h1 _ _ _ a Ha1) in Htyped1 |- *.
    rewrite (features_for_present h2 _ _ _ a Ha1) in Htyped2 |- *.
    rewrite rows_grow in Htyped2 |- *.
    rewrite Htyped1 in Htyped2. injection Htyped2 as <- <-.
    intros key. by rewrite !assemble_get.
  - intros a. rewrite !fold_set_get.
    destruct (decide (a ∈ py_set h1 _)) as [Ha1|Ha1];
      destruct (decide (a ∈ py_set h2 _)) as [Ha2|Ha2];
      try (rewrite py_set_elem in Ha1; rewrite py_set_elem in Ha2; done).
    apply py_set_elem in Ha1.
    rewrite (features_for_present h1 _ _ _ a Ha1).
    rewrite (features_for_present h2 _ _ _ a Ha1).
    by rewrite rows_grow.
Qed.

End TwiceProperties.

(** ** The properties on the example data *)

Section Examples.
Import ModelDataUtils ModelDataUtils.Example.



(** Two examples whose dense sentence features have the widths 2 and 3:
    numpy cannot make one array of the two matrices, and the call raises. *)
Example convert_refused_by_numpy :
  fst (convert_to_data_format rasa_constants first_seen np_rule
         (Flat [[("text", [dense_sentence])]; [("text", [dense_wide])]])
         None true None)
  = Raise np_error.
Proof. vm_compute. reflexivity. Qed.

(** The tag ids of a message without tokens are a [float64] column without
    rows. *)
Example tag_ids_without_tokens :
  get_tag_ids no_bilou no_label rasa_constants untokenized
              {| tag_name := "entity"; tags_to_ids := [("O", 0%Z)] |} false
  = Ok {| features := ndarray float64 (0, 1) []; type := "ids";
          attribute := "entity"; origin := "tag_id_origin" |}.
Proof. reflexivity. Qed.

(** The masks of the example data: the text is in both examples, the intent
    in the first only. *)
Example example_masks :
  expected_masks "text" (examples_of examples) = [[[1%Q]]; [[1%Q]]]
  /\ expected_masks "intent" (examples_of examples) = [[[1%Q]]; [[0%Q]]].
Proof. done. Qed.

(** The misaligned message is rejected; the aligned one gives its sparse
    sequence matrix and no dense sequence entry. *)
Lemma extract_attribute_features_from_message_spec_witness :
  raises (extract_attribute_features_from_message rasa_constants misaligned
                                                  "text" None)
  /\ exists out,
       extract_attribute_features_from_message rasa_constants message "text"
                                               None = Ok out
       /\ PyDict.get (true, "sequence") out = Some (features sparse_sequence)
       /\ PyDict.get (false, "sequence") out = None.
Proof.
  split.
  - apply (extract_attribute_features_from_message_spec rasa_constants
             misaligned "text" None); [done|].
    left. exists dense_sequence, sparse_sequence. by split_and!.
  - destruct (extract_attribute_features_from_message_spec rasa_constants
                message "text" None) as (_ & _ & Hout); [done|].
    destruct Hout as (out & Hout & Hseq & _ & Hdense & _).
    + intros [(d & s & Hd & _)|(d & s & Hd & Hs & Hrows)]; [done|].
      vm_compute in Hd, Hs. by simplify_eq.
    + by exists out.
Defined.

(** Of the two example messages, the first decides the sizes: an entry for
    the text, whose first feature is sparse, none for the intent. *)
Lemma sparse_feature_sizes_from_first_example_witness :
  exists output sizes featurized_example,
    featurize_training_examples no_bilou no_label rasa_constants
      [message; misaligned] ["text"; "intent"] None None false None
    = Ok (output, sizes)
    /\ head output = Some featurized_example
    /\ PyDict.get "text" sizes
       = Some [("sequence", [16%Z]); ("sentence", [16%Z])]
    /\ PyDict.get "intent" sizes = None.
Proof.
  destruct (sparse_feature_sizes_from_first_example no_bilou no_label
              rasa_constants message [misaligned] ["text"; "intent"] None
              None false None _ _ eq_refl)
    as (featurized_example & Hhead & _ & _ & Hsizes).
  eexists _, _, featurized_example. split; [reflexivity|].
  split; [exact Hhead|]. cbn in Hhead. injection Hhead as <-.
  split; [exact (Hsizes "text") | exact (Hsizes "intent")].
Defined.

(** One call appends once; building [Data] from the example data, which has
    three feature lists, appends three times. *)
Lemma filter_features_appends_to_featurizers_witness :
  snd (_filter_features (Some [sparse_sequence; label]) ["CountVectors"])
  = ["CountVectors"; "tag_id_origin"]
  /\ snd (convert_to_data_format rasa_constants first_seen np_rule examples
                                 None true (Some ["CountVectors"]))
     = Some ["CountVectors"; "tag_id_origin"; "tag_id_origin";
             "tag_id_origin"].
Proof.
  destruct (filter_features_appends_to_featurizers rasa_constants first_seen
              np_rule ["CountVectors"] [sparse_sequence; label])
    as (Happend & _ & _ & _ & Hconvert); [done|].
  split; [exact Happend|]. exact (Hconvert examples None true).
Defined.

(** C2, where the code departs from it: the template of a sparse feature of
    dtype [int64] is a sparse matrix with no rows and the same width, but of
    dtype [float64]: [_create_fake_features] passes the dtype as second
    positional argument of [coo_matrix], which is [shape].  The same shows in
    the fake features that [convert_to_data_format] returns in training: for
    the text of the example data, whose first feature list has two sparse
    [int64] features and a dense [float32] one, the templates are [float64],
    [float64] and [float32]. *)
Theorem create_fake_features_sparse_dtype :
  (exists fake,
     _create_fake_features [[None; Some [sparse_sequence]]] = Ok [fake]
     /\ matrix_shape (features fake) = (0, 16)
     /\ is_sparse fake = true
     /\ matrix_dtype (features sparse_sequence) = int64
     /\ matrix_dtype (features fake) = float64)
  /\ exists data fake_features,
       fst (convert_to_data_format rasa_constants first_seen np_rule examples
                                   None false None) = Ok (data, fake_features)
       /\ (fun f => matrix_dtype (features f))
            <$> default [] (PyDict.get "text" fake_features)
          = [float64; float64; float32].
Proof.
  split.
  - eexists. by split_and!.
  - eexists _, _. split; [vm_compute; reflexivity | reflexivity].
Qed.

End Examples.

(** * Further properties of the feature pipeline *)

(** ** When [convert_to_data_format] returns, and with which attributes *)

Section ConvertTotal.
Import ModelDataUtils.
Variable K : constants.
Variable h : HashSeed.

Lemma accepted_all (np : numpy) (consider_dialogue_dimension : bool)
    (features : list (list (option (list Features))))
    (fake_features : list Features) (attribute : string) :
  (forall a, np a = true) ->
  accepted K np consider_dialogue_dimension features fake_features attribute
  = true.
Proof.
  intros Hnp. unfold accepted.
  destruct (_extract_features K features fake_features attribute)
    as [[masks dense] sparse].
  rewrite Hnp, !andb_true_r. apply andb_true_iff.
  split; apply forallb_forall; intros kv _; apply Hnp.
Qed.



Section Outcome.
Variable np : numpy.



Lemma fold_set_fresh {V} (g : string -> V) (todo seen : list string) :
  NoDup (seen ++ todo) ->
  fold_left (fun d a => PyDict.set a (g a) d) todo
            ((fun a => (a, g a)) <$> seen)
  = (fun a => (a, g a)) <$> (seen ++ todo).
Proof.
  revert seen. induction todo as [|a todo IH]; intros seen Hnd.
  - by rewrite app_nil_r.
  - cbn [fold_left]. rewrite cons_middle, app_assoc in Hnd |- *.
    rewrite <- (IH _ Hnd). f_equal.
    apply NoDup_app in Hnd as [Hnd _].
    apply NoDup_app in Hnd as (_ & Hdisj & _).
    rewrite set_absent, fmap_app; [done|].
    rewrite keys_fmap_pair. intros Hin. apply (Hdisj _ Hin). left.
Qed.

Lemma fold_set_all {V} (g : string -> V) (l : list string) :
  NoDup l ->
  fold_left (fun d a => PyDict.set a (g a) d) l [] = (fun a => (a, g a)) <$> l.
Proof. intros Hnd. by apply (fold_set_fresh g l []). Qed.

Lemma fold_set_ext {V} (g1 g2 : string -> V) (l : list string) :
  (forall a, a ∈ l -> g1 a = g2 a) ->
  forall d : list (string * V),
  fold_left (fun d a => PyDict.set a (g1 a) d) l d
  = fold_left (fun d a => PyDict.set a (g2 a) d) l d.
Proof.
  induction l as [|a l IH]; intros Hext d; [done|]. cbn [fold_left].
  rewrite (Hext a) by left. apply IH. intros b Hb. apply Hext. by right.
Qed.

(** X11.  The attributes of the result.  In training they are the attributes
    that occur in some turn of the input, in [Data] and in the returned fake
    features alike.  With fake features given they are the attributes of the
    fake features, whatever the input holds, and the fake features are returned
    as given. *)
Theorem convert_attribute_universe (raw : raw_features)
    (fake_features : option (list (string * list Features)))
    (consider_dialogue_dimension : bool) (featurizers : option (list string))
    data fake_features' :
  fst (convert_to_data_format K h np raw fake_features
         consider_dialogue_dimension featurizers)
  = Ok (data, fake_features') ->
  NoDup (PyDict.keys data)
  /\ match fake_features with
     | Some (binding :: given) =>
         fake_features' = binding :: given
         /\ forall a, a ∈ PyDict.keys data
                      <-> a ∈ PyDict.keys (binding :: given)
     | _ =>
         (forall a, a ∈ PyDict.keys data
                    <-> a ∈ all_attributes (examples_of raw))
         /\ (forall a, a ∈ PyDict.keys fake_features'
                       <-> a ∈ all_attributes (examples_of raw))
     end.
Proof.
  intros Hresult.
  destruct (convert_returned K h np raw fake_features
              consider_dialogue_dimension featurizers data fake_features'
              Hresult) as (Hexamples & -> & -> & _).
  cbv zeta.
  split.
  { unfold PyDict.keys. rewrite (sorted_perm _).
    apply NoDup_keys_fold_set, NoDup_nil_2. }
  assert (Hkeys : forall {V} (l : list (string * V)) a,
            a ∈ PyDict.keys (sorted l) <-> a ∈ PyDict.keys l).
  { intros V l a. unfold PyDict.keys. by rewrite (sorted_perm l). }
  destruct fake_features as [[|binding given]|]; cbn [truthy negb default].
  - split; intros a; rewrite ?Hkeys, elem_keys_fold_set, py_set_elem;
      cbn; rewrite elem_of_nil; tauto.
  - split; [done|]. intros a. rewrite Hkeys, elem_keys_fold_set.
    cbn. rewrite elem_of_nil. tauto.
  - split; intros a; rewrite ?Hkeys, elem_keys_fold_set, py_set_elem;
      cbn; rewrite elem_of_nil; tauto.
Qed.

(** X12.  Round trip of the fake features: what a call in training returns as
    fake features, given back to a call on the same input (with the featurizers
    as the first call left them), yields the same [Data] and the same fake
    features. *)
Theorem convert_with_returned_fake_features (raw : raw_features)
    (consider_dialogue_dimension : bool) (featurizers : option (list string))
    data fake_features featurizers' :
  convert_to_data_format K h np raw None consider_dialogue_dimension
                         featurizers
  = (Ok (data, fake_features), featurizers') ->
  fst (convert_to_data_format K h np raw (Some fake_features)
         consider_dialogue_dimension featurizers')
  = Ok (data, fake_features).
Proof.
  intros Hfirst.
  pose proof (convert_featurizers K h np raw None consider_dialogue_dimension
                featurizers) as Hfz.
  rewrite Hfirst in Hfz. cbn [snd] in Hfz. subst featurizers'.
  rewrite convert_grow.
  assert (Hresult : fst (convert_to_data_format K h np raw None
                           consider_dialogue_dimension featurizers)
                    = Ok (data, fake_features)) by by rewrite Hfirst.
  destruct fake_features as [|binding given] eqn:Hfake; [done|].
  rewrite <- Hfake in *.
  destruct (convert_returned K h np raw None consider_dialogue_dimension
              featurizers data fake_features Hresult)
    as (Hexamples & Hdata & Hfakes & Hacc).
  cbv zeta in Hdata, Hfakes, Hacc. cbn [truthy negb] in Hdata, Hfakes, Hacc.
  set (examples := examples_of raw) in *.
  pose proof (unify_examples raw Hexamples) as Hunify. fold examples in Hunify.
  rewrite (fold_set_all _ _ (py_set_NoDup h _)) in Hfakes.
  pose proof (convert_closed_form_shape K h np (fun _ => True) raw
                (Some fake_features) consider_dialogue_dimension featurizers
                examples Hunify (well_keyed_True K _ _)) as Hclosed2.
  cbv zeta in Hclosed2.
  assert (Htruthy : truthy (Some fake_features) = true) by by rewrite Hfake.
  rewrite Htruthy in Hclosed2. cbn [negb default] in Hclosed2.
  unfold id in Hclosed2.
  assert (Hkeys : PyDict.keys fake_features
                  = py_set h (all_attributes examples)).
  { rewrite Hfakes. apply keys_fmap_pair. }
  assert (Hfake_for : forall a, a ∈ py_set h (all_attributes examples) ->
    fake_for false fake_features
      (features_for a (absent_of (absent_shape examples))
         (surfaced_so_far featurizers (py_set h (all_attributes examples))
            (with_turns examples))) a
    = fake_for true []
        (features_for a (absent_of (absent_shape examples))
           (surfaced_so_far featurizers (py_set h (all_attributes examples))
              (with_turns examples))) a).
  { intros a Ha. unfold fake_for at 1. rewrite Hfakes at 1.
    rewrite get_fmap_pair. by rewrite decide_True. }
  rewrite Hclosed2. cbn [fst]. rewrite Hkeys.
  match goal with
  | |- (if forallb ?G ?l then _ else _) = _ =>
      assert (Hsame : forallb G l = true)
  end.
  { apply forallb_forall. intros a Ha. apply list_elem_of_In in Ha.
    rewrite (Hfake_for a Ha). by apply Hacc. }
  rewrite Hsame. f_equal. f_equal. rewrite Hdata. f_equal.
  apply fold_set_ext. intros a Ha. by rewrite (Hfake_for a Ha).
Qed.

End Outcome.
End ConvertTotal.

(** ** What [_extract_features] collects under each key *)

Section ExtendFacts.
Import ModelDataUtils.
Context {Key A : Type} `{EqDecision Key}.

Lemma extend_app (o : option (list A)) (l1 l2 : list A) :
  extend (extend o l1) l2 = extend o (l1 ++ l2).
Proof.
  destruct l1 as [|x l1]; [done|]. destruct l2 as [|y l2].
  - by rewrite app_nil_r.
  - cbn. by rewrite <- !app_assoc.
Qed.

Lemma extend_None (l : list A) : extend None l = non_empty l.
Proof. by destruct l. Qed.

Lemma get_append (key k : Key) (x : A) (d : list (Key * list A)) :
  PyDict.get key (PyDict.append k x d)
  = extend (PyDict.get key d) (if decide (key = k) then [x] else []).
Proof.
  unfold PyDict.append. destruct (decide (key = k)) as [->|Hne].
  - by rewrite get_set_eq.
  - by rewrite get_set_ne.
Qed.

Lemma NoDup_keys_append (k : Key) (x : A) (d : list (Key * list A)) :
  NoDup (PyDict.keys d) -> NoDup (PyDict.keys (PyDict.append k x d)).
Proof. apply NoDup_keys_set. Qed.

Lemma get_append_items (key : Key) (items : list (Key * A)) :
  forall d : list (Key * list A),
  PyDict.get key
    (fold_left (fun collected '(k, value) => PyDict.append k value collected)
               items d)
  = extend (PyDict.get key d) (picked key items).
Proof.
  induction items as [|[k v] items IH]; intros d; [done|].
  cbn [fold_left]. rewrite IH, get_append, extend_app. done.
Qed.

Lemma NoDup_keys_append_items (items : list (Key * A)) :
  forall d : list (Key * list A),
  NoDup (PyDict.keys d) ->
  NoDup (PyDict.keys
           (fold_left
              (fun collected '(k, value) => PyDict.append k value collected)
              items d)).
Proof.
  induction items as [|[k v] items IH]; intros d Hd; [done|].
  cbn [fold_left]. by apply IH, NoDup_keys_append.
Qed.

Lemma picked_get {V} (key : Key) (items : list (Key * V)) :
  NoDup (PyDict.keys items) ->
  picked key items = option_list (PyDict.get key items).
Proof.
  unfold PyDict.keys, picked.
  induction items as [|[k v] items IH]; [done|].
  rewrite fmap_cons, NoDup_cons. intros [Hk Hnd]. cbn.
  destruct (decide (key = k)) as [->|Hne]; [|by apply IH].
  cbn. f_equal. clear IH Hnd.
  induction items as [|[k' v'] items IH]; [done|].
  rewrite fmap_cons, not_elem_of_cons in Hk. destruct Hk as [Hne Hk].
  cbn. rewrite decide_False by done. by apply IH.
Qed.

End ExtendFacts.

Section ExtractClosedForm.
Import ModelDataUtils.
Variable K : constants.
Variable attribute : string.

#[local] Abbreviation chosen sparse key :=
  (fun f : Features =>
     if bool_decide (is_sparse f = sparse /\ feature_key K attribute f = key)
     then [features f] else []) (only parsing).

Lemma chosen_spec (sparse : bool) (key : string) (f : Features) :
  chosen sparse key f
  = if bool_decide (is_sparse f = sparse)
    then if decide (key = feature_key K attribute f) then [features f] else []
    else [].
Proof.
  cbv beta.
  destruct (decide (is_sparse f = sparse)) as [Hkind|Hkind];
    destruct (decide (key = feature_key K attribute f)) as [Hkey|Hkey].
  - by rewrite !bool_decide_eq_true_2 by done.
  - rewrite bool_decide_eq_false_2 by (intros [_ ?]; done).
    by rewrite bool_decide_eq_true_2 by done.
  - rewrite !bool_decide_eq_false_2; [done | done | by intros [? _]].
  - rewrite !bool_decide_eq_false_2; [done | done | by intros [? _]].
Qed.

Lemma bucket_get (key : string) (fs : list Features) :
  forall dialogue : list (string * list matrix) * list (string * list matrix),
  let dialogue' := fold_left (bucket K attribute) fs dialogue in
  PyDict.get key (fst dialogue')
  = extend (PyDict.get key (fst dialogue)) (fs ≫= chosen true key)
  /\ PyDict.get key (snd dialogue')
     = extend (PyDict.get key (snd dialogue)) (fs ≫= chosen false key).
Proof.
  induction fs as [|f fs IH]; intros [s d]; [done|].
  cbn [fold_left]. cbv zeta in IH |- *.
  destruct (IH (bucket K attribute (s, d) f)) as [-> ->]. clear IH.
  change ((f :: fs) ≫= chosen true key)
    with (chosen true key f ++ (fs ≫= chosen true key)).
  change ((f :: fs) ≫= chosen false key)
    with (chosen false key f ++ (fs ≫= chosen false key)).
  rewrite <- !extend_app, !chosen_spec.
  unfold bucket. destruct (is_sparse f) eqn:Hkind; cbn [fst snd];
    rewrite get_append; by split.
Qed.

Lemma bucket_NoDup (fs : list Features) :
  forall dialogue : list (string * list matrix) * list (string * list matrix),
  NoDup (PyDict.keys (fst dialogue)) -> NoDup (PyDict.keys (snd dialogue)) ->
  let dialogue' := fold_left (bucket K attribute) fs dialogue in
  NoDup (PyDict.keys (fst dialogue')) /\ NoDup (PyDict.keys (snd dialogue')).
Proof.
  induction fs as [|f fs IH]; intros [s d] Hs Hd; [done|].
  cbn [fold_left]. apply IH; unfold bucket; destruct (is_sparse f);
    cbn [fst snd]; try done; by apply NoDup_keys_append.
Qed.

Lemma extract_turns_get (fake_features : list Features) (key : string) :
  forall (turns : list (option (list Features))) i dialogue mask,
  let dialogue' :=
    fst (fold_left (extract_turn K fake_features attribute)
                   (enumerate_from i turns) (dialogue, mask)) in
  PyDict.get key (fst dialogue')
  = extend (PyDict.get key (fst dialogue))
           ((c ← turns; default fake_features c) ≫= chosen true key)
  /\ PyDict.get key (snd dialogue')
     = extend (PyDict.get key (snd dialogue))
              ((c ← turns; default fake_features c) ≫= chosen false key).
Proof.
  induction turns as [|c turns IH]; intros i dialogue mask; [done|].
  cbn [enumerate_from fold_left]. cbv zeta in IH |- *.
  rewrite !bind_cons, !bind_app, <- !extend_app.
  destruct (bucket_get key (default fake_features c) dialogue) as [<- <-].
  cbv zeta. destruct c as [l|]; cbn [extract_turn default]; apply IH.
Qed.

Lemma extract_turns_NoDup (fake_features : list Features) :
  forall (turns : list (option (list Features))) i dialogue mask,
  NoDup (PyDict.keys (fst dialogue)) -> NoDup (PyDict.keys (snd dialogue)) ->
  let dialogue' :=
    fst (fold_left (extract_turn K fake_features attribute)
                   (enumerate_from i turns) (dialogue, mask)) in
  NoDup (PyDict.keys (fst dialogue')) /\ NoDup (PyDict.keys (snd dialogue')).
Proof.
  induction turns as [|c turns IH]; intros i dialogue mask Hs Hd; [done|].
  cbn [enumerate_from fold_left]. cbv zeta in IH |- *.
  destruct (bucket_NoDup (default fake_features c) dialogue Hs Hd)
    as [Hs' Hd'].
  destruct c as [l|]; cbn [extract_turn default]; by apply IH.
Qed.

Lemma matrices_of_unfold (sparse : bool) (key : string)
    (fake_features : list Features) (turns : list (option (list Features))) :
  (c ← turns; default fake_features c) ≫= chosen sparse key
  = matrices_of K attribute sparse key fake_features turns.
Proof. done. Qed.

(** One example: each key gets at most one more entry, the list of the
    matrices of the example, when there is one. *)
Lemma extract_example_get (fake_features : list Features) (key : string)
    sparse dense masks (turns : list (option (list Features))) :
  exists sparse' dense' masks',
    extract_example K fake_features attribute (sparse, dense, masks) turns
    = (sparse', dense', masks')
    /\ PyDict.get key sparse'
       = extend (PyDict.get key sparse)
           (option_list
              (non_empty (matrices_of K attribute true key fake_features
                                      turns)))
    /\ PyDict.get key dense'
       = extend (PyDict.get key dense)
           (option_list
              (non_empty (matrices_of K attribute false key fake_features
                                      turns)))
    /\ (NoDup (PyDict.keys sparse) -> NoDup (PyDict.keys sparse'))
    /\ (NoDup (PyDict.keys dense) -> NoDup (PyDict.keys dense')).
Proof.
  unfold extract_example, enumerate.
  pose proof (extract_turns_get fake_features key turns 0 ([], [])
                (np_ones (length turns))) as Hget.
  pose proof (extract_turns_NoDup fake_features turns 0 ([], [])
                (np_ones (length turns)) (NoDup_nil_2 (A := string))
                (NoDup_nil_2 (A := string)))
    as Hnd.
  destruct (fold_left _ _ _) as [[ds dd] mask].
  cbv zeta in Hget, Hnd. cbn [fst snd PyDict.get] in Hget, Hnd.
  destruct Hget as [Hs Hd], Hnd as [Hnds Hndd].
  rewrite !matrices_of_unfold, !extend_None in Hs, Hd.
  eexists _, _, _. split; [reflexivity|].
  unfold append_all. rewrite !get_append_items, !picked_get, Hs, Hd by done.
  split_and!; try done; apply NoDup_keys_append_items.
Qed.

Lemma bind_non_empty {A B} (m : A -> list B) (l : list A) :
  l ≫= (fun x => option_list (non_empty (m x)))
  = filter (fun v => v <> []) (m <$> l).
Proof.
  induction l as [|x l IH]; [done|].
  rewrite bind_cons, fmap_cons, filter_cons, IH.
  destruct (m x) as [|y v]; cbn [non_empty option_list];
    [by rewrite decide_False by (intros ?; done) | by rewrite decide_True].
Qed.

Lemma extract_examples_get (fake_features : list Features) (key : string) :
  forall (examples : list (list (option (list Features)))) sparse dense masks,
  exists sparse' dense' masks',
    fold_left (extract_example K fake_features attribute) examples
              (sparse, dense, masks)
    = (sparse', dense', masks')
    /\ PyDict.get key sparse'
       = extend (PyDict.get key sparse)
           (collected_for K attribute true key fake_features examples)
    /\ PyDict.get key dense'
       = extend (PyDict.get key dense)
           (collected_for K attribute false key fake_features examples)
    /\ (NoDup (PyDict.keys sparse) -> NoDup (PyDict.keys sparse'))
    /\ (NoDup (PyDict.keys dense) -> NoDup (PyDict.keys dense')).
Proof.
  unfold collected_for.
  induction examples as [|turns examples IH]; intros sparse dense masks.
  - by eexists _, _, _.
  - cbn [fold_left].
    destruct (extract_example_get fake_features key sparse dense masks turns)
      as (s1 & d1 & m1 & -> & Hs1 & Hd1 & Hnds1 & Hndd1).
    destruct (IH s1 d1 m1) as (s2 & d2 & m2 & -> & Hs2 & Hd2 & Hnds2 & Hndd2).
    eexists _, _, _. split; [reflexivity|].
    rewrite Hs2, Hd2, Hs1, Hd1, !extend_app, <- !bind_non_empty.
    split_and!; [done | done | by intros; apply Hnds2, Hnds1
                 | by intros; apply Hndd2, Hndd1].
Qed.

End ExtractClosedForm.

Section ExtractTheorem.
Import ModelDataUtils.
Variable K : constants.

Lemma extract_features_get
    (features : list (list (option (list Features))))
    (fake_features : list Features) (attribute : string) :
  exists dense sparse,
    _extract_features K features fake_features attribute
    = (masks_of features, dense, sparse)
    /\ NoDup (PyDict.keys sparse) /\ NoDup (PyDict.keys dense)
    /\ forall key,
         PyDict.get key sparse
         = non_empty (collected_for K attribute true key fake_features
                                    features)
         /\ PyDict.get key dense
            = non_empty (collected_for K attribute false key fake_features
                                       features).
Proof.
  destruct (extract_features_spec K (fun _ => True) attribute fake_features
              features) as (dense & sparse & Hextract & _).
  { by apply Forall_forall. }
  { apply Forall_forall. intros turns _. apply Forall_forall.
    intros c _ l _. by apply Forall_forall. }
  exists dense, sparse. split; [done|].
  unfold _extract_features in Hextract.
  assert (Hfold : exists masks,
    fold_left (extract_example K fake_features attribute) features ([], [], [])
    = (sparse, dense, masks)).
  { destruct (fold_left _ _ _) as [[s d] m]. injection Hextract as _ <- <-.
    by eexists. }
  destruct Hfold as [masks Hfold].
  assert (Hkey : forall key,
    PyDict.get key sparse
    = non_empty (collected_for K attribute true key fake_features features)
    /\ PyDict.get key dense
       = non_empty (collected_for K attribute false key fake_features
                                  features)
    /\ NoDup (PyDict.keys sparse) /\ NoDup (PyDict.keys dense)).
  { intros key.
    destruct (extract_examples_get K attribute fake_features key features
                [] [] []) as (s & d & m & Hs & Hgs & Hgd & Hnds & Hndd).
    rewrite Hfold in Hs. injection Hs as <- <- <-.
    rewrite Hgs, Hgd. cbn [PyDict.get]. rewrite !extend_None.
    split_and!; [done | done | apply Hnds, NoDup_nil_2
                 | apply Hndd, NoDup_nil_2]. }
  split_and!; [apply (Hkey "") | apply (Hkey "") |].
  intros key. destruct (Hkey key) as (? & ? & _). by split.
Qed.

(** X8.  What [_extract_features] returns, key by key: the masks of the
    examples; under a key, among the sparse features and among the dense ones,
    one list per example that has a feature of that kind and key, in the order
    of the examples, made of the matrices of these features in the order of the
    turns.  A turn without features counts with the fake features, so an example
    is left out under a key only if none of its turns, filled in that way, has
    such a feature.  A key with no such example is not in the dict. *)
Theorem extract_features_closed_form
    (features : list (list (option (list Features))))
    (fake_features : list Features) (attribute : string) :
  exists dense sparse,
    _extract_features K features fake_features attribute
    = (masks_of features, dense, sparse)
    /\ NoDup (PyDict.keys sparse) /\ NoDup (PyDict.keys dense)
    /\ forall key,
         PyDict.get key sparse
         = non_empty (collected_for K attribute true key fake_features
                                    features)
         /\ PyDict.get key dense
            = non_empty (collected_for K attribute false key fake_features
                                       features).
Proof. apply extract_features_get. Qed.

End ExtractTheorem.

(** ** What [_feature_arrays_for_attribute] puts under each key *)

Section ArraysClosedForm.
Import ModelDataUtils.
Variable K : constants.

Lemma to_feature_arrays_get (consider_dialogue_dimension : bool)
    (d : list (string * list (list matrix))) :
  NoDup (PyDict.keys d) ->
  Forall (fun kv => Forall (fun v => v <> []) (snd kv)) d ->
  exists out,
    to_feature_arrays lenient consider_dialogue_dimension d = Ok out
    /\ forall key,
         PyDict.get key out
         = feature_array consider_dialogue_dimension <$> PyDict.get key d.
Proof.
  unfold to_feature_arrays.
  assert (Hgen : forall out0,
    NoDup (PyDict.keys d) ->
    Forall (fun kv => Forall (fun v => v <> []) (snd kv)) d ->
    exists out,
      fold_result (feature_array_step lenient consider_dialogue_dimension)
                  out0 d = Ok out
      /\ forall key,
           PyDict.get key out
           = match PyDict.get key d with
             | Some values =>
                 Some (feature_array consider_dialogue_dimension values)
             | None => PyDict.get key out0
             end).
  { unfold PyDict.keys.
    induction d as [|[k values] d IH]; intros out0 Hnd Hd; [by eexists|].
    rewrite fmap_cons in Hnd. apply NoDup_cons in Hnd as [Hk Hnd].
    apply Forall_cons in Hd as [Hvalues Hd]. cbn [snd fst] in Hvalues, Hk.
    cbn [fold_result].
    assert (Hstep :
      feature_array_step lenient consider_dialogue_dimension out0 (k, values)
      = Ok (PyDict.set k (feature_array consider_dialogue_dimension values)
                       out0)).
    { rewrite feature_array_step_spec by done. cbn [lenient].
      unfold feature_array, array_arg.
      by destruct consider_dialogue_dimension. }
    rewrite Hstep. cbn [mbind result_bind].
    destruct (IH (PyDict.set k
                    (feature_array consider_dialogue_dimension values) out0)
                 Hnd Hd) as (out & -> & Hout).
    exists out. split; [done|]. intros key. rewrite Hout. cbn [PyDict.get].
    destruct (decide (key = k)) as [->|Hne].
    - apply (get_None_keys k d) in Hk. by rewrite Hk, get_set_eq.
    - destruct (PyDict.get key d); [done|]. by rewrite get_set_ne. }
  intros Hnd Hd. destruct (Hgen [] Hnd Hd) as (out & Hout & Hget).
  exists out. split; [done|]. intros key. rewrite Hget.
  by destruct (PyDict.get key d).
Qed.

Lemma collected_non_empty (d : list (string * list (list matrix)))
    (collected : string -> list (list matrix)) :
  NoDup (PyDict.keys d) ->
  (forall key,
     PyDict.get key d
     = non_empty (filter (fun l => l <> []) (collected key))) ->
  Forall (fun kv => Forall (fun v => v <> []) (snd kv)) d.
Proof.
  intros Hnd Hget. apply Forall_forall. intros [k values] Hin.
  apply (elem_get_NoDup _ _ _ Hnd) in Hin. rewrite Hget in Hin. cbn [snd].
  assert (values = filter (fun l => l <> []) (collected k)) as ->.
  { by destruct (filter _ _); simplify_eq/=. }
  apply Forall_forall. intros v Hv. by apply list_elem_of_filter in Hv as [? _].
Qed.

Lemma option_list_wrap (consider_dialogue_dimension : bool)
    (values : list (list matrix)) :
  option_list (feature_array consider_dialogue_dimension <$> non_empty values)
  = wrap consider_dialogue_dimension values.
Proof. by destruct values. Qed.

(** The two dicts of arrays of an attribute. *)
Lemma typed_arrays_get (attribute : string)
    (features : list (list (option (list Features))))
    (fake_features : list Features) (consider_dialogue_dimension : bool) :
  exists sparse dense,
    typed_arrays K attribute features fake_features
                 consider_dialogue_dimension = Ok (sparse, dense)
    /\ forall key,
         option_list (PyDict.get key sparse)
         = wrap consider_dialogue_dimension
             (collected_for K attribute true key fake_features features)
         /\ option_list (PyDict.get key dense)
            = wrap consider_dialogue_dimension
                (collected_for K attribute false key fake_features features).
Proof.
  unfold typed_arrays.
  destruct (extract_features_get K features fake_features attribute)
    as (d & s & -> & Hnds & Hndd & Hget).
  destruct (to_feature_arrays_get consider_dialogue_dimension s Hnds)
    as (sparse & -> & Hsparse).
  { apply (collected_non_empty s
             (fun key => matrices_of K attribute true key fake_features
                         <$> features) Hnds).
    intros key. apply Hget. }
  destruct (to_feature_arrays_get consider_dialogue_dimension d Hndd)
    as (dense & -> & Hdense).
  { apply (collected_non_empty d
             (fun key => matrices_of K attribute false key fake_features
                         <$> features) Hndd).
    intros key. apply Hget. }
  exists sparse, dense. split; [done|]. intros key.
  destruct (Hget key) as [Hs Hd].
  by rewrite Hsparse, Hdense, Hs, Hd, !option_list_wrap.
Qed.

Lemma assemble_closed_form (h : HashSeed) (attribute : string)
    (features : list (list (option (list Features))))
    (fake_features : list Features) (consider_dialogue_dimension : bool)
    sparse dense :
  typed_arrays K attribute features fake_features
               consider_dialogue_dimension = Ok (sparse, dense) ->
  forall key,
    PyDict.get key (assemble K h (masks_of features) sparse dense)
    = match wrap consider_dialogue_dimension
              (collected_for K attribute true key fake_features features)
            ++ wrap consider_dialogue_dimension
                 (collected_for K attribute false key fake_features features)
      with
      | [] => if decide (key = MASK K)
              then Some [mask_array (masks_of features)] else None
      | arrays => Some arrays
      end.
Proof.
  intros Htyped key.
  destruct (typed_arrays_get attribute features fake_features
              consider_dialogue_dimension) as (s & d & Htyped' & Hget).
  rewrite Htyped in Htyped'. injection Htyped' as <- <-.
  destruct (Hget key) as [Hs Hd]. rewrite <- Hs, <- Hd, assemble_get.
  unfold arrays_value.
  destruct (PyDict.get key sparse) as [sa|] eqn:Hsa,
           (PyDict.get key dense) as [da|] eqn:Hda; cbn [option_list app].
  - rewrite decide_True; [done|]. apply elem_of_app. left.
    apply get_Some_keys. by rewrite Hda.
  - rewrite decide_True; [done|]. apply elem_of_app. right.
    apply get_Some_keys. by rewrite Hsa.
  - rewrite decide_True; [done|]. apply elem_of_app. left.
    apply get_Some_keys. by rewrite Hda.
  - rewrite decide_False; [done|]. rewrite elem_of_app.
    apply get_None_keys in Hsa, Hda. tauto.
Qed.

(** X9.  [_feature_arrays_for_attribute] in full.  It fails in three ways
    only: in training with the [StopIteration] of [_create_fake_features],
    when no turn of the attribute has features; otherwise with a [KeyError]
    when the given fake features have no entry for the attribute; and, the
    fake features found, with the [ValueError] of [np.array] when numpy
    refuses the sparse or the dense matrices collected under some key, or
    the masks.  When it returns, the fake features are the given ones, with
    the entry of the attribute replaced in training; and under a key the
    dict has the array of the sparse matrices collected for the key, if
    there are any, then the array of the dense ones, if there are any; under
    a key with neither it has nothing, except for the mask under [MASK].  A
    feature whose key is [MASK] takes the place of the mask. *)
Theorem feature_arrays_for_attribute_closed_form (h : HashSeed) (np : numpy)
    (attribute : string)
    (absent_features : list (list (option (list Features))))
    (attribute_to_features :
       list (string * list (list (option (list Features)))))
    (training : bool) (fake_features : list (string * list Features))
    (consider_dialogue_dimension : bool) :
  let feats := features_for attribute absent_features attribute_to_features in
  let call :=
    _feature_arrays_for_attribute K h np attribute absent_features
      attribute_to_features training fake_features
      consider_dialogue_dimension in
  match
    (if training then _create_fake_features feats
     else match PyDict.get attribute fake_features with
          | Some fake => Ok fake
          | None => Raise (KeyError attribute)
          end)
  with
  | Raise e => call = Raise e
  | Ok fake =>
      if accepted K np consider_dialogue_dimension feats fake attribute
      then
        exists arrays,
          call = Ok (arrays,
                     if training then PyDict.set attribute fake fake_features
                     else fake_features)
          /\ forall key,
               PyDict.get key arrays
               = match wrap consider_dialogue_dimension
                         (collected_for K attribute true key fake feats)
                       ++ wrap consider_dialogue_dimension
                            (collected_for K attribute false key fake feats)
                 with
                 | [] => if decide (key = MASK K)
                         then Some [mask_array (masks_of feats)] else None
                 | arrays => Some arrays
                 end
      else call = Raise np_error
  end.
Proof.
  cbv zeta.
  set (feats := features_for attribute absent_features attribute_to_features).
  destruct training.
  - destruct (_create_fake_features feats) as [fake|e] eqn:Hfake.
    + destruct (feature_arrays_spec K h np (fun _ => True) attribute
                  absent_features attribute_to_features
                  consider_dialogue_dimension true fake_features fake)
        as (sparse & dense & Htyped & _ & _ & ->); [done | | |].
      { by apply Forall_forall. }
      { apply Forall_forall. intros turns _. apply Forall_forall.
        intros c _ l _. by apply Forall_forall. }
      fold feats. destruct (accepted _ _ _ _ _ _); [|done].
      eexists. split; [reflexivity|].
      by apply assemble_closed_form.
    + unfold _feature_arrays_for_attribute. fold (features_for attribute
        absent_features attribute_to_features). fold feats.
      by rewrite Hfake.
  - destruct (PyDict.get attribute fake_features) as [fake|] eqn:Hfake.
    + destruct (feature_arrays_spec K h np (fun _ => True) attribute
                  absent_features attribute_to_features
                  consider_dialogue_dimension false fake_features fake)
        as (sparse & dense & Htyped & _ & _ & ->); [done | | |].
      { by apply Forall_forall. }
      { apply Forall_forall. intros turns _. apply Forall_forall.
        intros c _ l _. by apply Forall_forall. }
      fold feats. destruct (accepted _ _ _ _ _ _); [|done].
      eexists. split; [reflexivity|].
      by apply assemble_closed_form.
    + unfold _feature_arrays_for_attribute. cbn [mbind result_bind].
      by rewrite Hfake.
Qed.

End ArraysClosedForm.

(** ** The arrays of the returned [Data] *)

Section DataArrays.
Import ModelDataUtils.
Variable K : constants.
Variable h : HashSeed.
Variable np : numpy.

Lemma arrays_for_get (consider_dialogue_dimension : bool)
    (feats : list (list (option (list Features)))) (fake : list Features)
    (a key : string) :
  PyDict.get key (arrays_for K h consider_dialogue_dimension feats fake a)
  = match wrap consider_dialogue_dimension
            (collected_for K a true key fake feats)
          ++ wrap consider_dialogue_dimension
               (collected_for K a false key fake feats)
    with
    | [] => if decide (key = MASK K)
            then Some [mask_array (masks_of feats)] else None
    | arrays => Some arrays
    end.
Proof.
  unfold arrays_for.
  destruct (typed_arrays_get K a feats fake consider_dialogue_dimension)
    as (sparse & dense & Htyped & _).
  rewrite Htyped. by apply assemble_closed_form.
Qed.

(** An entry of the returned [Data] is the dict of its attribute. *)
Lemma convert_entry (raw : raw_features)
    (fake_features : option (list (string * list Features)))
    (consider_dialogue_dimension : bool) (featurizers : option (list string))
    data fake_features' a arrays :
  fst (convert_to_data_format K h np raw fake_features
         consider_dialogue_dimension featurizers)
  = Ok (data, fake_features') ->
  (a, arrays) ∈ data ->
  exists dimensions,
    let training := negb (truthy fake_features) in
    let given := if training then [] else default [] fake_features in
    let feats :=
      features_for a (absent_of dimensions)
        (surfaced_so_far featurizers
           (py_set h (all_attributes (examples_of raw)))
           (with_turns (examples_of raw))) in
    arrays = arrays_for K h consider_dialogue_dimension feats
                        (fake_for training given feats a) a
    /\ a ∈ (if training then py_set h (all_attributes (examples_of raw))
            else PyDict.keys given).
Proof.
  intros Hresult Hin.
  destruct (convert_returned K h np raw fake_features
              consider_dialogue_dimension featurizers data fake_features'
              Hresult) as (Hexamples & -> & _ & _).
  exists (absent_shape (examples_of raw)). cbv zeta in Hin |- *.
  rewrite (sorted_perm _) in Hin.
  apply elem_get_NoDup in Hin; [|apply NoDup_keys_fold_set, NoDup_nil_2].
  rewrite fold_set_get in Hin.
  destruct (decide (a ∈ _)) as [Ha|]; [|done]. by injection Hin as <-.
Qed.

Lemma matrices_of_kind (a : string) (sparse : bool) (key : string)
    (fake : list Features) (turns : list (option (list Features))) :
  Forall (fun m => issparse m = sparse)
         (matrices_of K a sparse key fake turns).
Proof.
  unfold matrices_of. apply Forall_forall. intros m Hm.
  apply list_elem_of_bind in Hm as (f & Hm & _).
  case_bool_decide as Hf; [|by apply elem_of_nil in Hm].
  apply list_elem_of_singleton in Hm as ->. by destruct Hf.
Qed.

Lemma wrap_kind (consider_dialogue_dimension : bool) (a : string)
    (sparse : bool) (key : string) (fake : list Features)
    (feats : list (list (option (list Features)))) :
  Forall (fun fa =>
            number_of_dimensions fa
            = (if consider_dialogue_dimension then 4 else 3)
            /\ holds_kind sparse fa)
         (wrap consider_dialogue_dimension
               (collected_for K a sparse key fake feats)).
Proof.
  assert (Hall : Forall (Forall (fun m => issparse m = sparse))
                        (collected_for K a sparse key fake feats)).
  { unfold collected_for. apply Forall_forall. intros v Hv.
    apply list_elem_of_filter in Hv as [_ Hv].
    apply list_elem_of_fmap in Hv as (turns & -> & _).
    apply matrices_of_kind. }
  destruct (collected_for K a sparse key fake feats) as [|v values] eqn:Hc;
    [done|].
  cbn [wrap]. apply Forall_singleton. unfold feature_array, holds_kind.
  destruct consider_dialogue_dimension; cbn [array number_of_dimensions];
    (split; [done|]); [done|].
  apply Forall_forall. intros m Hm.
  apply list_elem_of_omap in Hm as (v' & Hv' & Hhead).
  rewrite Forall_forall in Hall. specialize (Hall _ Hv').
  rewrite Forall_forall in Hall. apply Hall.
  destruct v'; simplify_eq/=. left.
Qed.

Lemma wrap_length (consider_dialogue_dimension : bool)
    (values : list (list matrix)) :
  length (wrap consider_dialogue_dimension values) <= 1.
Proof. destruct values; cbn; lia. Qed.

(** X13.  The entries of the returned [Data] other than the masks.  Under a key
    other than [MASK] an attribute has one array or two: the array of the sparse
    matrices, if there are any, then the array of the dense ones, if there are
    any.  Every such array has 4 dimensions when the dialogue dimension is kept
    and 3 when it is not. *)
Theorem convert_feature_entries (raw : raw_features)
    (fake_features : option (list (string * list Features)))
    (consider_dialogue_dimension : bool) (featurizers : option (list string))
    data fake_features' :
  fst (convert_to_data_format K h np raw fake_features
         consider_dialogue_dimension featurizers)
  = Ok (data, fake_features') ->
  forall a arrays key entry,
    (a, arrays) ∈ data -> key <> MASK K ->
    PyDict.get key arrays = Some entry ->
    exists sparse_arrays dense_arrays,
      entry = sparse_arrays ++ dense_arrays
      /\ entry <> []
      /\ length sparse_arrays <= 1 /\ length dense_arrays <= 1
      /\ Forall (holds_kind true) sparse_arrays
      /\ Forall (holds_kind false) dense_arrays
      /\ Forall (fun fa =>
                   number_of_dimensions fa
                   = if consider_dialogue_dimension then 4 else 3)
                entry.
Proof.
  intros Hresult a arrays key entry Hin Hkey Hget.
  destruct (convert_entry raw fake_features consider_dialogue_dimension
              featurizers data fake_features' a arrays Hresult Hin)
    as (dimensions & Harrays & _).
  cbv zeta in Harrays. rewrite Harrays, arrays_for_get in Hget.
  match type of Hget with
  | context [wrap _ (collected_for K a true key ?fake ?feats)] =>
      pose proof (wrap_kind consider_dialogue_dimension a true key fake feats)
        as Hs;
      pose proof (wrap_kind consider_dialogue_dimension a false key fake feats)
        as Hd;
      exists (wrap consider_dialogue_dimension
                   (collected_for K a true key fake feats)),
             (wrap consider_dialogue_dimension
                   (collected_for K a false key fake feats))
  end.
  destruct (wrap _ _ ++ wrap _ _) as [|fa l] eqn:Hentry.
  { by rewrite decide_False in Hget. }
  injection Hget as <-. rewrite <- Hentry.
  split_and!; [done | by rewrite Hentry | apply wrap_length
               | apply wrap_length | | |].
  - eapply Forall_impl; [exact Hs|]. by intros ? [_ ?].
  - eapply Forall_impl; [exact Hd|]. by intros ? [_ ?].
  - apply Forall_app. split; (eapply Forall_impl; [eassumption|]);
      by intros ? [? _].
Qed.

End DataArrays.

(** ** The batch dimension of the returned [Data] *)

Section BatchAlignment.
Import ModelDataUtils.
Variable K : constants.
Variable h : HashSeed.
Variable np : numpy.

Lemma elem_signature (a : string) (fs : list Features) (x : bool * string) :
  x ∈ signature K a fs
  <-> exists f, f ∈ fs /\ is_sparse f = fst x /\ feature_key K a f = snd x.
Proof.
  unfold signature. rewrite list_elem_of_fmap. destruct x as [sparse key].
  split; intros (f & Hf & Hx); exists f; cbn in *.
  - by simplify_eq.
  - destruct Hx as [<- <-]. done.
Qed.

Lemma elem_matrices_of (a : string) (sparse : bool) (key : string)
    (fake : list Features) (turns : list (option (list Features)))
    (m : matrix) :
  m ∈ matrices_of K a sparse key fake turns
  <-> exists c f, c ∈ turns /\ f ∈ default fake c
                  /\ is_sparse f = sparse /\ feature_key K a f = key
                  /\ m = features f.
Proof.
  unfold matrices_of. rewrite list_elem_of_bind. split.
  - intros (f & Hm & Hf). apply list_elem_of_bind in Hf as (c & Hf & Hc).
    case_bool_decide as Hkind; [|by apply elem_of_nil in Hm].
    apply list_elem_of_singleton in Hm. destruct Hkind.
    by exists c, f.
  - intros (c & f & Hc & Hf & Hsparse & Hkey & ->). exists f. split.
    + rewrite bool_decide_eq_true_2 by done. left.
    + apply list_elem_of_bind. by exists c.
Qed.

Lemma is_sparse_fake_of (f : Features) : is_sparse (fake_of f) = is_sparse f.
Proof.
  unfold fake_of, is_dense. by destruct (is_sparse f) eqn:Hkind; cbn.
Qed.

Lemma signature_fake_of (a : string) (fs : list Features) :
  signature K a (fake_of <$> fs) = signature K a fs.
Proof.
  unfold signature. rewrite <- list_fmap_compose. apply list_fmap_ext.
  intros _ f _. cbn. by rewrite is_sparse_fake_of, feature_key_fake_of.
Qed.

Lemma filter_all {A} (P : A -> Prop) `{forall x, Decision (P x)}
    (l : list A) :
  Forall P l -> filter P l = l.
Proof.
  induction 1 as [|x l Hx Hl IH]; [done|].
  by rewrite filter_cons, decide_True, IH.
Qed.

Lemma filter_none {A} (P : A -> Prop) `{forall x, Decision (P x)}
    (l : list A) :
  Forall (fun x => ~ P x) l -> filter P l = [].
Proof.
  induction 1 as [|x l Hx Hl IH]; [done|].
  by rewrite filter_cons, decide_False, IH.
Qed.

Lemma length_omap_head {A} (values : list (list A)) :
  Forall (fun v => v <> []) values ->
  length (omap head values) = length values.
Proof.
  induction 1 as [|v values Hv Hvalues IH]; [done|].
  destruct v; [done|]. cbn. by rewrite IH.
Qed.

Section OneKey.
Variables (a : string) (fake : list Features)
          (feats : list (list (option (list Features))))
          (sig : list (bool * string)).

(** Every example has a turn, and every turn, filled with the fake features
    where it has none, has features of the kinds and keys [sig]. *)
Hypothesis Hfeats :
  Forall (fun turns =>
            turns <> []
            /\ Forall (fun c => forall x,
                         x ∈ signature K a (default fake c) <-> x ∈ sig)
                      turns)
         feats.

Lemma matrices_of_non_empty (sparse : bool) (key : string) turns :
  turns ∈ feats ->
  matrices_of K a sparse key fake turns <> [] <-> (sparse, key) ∈ sig.
Proof.
  intros Hturns. rewrite Forall_forall in Hfeats.
  destruct (Hfeats _ Hturns) as [Hne Hsig]. rewrite Forall_forall in Hsig.
  split.
  - intros Hm.
    destruct (matrices_of K a sparse key fake turns) as [|m ms] eqn:Hms;
      [done|].
    assert (Hin : m ∈ matrices_of K a sparse key fake turns)
      by (rewrite Hms; left).
    apply elem_matrices_of in Hin as (c & f & Hc & Hf & Hsparse & Hkey & _).
    apply (Hsig c Hc). apply elem_signature. by exists f.
  - intros Hin. destruct turns as [|c turns']; [done|].
    apply (Hsig c) in Hin; [|left].
    apply elem_signature in Hin as (f & Hf & Hsparse & Hkey).
    intros Hnil.
    assert (Hm : features f ∈ matrices_of K a sparse key fake (c :: turns')).
    { apply elem_matrices_of. exists c, f. split_and!; try done. left. }
    rewrite Hnil in Hm. by apply elem_of_nil in Hm.
Qed.

Lemma collected_aligned (sparse : bool) (key : string) :
  collected_for K a sparse key fake feats = []
  \/ collected_for K a sparse key fake feats
     = matrices_of K a sparse key fake <$> feats.
Proof.
  unfold collected_for.
  destruct (decide ((sparse, key) ∈ sig)) as [Hin|Hnin].
  - right. apply filter_all. apply Forall_fmap, Forall_forall.
    intros turns Hturns. cbn. by apply matrices_of_non_empty.
  - left. apply filter_none. apply Forall_fmap, Forall_forall.
    intros turns Hturns. cbn. by rewrite matrices_of_non_empty.
Qed.

Lemma wrap_aligned (consider_dialogue_dimension : bool) (sparse : bool)
    (key : string) :
  Forall (fun fa => batch_size fa = length feats)
         (wrap consider_dialogue_dimension
               (collected_for K a sparse key fake feats)).
Proof.
  assert (Hne : Forall (fun v => v <> [])
                       (collected_for K a sparse key fake feats)).
  { unfold collected_for. apply Forall_forall. intros v Hv.
    by apply list_elem_of_filter in Hv as [? _]. }
  destruct (collected_aligned sparse key) as [Hc|Hc].
  { by rewrite Hc. }
  destruct (collected_for K a sparse key fake feats) as [|v values] eqn:Hcf;
    [done|].
  cbn [wrap]. apply Forall_singleton. unfold batch_size, feature_array.
  destruct consider_dialogue_dimension; cbn [array].
  - by rewrite Hc, length_fmap.
  - by rewrite (length_omap_head _ Hne), Hc, length_fmap.
Qed.

Lemma arrays_aligned (consider_dialogue_dimension : bool) (key : string)
    entry :
  PyDict.get key (arrays_for K h consider_dialogue_dimension feats fake a)
  = Some entry ->
  Forall (fun fa => batch_size fa = length feats) entry.
Proof.
  rewrite arrays_for_get.
  pose proof (wrap_aligned consider_dialogue_dimension true key) as Hs.
  pose proof (wrap_aligned consider_dialogue_dimension false key) as Hd.
  destruct (wrap _ _ ++ wrap _ _) as [|fa l] eqn:Hentry.
  - case_decide; [|done]. intros [= <-]. apply Forall_singleton.
    unfold batch_size, mask_array, masks_of. cbn. by rewrite length_fmap.
  - intros [= <-]. rewrite <- Hentry. by apply Forall_app.
Qed.

End OneKey.

(** X14.  In training on input whose feature lists are uniform in the kinds and
    keys of their features, every array of the returned [Data], a mask or not,
    has one entry per example with turns: the arrays are aligned along the batch
    dimension. *)
Theorem convert_batch_aligned (raw : raw_features)
    (fake_features : option (list (string * list Features)))
    (consider_dialogue_dimension : bool) (featurizers : option (list string))
    data fake_features' :
  truthy fake_features = false ->
  uniform K featurizers (examples_of raw) ->
  fst (convert_to_data_format K h np raw fake_features
         consider_dialogue_dimension featurizers)
  = Ok (data, fake_features') ->
  forall a arrays key entry,
    (a, arrays) ∈ data ->
    PyDict.get key arrays = Some entry ->
    Forall (fun fa => batch_size fa = length (with_turns (examples_of raw)))
           entry.
Proof.
  intros Htraining Huniform Hresult a arrays key entry Hin Hget.
  destruct (convert_entry K h np raw fake_features consider_dialogue_dimension
              featurizers data fake_features' a arrays Hresult Hin)
    as (dimensions & Harrays & Ha).
  cbv zeta in Harrays, Ha. rewrite Htraining in Harrays, Ha.
  cbn [negb] in Harrays, Ha. apply py_set_elem in Ha.
  rewrite !features_for_present in Harrays by done.
  set (examples := examples_of raw) in *.
  destruct (rows_real examples featurizers a Ha)
    as (_ & first & others & Hreal).
  unfold fake_for in Harrays.
  rewrite (create_fake_features_first _ _ _ Hreal) in Harrays.
  subst arrays.
  replace (length (with_turns examples))
    with (length (rows featurizers a examples))
    by (unfold rows; apply length_fmap).
  apply (arrays_aligned a (fake_of <$> first) (rows featurizers a examples)
           (signature K a first)) with consider_dialogue_dimension key;
    [|done].
  unfold uniform in Huniform. rewrite Forall_forall in Huniform.
  specialize (Huniform a Ha). cbv zeta in Huniform. rewrite Hreal in Huniform.
  rewrite Forall_forall in Huniform.
  assert (Hfirst : forall fs, fs ∈ first :: others ->
            forall x, x ∈ signature K a fs <-> x ∈ signature K a first).
  { intros fs Hfs x.
    pose proof (Huniform fs Hfs) as Hto. rewrite Forall_forall in Hto.
    pose proof (Huniform first ltac:(left)) as Hfrom.
    rewrite Forall_forall in Hfrom.
    split; [apply (Hto first); left | by apply (Hfrom fs)]. }
  apply Forall_forall. intros turns Hturns. split.
  - unfold rows in Hturns. apply list_elem_of_fmap in Hturns
      as (example & -> & Hexample).
    apply list_elem_of_filter in Hexample as [Hhas _].
    by destruct example.
  - apply Forall_forall. intros [fs|] Hc x; cbn [default].
    + apply Hfirst. rewrite <- Hreal. apply elem_real_lists. by exists turns.
    + by rewrite signature_fake_of.
Qed.

End BatchAlignment.

(** ** Surfacing, filtering and fake features on their own *)

Section SurfaceShape.
Import ModelDataUtils.
Variable h : HashSeed.

Lemma no_turns_no_attributes
    (features : list (list (list (string * list Features)))) :
  with_turns features = [] -> all_attributes features = [].
Proof.
  unfold with_turns, all_attributes.
  induction features as [|example examples IH]; [done|].
  rewrite filter_cons. destruct example as [|t turns]; cbn [has_turns].
  - case_decide; [done|]. intros Hrest. rewrite bind_cons.
    by rewrite (IH Hrest).
  - by case_decide.
Qed.

(** X5.  [_surface_attributes] always returns.  Its keys are the attributes that
    occur in some turn of the input, each once.  Every attribute has one row per
    example that has turns (examples without turns are dropped), and in a row
    one cell per turn:  [None] where the turn lacks the attribute, and otherwise
    the features of the turn, restricted, when there are featurizers, to those
    whose origin is one of them or [TAG_ID_ORIGIN]. *)
Theorem surface_attributes_shape
    (features : list (list (list (string * list Features))))
    (featurizers : option (list string)) :
  exists out,
    fst (_surface_attributes h features featurizers) = Ok out
    /\ NoDup (PyDict.keys out)
    /\ (forall a, a ∈ PyDict.keys out <-> a ∈ all_attributes features)
    /\ forall a rows,
         PyDict.get a out = Some rows ->
         Forall2
           (Forall2
              (fun (c : option (list Features))
                   (t : list (string * list Features)) =>
                 match PyDict.get a t with
                 | None => c = None
                 | Some fs =>
                     c = Some
                           (if truthy featurizers
                            then filter
                                   (fun f =>
                                      origin f
                                      ∈ default [] featurizers
                                        ++ [TAG_ID_ORIGIN])
                                   fs
                            else fs)
                 end))
           rows (with_turns features).
Proof.
  rewrite surface_closed_form. cbn [fst]. eexists. split; [reflexivity|].
  rewrite keys_surfaced. split_and!.
  - destruct (has_turns _); [apply py_set_NoDup | apply NoDup_nil_2].
  - intros a. destruct (has_turns (with_turns features)) eqn:Hturns.
    + apply py_set_elem.
    + rewrite no_turns_no_attributes; [done|].
      by destruct (with_turns features).
  - intros a rows Hget. rewrite get_surfaced in Hget.
    destruct (_ && _); [|done]. injection Hget as <-.
    apply Forall2_fmap_l, Forall_Forall2_diag, Forall_forall.
    intros example _.
    apply Forall2_fmap_l, Forall_Forall2_diag, Forall_forall.
    intros t _. unfold cell.
    destruct featurizers as [[|? ?]|]; cbn; by case_match.
Qed.

End SurfaceShape.

Section FilterStable.
Import ModelDataUtils.

Lemma filter_filter_weaker {A} (P Q : A -> Prop)
    `{forall x, Decision (P x)} `{forall x, Decision (Q x)} (l : list A) :
  (forall x, P x -> Q x) -> filter Q (filter P l) = filter P l.
Proof.
  intros HPQ. induction l as [|x l IH]; [done|].
  rewrite filter_cons. destruct (decide (P x)) as [HP|HP]; [|done].
  rewrite filter_cons, decide_True by auto. by rewrite IH.
Qed.

(** X6.  Filtering is stable: what [_filter_features] keeps, it keeps again when
    it is applied to its own result or once more to the same features, with the
    featurizers as the first call left them.  Without featurizers the features
    are returned as they are and nothing is appended. *)
Theorem filter_features_stable (fs : list Features)
    (featurizers : list string) :
  let '(r, featurizers') := _filter_features (Some fs) featurizers in
  exists kept,
    r = Ok (Some kept)
    /\ fst (_filter_features (Some kept) featurizers') = Ok (Some kept)
    /\ fst (_filter_features (Some fs) featurizers') = Ok (Some kept)
    /\ (forall f, f ∈ fs -> origin f = TAG_ID_ORIGIN ->
                  featurizers <> [] -> f ∈ kept)
    /\ (featurizers = [] -> kept = fs /\ featurizers' = []).
Proof.
  destruct featurizers as [|x l].
  { cbn. exists fs. by split_and!. }
  cbn -[filter]. eexists. split; [reflexivity|]. split_and!.
  - f_equal. f_equal. apply filter_filter_weaker.
    intros f Hf. rewrite app_comm_cons. apply elem_of_app. by left.
  - f_equal. f_equal. apply list_filter_iff. intros f.
    rewrite !app_comm_cons, !elem_of_app, list_elem_of_singleton. tauto.
  - intros f Hf Horigin _. apply list_elem_of_filter. split; [|done].
    rewrite app_comm_cons. apply elem_of_app. right.
    by apply list_elem_of_singleton.
  - done.
Qed.

(** X7.  [_create_fake_features] fails, with [StopIteration], exactly when no
    turn of any example has features.  Otherwise it returns one template per
    feature of the first feature list in the order of the examples and turns: no
    rows, and the width, the kind, the type, the attribute and the origin of the
    feature; a dense template keeps the dtype, a sparse one is [float64]. *)
Theorem create_fake_features_total
    (all_features : list (list (option (list Features)))) :
  match _create_fake_features all_features with
  | Raise e =>
      e = StopIteration
      /\ Forall (Forall (fun c => c = None)) all_features
  | Ok fake_features =>
      exists example_features others,
        real_lists all_features = example_features :: others
        /\ Forall2
             (fun source fake =>
                matrix_shape (features fake)
                = (0, snd (matrix_shape (features source)))
                /\ is_sparse fake = is_sparse source
                /\ type fake = type source
                /\ attribute fake = attribute source
                /\ origin fake = origin source
                /\ matrix_dtype (features fake)
                   = if is_sparse source then float64
                     else matrix_dtype (features source))
             example_features fake_features
  end.
Proof.
  destruct (real_lists all_features) as [|first others] eqn:Hreal.
  - unfold _create_fake_features. unfold real_lists in Hreal. rewrite Hreal.
    split; [done|]. apply Forall_forall. intros turns Hturns.
    apply Forall_forall. intros [l|] Hc; [|done]. exfalso.
    assert (Hin : l ∈ real_lists all_features).
    { apply elem_real_lists. by exists turns. }
    unfold real_lists in Hin. rewrite Hreal in Hin. by apply elem_of_nil in Hin.
  - destruct (create_fake_features_spec all_features first others Hreal)
      as (fake & -> & Hfake).
    by exists first, others.
Qed.

End FilterStable.

(** ** Featurizing training examples *)

Section MapResult.

Lemma map_result_Ok {A B} (f : A -> result B) (l : list A) (ys : list B) :
  map_result f l = Ok ys -> Forall2 (fun x y => f x = Ok y) l ys.
Proof.
  revert ys. induction l as [|x l IH]; intros ys; cbn.
  - intros [= <-]. constructor.
  - destruct (f x) as [y|e] eqn:Hx; [|done]. cbn.
    destruct (map_result f l) as [ys'|e]; [|done]. cbn.
    intros [= <-]. constructor; [done|]. by apply IH.
Qed.

Lemma map_result_Raise {A B} (f : A -> result B) (l : list A) (e : exn) :
  map_result f l = Raise e -> exists x, x ∈ l /\ f x = Raise e.
Proof.
  induction l as [|x l IH]; cbn; [done|].
  destruct (f x) as [y|e'] eqn:Hx; cbn.
  - destruct (map_result f l) as [ys'|e'']; [done|]. cbn.
    intros [= <-]. destruct IH as (x' & Hin & Hx'); [done|].
    exists x'. split; [by right | done].
  - intros [= <-]. exists x. split; [left | done].
Qed.

End MapResult.

Section TagIds.
Import ModelDataUtils.
Context {Token Entities : Type}.
Variable bilou_tags_to_ids :
  Message Token Entities -> list (string * Z) -> string -> result (list Z).
Variable determine_token_labels : Token -> Entities -> string -> string.
Variable K : constants.


End TagIds.

Section FeaturizeExamples.
Import ModelDataUtils.
Context {Token Entities : Type}.
Variable bilou_tags_to_ids :
  Message Token Entities -> list (string * Z) -> string -> result (list Z).
Variable determine_token_labels : Token -> Entities -> string -> string.
Variable K : constants.

Lemma Forall2_and_l {A B} (P : A -> B -> Prop) (Q : A -> Prop)
    (l : list A) (k : list B) :
  Forall2 (fun x y => P x y /\ Q x) l k -> Forall2 P l k /\ Forall Q l.
Proof.
  induction 1 as [|x y l k [HP HQ] _ [IHP IHQ]]; [done|].
  split; by constructor.
Qed.

Section OneExample.
Variables (example : Message Token Entities)
          (entity_tag_specs : option (list EntityTagSpec))
          (featurizers : option (list string)) (bilou_tagging : bool)
          (type : option string).

#[local] Abbreviation step :=
  (featurize_attribute bilou_tags_to_ids determine_token_labels K example
     entity_tag_specs featurizers bilou_tagging type) (only parsing).

#[local] Abbreviation value a :=
  (if truthy_str type
   then filter (fun f => Some (type_of f) = type)
               (get_all_features example a featurizers)
   else get_all_features example a featurizers) (only parsing).

#[local] Abbreviation featurized seen d :=
  (forall a,
     PyDict.get a d
     = (if decide (a ∈ seen /\ a ∈ data example) then Some (value a)
        else None))
  (only parsing).

Lemma featurize_attribute_step (seen : list string)
    (d : list (string * list Features)) (a : string) :
  a <> ENTITIES K -> featurized seen d ->
  match step d a with
  | Ok d' => featurized (seen ++ [a]) d'
             /\ (truthy_str type = true -> a ∈ data example)
  | Raise e => truthy_str type = true /\ (a ∉ data example) /\ e = KeyError a
  end.
Proof.
  intros Hentities Hd. unfold featurize_attribute.
  rewrite decide_False by done.
  assert (Hset : forall v : list Features,
    v = value a -> a ∈ data example ->
    featurized (seen ++ [a]) (PyDict.set a v d)).
  { intros v -> Hdata a'. destruct (decide (a' = a)) as [->|Hne].
    - rewrite get_set_eq, decide_True; [done|].
      split; [|done]. apply elem_of_app. right. left.
    - rewrite get_set_ne, Hd by done.
      apply decide_ext. rewrite elem_of_app, list_elem_of_singleton. tauto. }
  destruct (decide (a ∈ data example)) as [Hdata|Hdata].
  - rewrite bool_decide_eq_true_2 by done. cbn [mbind result_bind].
    rewrite get_set_eq.
    destruct (truthy_str type) eqn:Htype.
    + split; [|done]. rewrite set_set. by apply Hset.
    + split; [|done]. by apply Hset.
  - rewrite bool_decide_eq_false_2 by done. cbn [mbind result_bind].
    destruct (truthy_str type) eqn:Htype.
    + rewrite Hd, decide_False by tauto. done.
    + split; [|done]. intros a'. rewrite Hd. apply decide_ext.
      rewrite elem_of_app, list_elem_of_singleton. split; [tauto|].
      intros [[?| ->] ?]; [tauto | done].
Qed.

Lemma featurize_attributes_fold (todo : list string) :
  forall (seen : list string) (d : list (string * list Features)),
  ENTITIES K ∉ todo -> featurized seen d ->
  match fold_result step d todo with
  | Ok d' => featurized (seen ++ todo) d'
             /\ (truthy_str type = true -> Forall (fun a => a ∈ data example)
                                                  todo)
  | Raise e =>
      truthy_str type = true
      /\ exists a, a ∈ todo /\ (a ∉ data example) /\ e = KeyError a
  end.
Proof.
  induction todo as [|a todo IH]; intros seen d Hentities Hd.
  - cbn. rewrite app_nil_r. by split.
  - apply not_elem_of_cons in Hentities as [Ha Hentities].
    cbn [fold_result].
    pose proof (featurize_attribute_step seen d a (not_eq_sym Ha) Hd) as Hstep.
    destruct (step d a) as [d1|e]; cbn [mbind result_bind].
    + destruct Hstep as [Hd1 Hin].
      specialize (IH (seen ++ [a]) d1 Hentities Hd1).
      destruct (fold_result _ d1 todo) as [d'|e].
      * destruct IH as [Hd' Hall]. rewrite <- app_assoc in Hd'. split; [done|].
        intros Htype. constructor; auto.
      * destruct IH as (Htype & a' & Hin' & Hdata & ->). split; [done|].
        exists a'. split; [by right | done].
    + destruct Hstep as (Htype & Hdata & ->). split; [done|].
      exists a. split; [left | done].
Qed.

Lemma featurize_example (attributes : list string) :
  ENTITIES K ∉ attributes ->
  match fold_result step [] attributes with
  | Ok d' => featurized attributes d'
             /\ (truthy_str type = true -> Forall (fun a => a ∈ data example)
                                                  attributes)
  | Raise e =>
      truthy_str type = true
      /\ exists a, a ∈ attributes /\ (a ∉ data example) /\ e = KeyError a
  end.
Proof.
  intros Hentities.
  apply (featurize_attributes_fold attributes [] [] Hentities).
  intros a. rewrite decide_False; [done|].
  intros [Hin _]. by apply elem_of_nil in Hin.
Qed.

End OneExample.

(** X2.  [featurize_training_examples] for attributes other than [ENTITIES] and
    a valid [type].  Without a type filter it always returns: every example gets
    the features of the listed attributes that are in its data, and a listed
    attribute that the example lacks is left out.  With a type filter it returns
    only if every example has every listed attribute, with the features of that
    type; an example that lacks a listed attribute makes the call fail with a
    [KeyError] for that attribute. *)
Theorem featurize_training_examples_spec
    (training_examples : list (Message Token Entities))
    (attributes : list string)
    (entity_tag_specs : option (list EntityTagSpec))
    (featurizers : option (list string)) (bilou_tagging : bool)
    (type : option string) :
  bad_type K type = false ->
  ENTITIES K ∉ attributes ->
  match featurize_training_examples bilou_tags_to_ids determine_token_labels
          K training_examples attributes entity_tag_specs featurizers
          bilou_tagging type with
  | Ok (output, _) =>
      Forall2
        (fun example out =>
           forall a,
             PyDict.get a out
             = if decide (a ∈ attributes /\ a ∈ data example)
               then Some
                      (if truthy_str type
                       then filter (fun f => Some (type_of f) = type)
                                   (get_all_features example a featurizers)
                       else get_all_features example a featurizers)
               else None)
        training_examples output
      /\ (truthy_str type = true ->
          Forall (fun example =>
                    Forall (fun a => a ∈ data example) attributes)
                 training_examples)
  | Raise e =>
      truthy_str type = true
      /\ exists example a,
           example ∈ training_examples /\ a ∈ attributes
           /\ (a ∉ data example) /\ e = KeyError a
  end.
Proof.
  intros Htype Hentities. unfold featurize_training_examples. rewrite Htype.
  destruct (map_result _ training_examples) as [output|e] eqn:Hmap;
    cbn [mbind result_bind].
  - apply map_result_Ok in Hmap.
    assert (Hsizes : exists sizes,
      match output, training_examples with
      | featurized_example :: _, training_example :: _ =>
          _collect_sparse_feature_sizes K featurized_example training_example
                                        featurizers type
      | _, _ => Ok []
      end = Ok sizes).
    { destruct output, training_examples; try by eexists.
      unfold _collect_sparse_feature_sizes. rewrite Htype. by eexists. }
    destruct Hsizes as [sizes ->]. cbn [mbind result_bind].
    assert (Hboth : Forall2
      (fun example out =>
         (forall a,
            PyDict.get a out
            = if decide (a ∈ attributes /\ a ∈ data example)
              then Some
                     (if truthy_str type
                      then filter (fun f => Some (type_of f) = type)
                                  (get_all_features example a featurizers)
                      else get_all_features example a featurizers)
              else None)
         /\ (truthy_str type = true ->
             Forall (fun a => a ∈ data example) attributes))
      training_examples output).
    { eapply Forall2_impl; [exact Hmap|]. intros example out Hout. cbn in Hout.
      pose proof (featurize_example example entity_tag_specs featurizers
                    bilou_tagging type attributes Hentities) as Hfold.
      by rewrite Hout in Hfold. }
    apply Forall2_and_l in Hboth as [Hget Hall]. split; [done|].
    intros Htruthy. eapply Forall_impl; [exact Hall|]. auto.
  - apply map_result_Raise in Hmap as (example & Hexample & Hraise).
    cbn in Hraise.
    pose proof (featurize_example example entity_tag_specs featurizers
                  bilou_tagging type attributes Hentities) as Hfold.
    rewrite Hraise in Hfold. destruct Hfold as (Htruthy & a & Ha & Hdata & ->).
    split; [done|]. by exists example, a.
Qed.

End FeaturizeExamples.

(** ** Features of all messages *)

Section AllMessagesProperties.
Import ModelDataUtils.
Context {Token Entities : Type}.
Variable K : constants.

Lemma put_if_present_keys (key : bool * string) (f : option Features)
    (out : list (bool * string * matrix)) (P : bool * string -> Prop) :
  P key -> NoDup (PyDict.keys out) /\ Forall P (PyDict.keys out) ->
  NoDup (PyDict.keys (put_if_present key f out))
  /\ Forall P (PyDict.keys (put_if_present key f out)).
Proof.
  intros Hkey [Hnd Hall]. destruct f as [f|]; [|done]. cbn. split.
  - by apply NoDup_keys_set.
  - apply Forall_forall. intros k Hk. apply elem_keys_set in Hk as [->|Hk];
      [done|]. rewrite Forall_forall in Hall. by apply Hall.
Qed.

Lemma extract_message_keys (message : Message Token Entities)
    (attribute : string) (featurizers : option (list string)) out :
  extract_attribute_features_from_message K message attribute featurizers
  = Ok out ->
  NoDup (PyDict.keys out)
  /\ Forall (fun kv => snd (fst kv) ∈ [SEQUENCE K; SENTENCE K]) out.
Proof.
  unfold extract_attribute_features_from_message.
  destruct (get_sparse_features _ _ _) as [sp_seq sp_sen].
  destruct (get_dense_features _ _ _) as [d_seq d_sen].
  destruct (rows_differ d_seq sp_seq); [done|].
  destruct (rows_differ d_sen sp_sen); [done|].
  intros [= <-].
  assert (Hkeys :
    NoDup (PyDict.keys
             (put_if_present (false, SEQUENCE K) d_seq
                (put_if_present (false, SENTENCE K) d_sen
                   (put_if_present (true, SEQUENCE K) sp_seq
                      (put_if_present (true, SENTENCE K) sp_sen [])))))
    /\ Forall (fun k : bool * string => snd k ∈ [SEQUENCE K; SENTENCE K])
         (PyDict.keys
            (put_if_present (false, SEQUENCE K) d_seq
               (put_if_present (false, SENTENCE K) d_sen
                  (put_if_present (true, SEQUENCE K) sp_seq
                     (put_if_present (true, SENTENCE K) sp_sen [])))))).
  { repeat (apply put_if_present_keys;
            [cbn; solve [repeat first [left | right]]|]).
    split; [apply NoDup_nil_2 | apply Forall_nil_2]. }
  destruct Hkeys as [Hnd Hall]. split; [done|].
  unfold PyDict.keys in Hall. by apply Forall_fmap in Hall.
Qed.

Section Collect.
Variable type : option string.

#[local] Abbreviation allowed ty :=
  (bool_decide (type = None) || bool_decide (type = Some ty)) (only parsing).

Lemma fold_result_cons {A B} (f : B -> A -> result B) (b : B) (x : A)
    (l : list A) :
  fold_result f b (x :: l) = f b x ≫= fun b' => fold_result f b' l.
Proof. done. Qed.

Lemma collect_feature_step (collected : list (bool * string * list matrix))
    (sp : bool) (ty : string) (m : matrix) :
  ty ∈ [SEQUENCE K; SENTENCE K] ->
  collect_feature K type collected (sp, ty, m)
  = Ok (if allowed ty then PyDict.append (sp, ty) m collected else collected).
Proof.
  intros Hty. unfold collect_feature.
  rewrite bool_decide_eq_true_2 by done. cbn [negb].
  by destruct (_ || _).
Qed.

Lemma collect_items (items : list (bool * string * matrix)) :
  forall collected : list (bool * string * list matrix),
  Forall (fun kv => snd (fst kv) ∈ [SEQUENCE K; SENTENCE K]) items ->
  exists collected',
    fold_result (collect_feature K type) collected items = Ok collected'
    /\ forall key,
         PyDict.get key collected'
         = extend (PyDict.get key collected)
                  (if allowed (snd key) then picked key items else []).
Proof.
  induction items as [|[[sp ty] m] items IH]; intros collected Hitems.
  - exists collected. split; [done|]. intros key. by destruct (_ || _).
  - apply Forall_cons in Hitems as [Hty Hitems]. cbn [fst snd] in Hty.
    rewrite fold_result_cons, collect_feature_step by done.
    cbn [mbind result_bind].
    destruct (IH (if allowed ty then PyDict.append (sp, ty) m collected
                  else collected) Hitems) as (collected' & -> & Hget).
    exists collected'. split; [done|]. intros key. rewrite Hget.
    unfold picked. rewrite bind_cons. cbn [fst snd].
    destruct (allowed ty) eqn:Hallowed.
    + rewrite get_append, extend_app. f_equal.
      destruct (decide (key = (sp, ty))) as [->|Hne]; cbn [snd].
      * by rewrite Hallowed.
      * by destruct (_ || _).
    + f_equal. destruct (decide (key = (sp, ty))) as [->|Hne]; cbn [snd].
      * by rewrite Hallowed.
      * by destruct (_ || _).
Qed.

Variables (attribute : string) (featurizers : option (list string)).

#[local] Abbreviation from_message key :=
  (fun msg : Message Token Entities =>
     match extract_attribute_features_from_message K msg attribute
                                                   featurizers with
     | Ok out => PyDict.get key out
     | Raise _ => None
     end) (only parsing).

Lemma collect_messages (messages : list (Message Token Entities)) :
  forall collected : list (bool * string * list matrix),
  match fold_result (collect_message K attribute type featurizers) collected
                    messages with
  | Ok collected' =>
      Forall (fun msg =>
                ~ raises (extract_attribute_features_from_message
                            K msg attribute featurizers))
             messages
      /\ forall key,
           PyDict.get key collected'
           = extend (PyDict.get key collected)
                    (if allowed (snd key)
                     then omap (from_message key) messages else [])
  | Raise e =>
      exists msg,
        msg ∈ messages
        /\ extract_attribute_features_from_message K msg attribute featurizers
           = Raise e
  end.
Proof.
  induction messages as [|msg messages IH]; intros collected.
  - cbn. split; [done|]. intros key. by destruct (_ || _).
  - rewrite fold_result_cons.
    change (collect_message K attribute type featurizers collected msg)
      with (extract_attribute_features_from_message K msg attribute
              featurizers
            ≫= fold_result (collect_feature K type) collected).
    destruct (extract_attribute_features_from_message K msg attribute
                featurizers) as [out|e] eqn:Hout; cbn [mbind result_bind].
    2: { exists msg. split; [left | done]. }
    destruct (extract_message_keys msg attribute featurizers out Hout)
      as [Hnd Hkeys].
    destruct (collect_items out collected Hkeys) as (c1 & -> & Hc1).
    cbn [mbind result_bind]. specialize (IH c1).
    destruct (fold_result _ c1 messages) as [collected'|e].
    + destruct IH as [Hok Hget]. split.
      { constructor; [rewrite Hout; cbn; tauto | done]. }
      intros key. rewrite Hget, Hc1, extend_app. f_equal.
      rewrite (picked_get key out Hnd).
      destruct (_ || _); [|done]. cbn [omap list_omap]. rewrite Hout.
      by destruct (PyDict.get key out).
    + destruct IH as (msg' & Hin & Hraise). exists msg'.
      split; [by right | done].
Qed.

End Collect.

Lemma wrap_collected_spec (np : numpy)
    (collected : list (bool * string * list matrix)) (ty : string)
    (values : bool -> list matrix) :
  (forall is_sparse,
     PyDict.get (is_sparse, ty) collected = non_empty (values is_sparse)) ->
  wrap_collected np collected ty
  = if forallb (fun is_sparse =>
                  match values is_sparse with
                  | [] => true
                  | m :: l => np (ArrFlat (m :: l))
                  end)
               [true; false]
    then Ok (omap (fun is_sparse =>
                     match values is_sparse with
                     | [] => None
                     | m :: l => Some {| array := ArrFlat (m :: l);
                                         number_of_dimensions := 3 |}
                     end)
                  [true; false])
    else Raise np_error.
Proof.
  intros Hget. unfold wrap_collected, np_array_of.
  cbn [fold_result forallb omap list_omap]. rewrite !Hget.
  destruct (values true) as [|m1 l1]; cbn [non_empty mbind result_bind];
    destruct (values false) as [|m2 l2]; cbn [non_empty mbind result_bind];
    try done.
  - by destruct (np _).
  - by destruct (np _).
  - destruct (np (ArrFlat (m1 :: l1))); cbn [andb mbind result_bind];
      [|done].
    by destruct (np _).
Qed.

(** X1.  [extract_attribute_features_from_all_messages] checks [type] before it
    looks at a message.  With a valid [type] it fails with the error of a
    message whose sparse and dense matrices disagree, or else with the
    [ValueError] of [np.array] when numpy refuses the matrices of one kind and
    type; the error for an unexpected feature type cannot occur.  When it
    returns, the sequence features and the sentence features each hold at
    most two arrays of 3 dimensions, the sparse one first: per kind, the
    matrices of the messages that have one, in the order of the messages; a
    message without such a matrix is left out, and a kind that no message
    has gives no array.  With [type] set, the other type gives no array. *)
Theorem extract_attribute_features_from_all_messages_spec (np : numpy)
    (messages : list (Message Token Entities)) (attribute : string)
    (type : option string) (featurizers : option (list string)) :
  let extract msg :=
    extract_attribute_features_from_message K msg attribute featurizers in
  let valid :=
    match type with
    | Some t => bool_decide (t ∈ [SENTENCE K; SEQUENCE K])
    | None => true
    end in
  let matrices (is_sparse : bool) (ty : string) :=
    if bool_decide (type = None) || bool_decide (type = Some ty)
    then omap (fun msg => match extract msg with
                          | Ok out => PyDict.get (is_sparse, ty) out
                          | Raise _ => None
                          end) messages
    else [] in
  let stacks ty :=
    forallb (fun is_sparse =>
               match matrices is_sparse ty with
               | [] => true
               | m :: l => np (ArrFlat (m :: l))
               end)
            [true; false] in
  let arrays ty :=
    omap (fun is_sparse =>
            match matrices is_sparse ty with
            | [] => None
            | m :: l => Some {| array := ArrFlat (m :: l);
                                number_of_dimensions := 3 |}
            end)
         [true; false] in
  match extract_attribute_features_from_all_messages K np messages attribute
          type featurizers with
  | Raise e =>
      (valid = false /\ e = ValueError (type_msg K type))
      \/ (valid = true /\ exists msg, msg ∈ messages /\ extract msg = Raise e)
      \/ (valid = true
          /\ Forall (fun msg => ~ raises (extract msg)) messages
          /\ stacks (SEQUENCE K) && stacks (SENTENCE K) = false
          /\ e = np_error)
  | Ok (sequence_features, sentence_features) =>
      valid = true
      /\ Forall (fun msg => ~ raises (extract msg)) messages
      /\ stacks (SEQUENCE K) = true /\ stacks (SENTENCE K) = true
      /\ sequence_features = arrays (SEQUENCE K)
      /\ sentence_features = arrays (SENTENCE K)
  end.
Proof.
  cbv zeta. unfold extract_attribute_features_from_all_messages.
  assert (Hvalid :
    match type with
    | Some t => negb (bool_decide (t ∈ [SENTENCE K; SEQUENCE K]))
    | None => false
    end
    = negb match type with
           | Some t => bool_decide (t ∈ [SENTENCE K; SEQUENCE K])
           | None => true
           end) by by destruct type.
  rewrite Hvalid. clear Hvalid.
  destruct (match type with Some _ => _ | None => true end);
    cbn [negb]; [|by left].
  pose proof (collect_messages type attribute featurizers messages [])
    as Hcollect.
  destruct (fold_result _ [] messages) as [collected|e];
    cbn [mbind result_bind].
  - destruct Hcollect as [Hok Hget].
    rewrite (wrap_collected_spec np collected (SEQUENCE K)
               (fun is_sparse =>
                  if bool_decide (type = None)
                     || bool_decide (type = Some (SEQUENCE K))
                  then omap (fun msg =>
                               match extract_attribute_features_from_message
                                       K msg attribute featurizers with
                               | Ok out =>
                                   PyDict.get (is_sparse, SEQUENCE K) out
                               | Raise _ => None
                               end) messages
                  else []))
      by (intros is_sparse; rewrite Hget; cbn [PyDict.get snd];
          by rewrite extend_None).
    destruct (forallb _ [true; false]) eqn:Hseq; cbn [mbind result_bind].
    2: { right. right. by split_and!. }
    rewrite (wrap_collected_spec np collected (SENTENCE K)
               (fun is_sparse =>
                  if bool_decide (type = None)
                     || bool_decide (type = Some (SENTENCE K))
                  then omap (fun msg =>
                               match extract_attribute_features_from_message
                                       K msg attribute featurizers with
                               | Ok out =>
                                   PyDict.get (is_sparse, SENTENCE K) out
                               | Raise _ => None
                               end) messages
                  else []))
      by (intros is_sparse; rewrite Hget; cbn [PyDict.get snd];
          by rewrite extend_None).
    destruct (forallb _ [true; false]) eqn:Hsent in |- *;
      cbn [mbind result_bind].
    2: { right. right. split_and!; [done | done | | done].
         apply andb_false_r. }
    by split_and!.
  - right. left. by split.
Qed.

End AllMessagesProperties.
(** * Further properties of the Keras policy *)

Section ArchitectureProperties.
Import Keras KerasPolicy.

Variable add_error : list layer -> layer -> option exn.

(** X16.  [model_architecture] in full.  It raises its [ValueError] for an
    output of rank other than 1 and 2, an [IndexError] for an output of rank 2
    when the input has rank below 2, and otherwise what Keras raises for one
    of the layers, if it raises.  The model it returns has four layers, each
    accepted by Keras after the ones before it, a masking layer with mask
    value -1 first and the softmax activation last, and is compiled with the
    categorical cross-entropy, [rmsprop] and the accuracy metric.  For an
    output of rank 1 the masking layer takes the input shape as it is; for an
    output of rank 2 it takes any number of turns and the width of the input,
    and the recurrent layer returns the whole sequence. *)
Theorem model_architecture_outcome (input_shape output_shape : shape) :
  match model_architecture add_error input_shape output_shape with
  | Ok m =>
      compiled m = Some {| loss := "categorical_crossentropy";
                           optimizer := "rmsprop";
                           metrics := ["accuracy"] |}
      /\ (forall k l, layers m !! k = Some l ->
                      add_error (take k (layers m)) l = None)
      /\ exists units,
           last output_shape = Some units
           /\ ((length output_shape = 1
                /\ layers m = [Masking (-1) input_shape;
                               LSTM 32 false (2 # 10);
                               Dense (Some 32%Z) units;
                               Activation "softmax"])
               \/ (length output_shape = 2
                   /\ exists width,
                        input_shape !! 1 = Some width
                        /\ layers m = [Masking (-1) [None; width];
                                       LSTM 32 true (2 # 10);
                                       TimeDistributed (Dense None units);
                                       Activation "softmax"]))
  | Raise e =>
      (e = ValueError (invalid_shape_msg (length output_shape))
       /\ length output_shape <> 1 /\ length output_shape <> 2)
      \/ (e = IndexError /\ length output_shape = 2 /\ length input_shape < 2)
      \/ ((length output_shape = 1 \/ length output_shape = 2)
          /\ exists stack l, add_error stack l = Some e)
  end.
Proof.
  destruct (model_architecture add_error input_shape output_shape)
    as [m|e] eqn:Hm.
  - apply model_architecture_Ok in Hm
      as (Hc & Hacc & [(units & -> & Hl)|(d & width & units & -> & Hw & Hl)]).
    + split; [done|]. split; [done|]. exists units. split; [done|].
      left. by split.
    + split; [done|]. split; [done|]. exists units. split; [done|].
      right. split; [done|]. by exists width.
  - destruct (decide (length output_shape = 1 \/ length output_shape = 2))
      as [Hrank|Hrank].
    + right. destruct (model_architecture_Raise _ _ _ _ Hrank Hm) as [?|?];
        [by left | right; by split].
    + left. rewrite model_architecture_invalid in Hm by lia.
      injection Hm as <-. split; [done|lia].
Qed.

End ArchitectureProperties.

Section TrainingProperties.
Import Keras KerasPolicy.
Context {Tracker Domain Array Metadata : Type}.
Variable array_shape : Array -> shape.
Variable featurize_for_training :
  list Tracker -> Domain -> option Z -> result (TrainingData Array Metadata).
Variable _get_valid_params : train_kwargs -> train_kwargs.
Variable add_error : list layer -> layer -> option exn.
Variable fit_error : Model Array -> fit_call Array -> option exn.

(** X17.  [train] starts afresh: what it returns or raises and the model it
    leaves behind a call of [fit] do not depend on the model and the counter
    the policy had before.  When it returns, the model is a fresh one with
    one pass and the counter is the number of epochs asked for.  When it
    raises, the counter is as it was; the model is as it was when the failure
    is in featurization or in the choice of the architecture, and is the fresh
    model, without a pass, when it is [fit] that raises. *)
Theorem train_forgets_previous_training (self self' : policy Tracker Array)
    (training_trackers : list Tracker) (domain : Domain)
    (kwargs : train_kwargs) :
  let run := train array_shape featurize_for_training _get_valid_params
                   add_error fit_error training_trackers domain kwargs in
  fst (run self) = fst (run self')
  /\ match fst (run self) with
     | Ok _ =>
         model (snd (run self)) = model (snd (run self'))
         /\ current_epoch (snd (run self)) = current_epoch (snd (run self'))
         /\ current_epoch (snd (run self)) = default 1%Z (epochs kwargs)
         /\ exists m c, model (snd (run self)) = Some m /\ fitted m = [c]
                        /\ fit_error {| arch := arch m; fitted := [] |} c
                           = None
     | Raise e =>
         current_epoch (snd (run self)) = current_epoch self
         /\ ((model (snd (run self)) = model self
              /\ forall c, Fitted c ∉ drop (length (trace self))
                                          (trace (snd (run self))))
             \/ (exists fresh c,
                   model (snd (run self)) = Some fresh
                   /\ model (snd (run self')) = Some fresh
                   /\ fitted fresh = []
                   /\ fit_error fresh c = Some e
                   /\ trace (snd (run self))
                      = trace self
                        ++ [Featurized training_trackers
                                       (max_training_samples kwargs);
                            Fitted c]))
     end.
Proof.
  cbv zeta.
  rewrite !(train_outcome add_error array_shape featurize_for_training
              _get_valid_params fit_error).
  cbv zeta.
  assert (Hnot : forall c : fit_call Array,
            Fitted c
            ∉ drop (length (trace self))
                   (trace self
                    ++ [Featurized training_trackers
                                   (max_training_samples kwargs)])).
  { intros c. rewrite drop_app_length. by intros [=]%list_elem_of_singleton. }
  destruct (featurize_for_training training_trackers domain _) as [td|e];
    cbn; [|split; [done|]; split; [done|]; by left].
  destruct (shuffled_X_y td) as [sx sy]. cbn.
  destruct (model_architecture _ _ _) as [m|e]; cbn;
    [|split; [done|]; split; [done|]; by left].
  destruct (fit_error _ _) as [e|] eqn:Hfit; cbn.
  - split; [done|]. split; [done|]. right. eexists _, _.
    split_and!; [done | done | done | exact Hfit |].
    by rewrite <- app_assoc.
  - split_and!; try done. by eexists _, _.
Qed.

(** X18.  Incremental training, repeated: when one call of
    [continue_training] per batch of trackers, on a policy that has a model,
    has returned for every batch, the epoch counter has gone up by the number
    of batches, and the model, whose architecture is unchanged, has gone
    through one more fit pass per batch, in order; the pass of batch [i]
    (from 0) starts at epoch [e + i + 1], where [e] is the counter at the
    start, and runs for one epoch with the size of the batch as batch size.
    A batch on which featurization or [fit] raises ends the run with that
    exception. *)
Theorem continue_training_repeated (batches : list (list Tracker))
    (domain : Domain) :
  forall (self : policy Tracker Array) (m : Model Array),
  model self = Some m ->
  let '(r, self') :=
    foldM (fun _ trackers =>
             continue_training featurize_for_training fit_error trackers
                               domain)
          tt batches self in
  match r with
  | Ok _ =>
      current_epoch self'
      = (current_epoch self + Z.of_nat (length batches))%Z
      /\ exists m' passes,
           model self' = Some m'
           /\ arch m' = arch m
           /\ fitted m' = fitted m ++ passes
           /\ fit_kwargs <$> passes
              = imap (fun i trackers =>
                        FitIncremental (current_epoch self + Z.of_nat i + 2)
                                       (length trackers) 0
                                       (current_epoch self + Z.of_nat i + 1))
                     batches
  | Raise e =>
      exists trackers,
        trackers ∈ batches
        /\ (featurize_for_training trackers domain None = Raise e
            \/ exists m' c epoch,
                 arch m' = arch m /\ fit_error m' c = Some e
                 /\ fit_kwargs c
                    = FitIncremental (epoch + 1) (length trackers) 0 epoch)
  end.
Proof.
  induction batches as [|trackers batches IH]; intros self m Hmodel.
  - cbn. split; [lia|]. exists m, []. rewrite app_nil_r. by split_and!.
  - cbn [foldM]. unfold bind at 1.
    rewrite (continue_training_outcome featurize_for_training fit_error).
    cbv zeta.
    destruct (featurize_for_training trackers domain None) as [td|e]
      eqn:Hfeat;
      [|exists trackers; split; [apply list_elem_of_here | by left]].
    rewrite Hmodel.
    destruct (fit_error m _) as [e|] eqn:Hfit.
    { exists trackers. split; [apply list_elem_of_here|]. right.
      eexists m, _, _.
      split; [done|]. split; [exact Hfit|]. reflexivity. }
    match goal with
    | |- context [foldM _ tt batches ?s] =>
        specialize (IH s _ eq_refl);
        destruct (foldM _ tt batches s) as [r self']
    end.
    cbn [current_epoch model] in IH. destruct r as [[]|e].
    + destruct IH as (Hepoch & m' & passes & Hm' & Harch & Hfitted & Hkw).
      split; [rewrite Hepoch; cbn [length]; lia|].
      eexists m', (_ :: passes). split_and!; [done | done | |].
      * rewrite Hfitted. cbn [fit fitted]. by rewrite <- app_assoc.
      * cbn [fmap list_fmap fit_kwargs imap]. f_equal.
        -- f_equal; lia.
        -- etrans; [exact Hkw|]. apply imap_ext. intros i trs _. cbn.
           f_equal; lia.
    + destruct IH as (trs & Hin & Hwhy). exists trs.
      split; [by apply list_elem_of_further|].
      destruct Hwhy as [Hraise|(m' & c & epoch & Harch & Herr & Hkw)];
        [by left|].
      right. by exists m', c, epoch.
Qed.

End TrainingProperties.

Section PredictionProperties.
Import Keras KerasPolicy.
Context {Tracker Domain Array : Type}.
Variable create_X : list Tracker -> Domain -> result (Array * list Z).
Variable predict : Model Array -> Array -> result tensor.
Variable add_error : list layer -> layer -> option exn.

(** X19.  [max_len] of a policy whose model was built by [model_architecture]:
    for an output of rank 1 it is the first dimension of the input shape (an
    [IndexError] if the input shape is empty); for an output of rank 2, where
    the model takes any number of turns, it is [None], as for a policy without a
    model. *)
Theorem max_len_of_architecture (self : policy Tracker Array)
    (m : Model Array) (input_shape output_shape : shape) :
  model self = Some m ->
  model_architecture add_error input_shape output_shape = Ok (arch m) ->
  max_len self
  = if decide (length output_shape = 1) then py_index input_shape 0
    else Ok None.
Proof.
  intros Hmodel Harch. unfold max_len. rewrite Hmodel.
  apply model_architecture_Ok in Harch
    as (_ & _ & [(units & -> & ->)|(d & width & units & -> & _ & ->)]).
  - cbn. unfold py_index. cbn. by destruct input_shape.
  - done.
Qed.

Lemma np_axis_index_spec (n : nat) (i : Z) :
  np_axis_index n i
  = if decide (- Z.of_nat n <= i < Z.of_nat n)%Z
    then Ok (Z.to_nat (i mod Z.of_nat n))
    else Raise IndexError.
Proof.
  unfold np_axis_index.
  destruct (decide (0 <= i < Z.of_nat n)%Z) as [Hpos|Hpos].
  - rewrite decide_True by lia. by rewrite Z.mod_small.
  - destruct (decide (- Z.of_nat n <= i < 0)%Z) as [Hneg|Hneg].
    + rewrite decide_True by lia. do 2 f_equal.
      rewrite <- (Z.mod_small (Z.of_nat n + i) (Z.of_nat n)) by lia.
      rewrite Z.add_comm.
      rewrite <- (Z.mul_1_l (Z.of_nat n)) at 1.
      by rewrite Z.mod_add by lia.
    + by rewrite decide_False by lia.
Qed.

(** X20.  [predict_action_probabilities] on a policy with a model, once the
    tracker is featurized and the model has predicted.  For a prediction of rank
    2 it returns the last row.  For one of rank 3 it returns, of the first
    element of the batch, the row of the turn [lengths[0] - 1]: a length from 1
    to the number of turns selects that turn, a length from 0 down to one minus
    the number of turns counts from the end (the length 0 selects the last
    turn), and any other length is an [IndexError], as is an empty batch or an
    empty list of lengths.  For any other rank it returns [None]. *)
Theorem predict_action_probabilities_spec (self : policy Tracker Array)
    (tracker : Tracker) (domain : Domain) (m : Model Array) (X : Array)
    (lengths : list Z) (y_pred : tensor) :
  model self = Some m ->
  create_X [tracker] domain = Ok (X, lengths) ->
  predict m X = Ok y_pred ->
  predict_action_probabilities create_X predict tracker domain self
  = match tensor_shape y_pred with
    | [n; k] =>
        if decide (n = 0) then Raise IndexError
        else Ok (Some (tensor_row k (n - 1) (tensor_data y_pred)))
    | [b; t; k] =>
        match lengths with
        | [] => Raise IndexError
        | len :: _ =>
            if decide (b = 0) then Raise IndexError
            else if decide (1 - Z.of_nat t <= len <= Z.of_nat t)%Z
            then Ok (Some (tensor_row k
                             (Z.to_nat ((len - 1) mod Z.of_nat t))
                             (tensor_data y_pred)))
            else Raise IndexError
        end
    | _ => Ok None
    end.
Proof.
  intros Hmodel HX Hpredict. unfold predict_action_probabilities.
  rewrite HX. cbn [mbind result_bind]. rewrite Hmodel, Hpredict.
  cbn [mbind result_bind].
  destruct (tensor_shape y_pred) as [|n [|k [|k' [|? ?]]]]; try done.
  - rewrite np_axis_index_spec.
    destruct (decide (n = 0)) as [->|Hn].
    + by rewrite decide_False by lia.
    + rewrite decide_True by lia. cbn [mbind result_bind]. do 3 f_equal.
      replace (-1)%Z with (Z.of_nat n - 1 + (-1) * Z.of_nat n)%Z by lia.
      rewrite Z.mod_add, Z.mod_small by lia. lia.
  - destruct lengths as [|len rest]; [done|]. cbn [py_index lookup].
    unfold py_index. cbn [lookup list_lookup mbind result_bind].
    rewrite !np_axis_index_spec.
    destruct (decide (- Z.of_nat n <= 0 < Z.of_nat n)%Z) as [Hb|Hb],
             (decide (n = 0)) as [Hn|Hn];
      try lia; cbn [mbind result_bind]; [|done].
    destruct (decide (- Z.of_nat k <= len - 1 < Z.of_nat k)%Z),
             (decide (1 - Z.of_nat k <= len <= Z.of_nat k)%Z);
      try lia; done.
Qed.

(** X21.  Without a model, [predict_action_probabilities] fails with the
    attribute error of [None], after the tracker has been featurized: an error
    of the featurizer comes first. *)
Theorem predict_untrained (self : policy Tracker Array) (tracker : Tracker)
    (domain : Domain) :
  model self = None ->
  predict_action_probabilities create_X predict tracker domain self
  = match create_X [tracker] domain with
    | Ok _ =>
        Raise (AttributeError "'NoneType' object has no attribute 'predict'")
    | Raise e => Raise e
    end.
Proof.
  intros Hmodel. unfold predict_action_probabilities. rewrite Hmodel.
  by destruct (create_X [tracker] domain) as [[X lengths]|e].
Qed.

End PredictionProperties.

Section PersistenceProperties.
Import Keras KerasPolicy.
Context {Tracker Array Featurizer Graph Str : Type}.
Variable to_json : Sequential -> Str.
Variable model_from_json : Str -> result Sequential.
Variable create_dir_for_file : string -> prog (world Array Str) unit.
Variable dump_obj_as_str_to_file :
  string -> Str -> prog (world Array Str) unit.
Variable dump_obj_as_json_to_file :
  string -> meta -> prog (world Array Str) unit.
Variable super_persist : string -> prog (world Array Str) unit.
Variable Featurizer_load : string -> world Array Str -> result Featurizer.
Variable abspath : string -> string.
Variable is_using_tensorflow : bool.
Variable get_default_graph : Graph.

Lemma append_inj_r (p a b : string) : p +:+ a = p +:+ b -> a = b.
Proof. induction p as [|c p IH]; cbn; [done|]. intros [= H]. by apply IH. Qed.

Lemma path_join_inj (path name1 name2 : string) :
  String.prefix "/" name1 = false -> String.prefix "/" name2 = false ->
  path_join path name1 = path_join path name2 -> name1 = name2.
Proof.
  unfold path_join. intros -> ->. destruct (_ || _); intros Heq.
  - by apply append_inj_r in Heq.
  - apply append_inj_r in Heq. by apply (append_inj_r "/") in Heq.
Qed.

(** X22.  What [persist] writes, [load] reads back, except for the arguments
    of [compile].  Take a policy with a model, helpers that do not fail and
    write what they are given to the file they are given, and Keras reading
    from the text of the architecture a model with the same layers that is not
    compiled.  Then [persist] returns, and when afterwards the path exists and
    the featurizer loads from it, [load] returns a policy with that
    featurizer, a model with the same layers and the same weights that is not
    compiled, and the same epoch counter, whatever the path held before. *)
Theorem load_after_persist (self : policy Tracker Array) (m : Model Array)
    (path : string) (w : world Array Str) (loaded_featurizer : Featurizer) :
  model self = Some m ->
  fst (super_persist path w) = Ok tt ->
  (forall file w, fst (create_dir_for_file file w) = Ok tt) ->
  (forall file s w,
     dump_obj_as_str_to_file file s w = write file (Text s) w) ->
  (forall file c w,
     dump_obj_as_json_to_file file c w = write file (Json c) w) ->
  model_from_json (to_json (arch m))
  = Ok {| layers := layers (arch m); compiled := None |} ->
  let '(r, w') :=
    persist to_json create_dir_for_file dump_obj_as_str_to_file
            dump_obj_as_json_to_file super_persist path self w in
  path_exists path w' = true ->
  Featurizer_load path w' = Ok loaded_featurizer ->
  r = Ok tt
  /\ exists loaded : instance Tracker Array Featurizer Graph,
       load model_from_json Featurizer_load abspath is_using_tensorflow
            get_default_graph path w'
       = Returned loaded
       /\ featurizer loaded = Some loaded_featurizer
       /\ model (state loaded)
          = Some {| arch := {| layers := layers (arch m); compiled := None |};
                    fitted := fitted m |}
       /\ current_epoch (state loaded) = current_epoch self.
Proof.
  intros Hmodel Hfeaturizer Hdir Hstr Hjson Hkeras.
  unfold persist, _persist_configuration, save_weights, bind.
  destruct (super_persist path w) as [r0 w0]. cbn in Hfeaturizer.
  subst r0. rewrite Hmodel.
  specialize (Hdir (path_join path "keras_weights.h5") w0).
  destruct (create_dir_for_file _ w0) as [r1 w1]. cbn in Hdir. subst r1.
  rewrite Hstr. cbn [write]. rewrite Hjson. cbn [write].
  set (arch_file := path_join path "keras_arch.json").
  set (weights_file := path_join path "keras_weights.h5").
  set (config_file := path_join path "keras_policy.json").
  assert (Hcw : config_file <> weights_file).
  { intros Heq. by apply path_join_inj in Heq. }
  assert (Haw : arch_file <> weights_file).
  { intros Heq. by apply path_join_inj in Heq. }
  assert (Hac : arch_file <> config_file).
  { intros Heq. by apply path_join_inj in Heq. }
  intros Hexists Hload. split; [done|].
  unfold load. rewrite Hexists, Hload. cbn [of_result mbind outcome_bind].
  fold config_file. unfold isfile, read_json. cbn [files].
  rewrite (decide_False (P := config_file = weights_file)) by done.
  rewrite (decide_True (P := config_file = config_file)) by done.
  cbn [of_result mbind outcome_bind].
  unfold _load_model_arch, _load_weights_for_model, path_exists, isfile,
    read_text, load_weights.
  cbn [meta_arch meta_weights meta_epochs files].
  fold arch_file weights_file.
  rewrite (decide_False (P := arch_file = weights_file)) by done.
  rewrite (decide_False (P := arch_file = config_file)) by done.
  rewrite (decide_True (P := arch_file = arch_file)) by done.
  cbn [mbind result_bind]. rewrite Hkeras. cbn [mbind result_bind of_result
    outcome_bind].
  rewrite (decide_True (P := weights_file = weights_file)) by done.
  cbn [orb mbind result_bind of_result outcome_bind arch].
  eexists. split; [reflexivity|]. cbn. by split_and!.
Qed.

(** X23.  A policy without a model persists nothing of its own:  [persist] only
    warns, after the featurizer is persisted.  When afterwards the path exists,
    holds no configuration and the featurizer loads, [load] returns a policy
    without a model whose epoch counter is 0, whatever the counter of the
    persisted policy was. *)
Theorem load_after_persist_untrained (self : policy Tracker Array)
    (path : string) (w : world Array Str) (loaded_featurizer : Featurizer) :
  model self = None ->
  fst (super_persist path w) = Ok tt ->
  let '(r, w') :=
    persist to_json create_dir_for_file dump_obj_as_str_to_file
            dump_obj_as_json_to_file super_persist path self w in
  path_exists path w' = true ->
  isfile (path_join path "keras_policy.json") w' = false ->
  Featurizer_load path w' = Ok loaded_featurizer ->
  r = Ok tt
  /\ files w' = files (snd (super_persist path w))
  /\ dirs w' = dirs (snd (super_persist path w))
  /\ length (warnings w')
     = S (length (warnings (snd (super_persist path w))))
  /\ exists loaded : instance Tracker Array Featurizer Graph,
       load model_from_json Featurizer_load abspath is_using_tensorflow
            get_default_graph path w'
       = Returned loaded
       /\ featurizer loaded = Some loaded_featurizer
       /\ model (state loaded) = None
       /\ current_epoch (state loaded) = 0%Z.
Proof.
  intros Hmodel Hfeaturizer. unfold persist, bind.
  destruct (super_persist path w) as [r0 w0]. cbn in Hfeaturizer.
  subst r0. rewrite Hmodel. cbn [warn snd].
  intros Hexists Hconfig Hload. split_and!; try done.
  { cbn. rewrite length_app. cbn. lia. }
  unfold load. rewrite Hexists, Hload. cbn [of_result mbind outcome_bind].
  rewrite Hconfig. by eexists.
Qed.

End PersistenceProperties.

(** ** Attributes that the input lacks *)

Section AbsentAttributes.
Import ModelDataUtils.
Variable K : constants.
Variable h : HashSeed.
Variable np : numpy.

Lemma filter_replicate_non_empty {A} (n : nat) (l : list A) :
  filter (fun v => v <> []) (replicate n l)
  = if decide (l = []) then [] else replicate n l.
Proof.
  destruct (decide (l = [])) as [->|Hne].
  - induction n as [|n IH]; [done|]. cbn [replicate].
    by rewrite filter_cons, decide_False by (intros ?; done).
  - apply filter_all. by apply Forall_replicate.
Qed.

(** X15.  An attribute of the given fake features that is in none of the
    examples gets features all the same.  Its shape does not follow the examples
    turn by turn: every example is given as many turns as the first example that
    has turns, and there are as many examples as have turns.  The mask is [0.0]
    throughout, and under a key every example has the fake matrices of that key,
    once per turn. *)
Theorem convert_absent_attribute (raw : raw_features)
    (given : list (string * list Features))
    (consider_dialogue_dimension : bool) (featurizers : option (list string))
    data fake_features' (a : string) (fake : list Features) :
  fst (convert_to_data_format K h np raw (Some given)
         consider_dialogue_dimension featurizers)
  = Ok (data, fake_features') ->
  PyDict.get a given = Some fake ->
  a ∉ all_attributes (examples_of raw) ->
  let '(turns, examples) := absent_shape (examples_of raw) in
  let entries sparse key :=
    let matrices := matrices_of K a sparse key fake (replicate turns None) in
    if decide (matrices = []) then [] else replicate examples matrices in
  exists arrays,
    PyDict.get a data = Some arrays
    /\ forall key,
         PyDict.get key arrays
         = match wrap consider_dialogue_dimension (entries true key)
                 ++ wrap consider_dialogue_dimension (entries false key)
           with
           | [] =>
               if decide (key = MASK K)
               then Some [mask_array
                            (replicate examples (replicate turns [0%Q]))]
               else None
           | arrays => Some arrays
           end.
Proof.
  intros Hresult Hfake Habsent.
  destruct (convert_returned K h np raw (Some given)
              consider_dialogue_dimension featurizers data fake_features'
              Hresult) as (Hexamples & -> & _ & _).
  cbv zeta.
  assert (Htruthy : truthy (Some given) = true).
  { destruct given; [done | done]. }
  rewrite Htruthy. cbn [negb default]. unfold id.
  destruct (absent_shape (examples_of raw)) as [turns examples] eqn:Hshape.
  cbv beta zeta.
  rewrite sorted_get by (apply NoDup_keys_fold_set, NoDup_nil_2).
  rewrite fold_set_get.
  rewrite decide_True by (apply get_Some_keys; by rewrite Hfake).
  eexists. split; [reflexivity|]. intros key.
  rewrite arrays_for_get. unfold fake_for. rewrite Hfake. cbn [default].
  unfold features_for. rewrite get_surfaced.
  rewrite (bool_decide_eq_false_2 (a ∈ py_set h _))
    by (by rewrite py_set_elem).
  rewrite andb_false_r. unfold absent_of. cbn [fst snd].
  unfold collected_for. rewrite !fmap_replicate, !filter_replicate_non_empty.
  unfold masks_of, mask_of_example. by rewrite !fmap_replicate.
Qed.

End AbsentAttributes.

(** ** The features of [ENTITIES] *)

Section EntityFeatures.
Import ModelDataUtils.
Context {Token Entities : Type}.
Variable bilou_tags_to_ids :
  Message Token Entities -> list (string * Z) -> string -> result (list Z).
Variable determine_token_labels : Token -> Entities -> string -> string.
Variable K : constants.

#[local] Abbreviation tag_ids example bilou_tagging :=
  (fun tag_spec =>
     get_tag_ids bilou_tags_to_ids determine_token_labels K example tag_spec
                 bilou_tagging) (only parsing).

Lemma tag_ids_dense (example : Message Token Entities)
    (tag_spec : EntityTagSpec) (bilou_tagging : bool) (f : Features) :
  tag_ids example bilou_tagging tag_spec = Ok f ->
  is_sparse f = false /\ type f = IDS K.
Proof.
  unfold get_tag_ids. destruct (_ : result (list Z)) as [tags|e]; [|done].
  cbn. by intros [= <-].
Qed.

Lemma featurize_entities_example (example : Message Token Entities)
    (entity_tag_specs : option (list EntityTagSpec))
    (featurizers : option (list string)) (bilou_tagging : bool)
    (type : option string) :
  fold_result
    (featurize_attribute bilou_tags_to_ids determine_token_labels K example
       entity_tag_specs featurizers bilou_tagging type)
    [] [ENTITIES K]
  = match entity_tag_specs with
    | None => Raise (TypeError "'NoneType' object is not iterable")
    | Some specs =>
        tags ← map_result (tag_ids example bilou_tagging) specs;
        Ok [(ENTITIES K,
             if truthy_str type
             then filter (fun f => Some (type_of f) = type) tags
             else tags)]
    end.
Proof.
  cbn [fold_result]. unfold featurize_attribute.
  rewrite decide_True by done.
  destruct entity_tag_specs as [specs|]; [|done].
  destruct (map_result _ specs) as [tags|e]; [|done].
  cbn [mbind result_bind PyDict.set PyDict.get].
  rewrite decide_True by done.
  destruct (truthy_str type); [|done]. cbn [mbind result_bind PyDict.set].
  by rewrite decide_True by done.
Qed.

(** X3.  [featurize_training_examples] for [ENTITIES] alone and a valid [type].
    Without tag specs it fails with a [TypeError] as soon as there is an
    example; with tag specs it fails only with what [get_tag_ids] raises.
    When it returns, every example has under [ENTITIES] the tag ids of the tag
    specs, in their order, and there are no sparse feature sizes.  The tag ids
    are of type [IDS], so a type filter, which is for sentence or sequence
    features, leaves none of them. *)
Theorem featurize_entities_spec
    (training_examples : list (Message Token Entities))
    (entity_tag_specs : option (list EntityTagSpec))
    (featurizers : option (list string)) (bilou_tagging : bool)
    (type : option string) :
  bad_type K type = false ->
  match featurize_training_examples bilou_tags_to_ids determine_token_labels
          K training_examples [ENTITIES K] entity_tag_specs featurizers
          bilou_tagging type with
  | Ok (output, sparse_feature_sizes) =>
      sparse_feature_sizes = []
      /\ (training_examples <> [] -> is_Some entity_tag_specs)
      /\ (forall specs,
            entity_tag_specs = Some specs ->
            Forall2
              (fun example out =>
                 exists tags,
                   Forall2 (fun tag_spec f =>
                              tag_ids example bilou_tagging tag_spec = Ok f)
                           specs tags
                   /\ out = [(ENTITIES K,
                              if truthy_str type
                              then filter (fun f => Some (type_of f) = type)
                                          tags
                              else tags)])
              training_examples output)
      /\ (truthy_str type = true -> type <> Some (IDS K) ->
          Forall (fun out => out = [(ENTITIES K, [])]) output)
  | Raise e =>
      training_examples <> []
      /\ match entity_tag_specs with
         | None => e = TypeError "'NoneType' object is not iterable"
         | Some specs =>
             exists example tag_spec,
               example ∈ training_examples /\ tag_spec ∈ specs
               /\ tag_ids example bilou_tagging tag_spec = Raise e
         end
  end.
Proof.
  intros Htype. unfold featurize_training_examples. rewrite Htype.
  destruct (map_result _ training_examples) as [output|e] eqn:Hmap;
    cbn [mbind result_bind].
  - apply map_result_Ok in Hmap.
    assert (Hout : Forall2
      (fun example out =>
         exists specs tags,
           entity_tag_specs = Some specs
           /\ Forall2 (fun tag_spec f =>
                         tag_ids example bilou_tagging tag_spec = Ok f)
                      specs tags
           /\ out = [(ENTITIES K,
                      if truthy_str type
                      then filter (fun f => Some (type_of f) = type) tags
                      else tags)])
      training_examples output).
    { eapply Forall2_impl; [exact Hmap|]. intros example out Hexample.
      cbn beta in Hexample. rewrite featurize_entities_example in Hexample.
      destruct entity_tag_specs as [specs|]; [|done].
      destruct (map_result _ specs) as [tags|e] eqn:Htags; [|done].
      cbn in Hexample. injection Hexample as <-. exists specs, tags.
      split; [done|]. split; [by apply map_result_Ok | done]. }
    assert (Hsizes :
      match output, training_examples with
      | featurized_example :: _, training_example :: _ =>
          _collect_sparse_feature_sizes K featurized_example training_example
                                        featurizers type
      | _, _ => Ok []
      end = Ok []).
    { destruct Hout as [|example out examples outs Hhead _]; [done|].
      destruct Hhead as (specs & tags & _ & Htags & ->).
      unfold _collect_sparse_feature_sizes. rewrite Htype. cbn [omap list_omap].
      assert (Hdense : Forall (fun f => is_sparse f = false) tags).
      { clear -Htags. induction Htags as [|spec f specs tags Hf _ IH];
          constructor; [|done]. by apply tag_ids_dense in Hf as [? _]. }
      destruct (truthy_str type).
      - destruct (filter _ tags) as [|f fs] eqn:Hfilter; [done|].
        assert (Hf : f ∈ filter (fun f => Some (type_of f) = type) tags)
          by (rewrite Hfilter; left).
        apply list_elem_of_filter in Hf as [_ Hf].
        rewrite Forall_forall in Hdense. by rewrite (Hdense f Hf).
      - destruct tags as [|f fs]; [done|].
        apply Forall_cons in Hdense as [-> _]. done. }
    rewrite Hsizes. cbn [mbind result_bind]. split_and!.
    + done.
    + intros Hne. destruct Hout as [|example out ? ? Hhead _]; [done|].
      destruct Hhead as (specs & _ & -> & _). by eexists.
    + intros specs Hspecs. eapply Forall2_impl; [exact Hout|].
      intros example out (specs' & tags & Hspecs' & Htags & ->).
      exists tags. split; [|done]. congruence.
    + intros Htruthy Hids. clear Hmap Hsizes.
      induction Hout as [|example out examples outs Hhead _ IH];
        constructor; [|done].
      destruct Hhead as (specs & tags & _ & Htags & ->).
      rewrite Htruthy. do 2 f_equal. apply filter_none.
      apply Forall_forall. intros f Hf.
      apply (list_elem_of_lookup_1 tags) in Hf as [i Hi].
      destruct (Forall2_lookup_r _ _ _ _ _ Htags Hi) as (spec & _ & Hspec).
      apply tag_ids_dense in Hspec as [_ Hty]. unfold type_of.
      rewrite Hty. congruence.
  - apply map_result_Raise in Hmap as (example & Hexample & Hraise).
    cbn beta in Hraise. rewrite featurize_entities_example in Hraise.
    split; [by destruct training_examples; [apply elem_of_nil in Hexample|]|].
    destruct entity_tag_specs as [specs|]; [|by injection Hraise as <-].
    destruct (map_result _ specs) as [tags|e'] eqn:Htags; [done|].
    cbn in Hraise. injection Hraise as ->.
    apply map_result_Raise in Htags as (spec & Hspec & Hraise).
    by exists example, spec.
Qed.

End EntityFeatures.

(** * The further properties on example data *)

Section PipelineExamples.
Import ModelDataUtils ModelDataUtils.Example.

(** The example data has the attributes text and intent; so do its [Data]
    and its fake features. *)
Lemma convert_attribute_universe_witness :
  exists data fake_features,
    fst (convert_to_data_format rasa_constants first_seen np_rule examples None false
                                None) = Ok (data, fake_features)
    /\ NoDup (PyDict.keys data)
    /\ (forall a, a ∈ PyDict.keys data
                  <-> a ∈ all_attributes (examples_of examples))
    /\ (forall a, a ∈ PyDict.keys fake_features
                  <-> a ∈ all_attributes (examples_of examples)).
Proof.
  eexists _, _. split; [vm_compute; reflexivity|].
  apply (convert_attribute_universe rasa_constants first_seen np_rule examples None
           false None).
  vm_compute. reflexivity.
Defined.

(** The fake features of the example data, given back with the featurizers
    as the first call left them. *)
Lemma convert_with_returned_fake_features_witness :
  exists data fake_features featurizers',
    convert_to_data_format rasa_constants first_seen np_rule examples None true
                           (Some ["CountVectors"])
    = (Ok (data, fake_features), featurizers')
    /\ fst (convert_to_data_format rasa_constants first_seen np_rule examples
              (Some fake_features) true featurizers')
       = Ok (data, fake_features).
Proof.
  eexists _, _, _. split; [vm_compute; reflexivity|].
  apply (convert_with_returned_fake_features rasa_constants first_seen np_rule
           examples true (Some ["CountVectors"])).
  vm_compute. reflexivity.
Defined.

(** The entries of the [Data] of the example data. *)
Lemma convert_feature_entries_witness :
  exists data fake_features,
    fst (convert_to_data_format rasa_constants first_seen np_rule examples None false
                                None) = Ok (data, fake_features)
    /\ forall a arrays key entry,
         (a, arrays) ∈ data -> key <> "mask" ->
         PyDict.get key arrays = Some entry ->
         exists sparse_arrays dense_arrays,
           entry = sparse_arrays ++ dense_arrays
           /\ entry <> []
           /\ length sparse_arrays <= 1 /\ length dense_arrays <= 1
           /\ Forall (holds_kind true) sparse_arrays
           /\ Forall (holds_kind false) dense_arrays
           /\ Forall (fun fa => number_of_dimensions fa = 3) entry.
Proof.
  eexists _, _. split; [vm_compute; reflexivity|].
  eapply (convert_feature_entries rasa_constants first_seen np_rule examples None
            false None).
  vm_compute. reflexivity.
Defined.

(** The stories are uniform, and every array built from them has two
    entries, one per story with turns. *)
Lemma convert_batch_aligned_witness :
  uniform rasa_constants None (examples_of Stories.stories)
  /\ exists data fake_features,
       fst (convert_to_data_format rasa_constants first_seen np_rule
              Stories.stories
                                   None true None) = Ok (data, fake_features)
       /\ forall a arrays key entry,
            (a, arrays) ∈ data ->
            PyDict.get key arrays = Some entry ->
            Forall (fun fa => batch_size fa = 2) entry.
Proof.
  assert (Huniform : uniform rasa_constants None
                             (examples_of Stories.stories)).
  { unfold uniform. apply (bool_decide_unpack _). vm_compute. exact I. }
  split; [exact Huniform|].
  eexists _, _. split; [vm_compute; reflexivity|].
  eapply (convert_batch_aligned rasa_constants first_seen np_rule Stories.stories
            None true None _ _ eq_refl Huniform).
  vm_compute. reflexivity.
Defined.

(** With the type filter [sentence] the example message, which has a text
    and an intent, is featurized with its sentence features. *)
Lemma featurize_training_examples_spec_witness :
  match featurize_training_examples no_bilou no_label rasa_constants
          [message] ["text"; "intent"] None None false (Some "sentence") with
  | Ok (output, _) =>
      Forall2
        (fun example out =>
           forall a,
             PyDict.get a out
             = if decide (a ∈ ["text"; "intent"] /\ a ∈ data example)
               then Some
                      (filter (fun f => Some (type_of f) = Some "sentence")
                              (get_all_features example a None))
               else None)
        [message] output
      /\ (true = true ->
          Forall (fun example =>
                    Forall (fun a => a ∈ data example) ["text"; "intent"])
                 [message])
  | Raise e =>
      true = true
      /\ exists example a,
           example ∈ [message] /\ a ∈ ["text"; "intent"]
           /\ (a ∉ data example) /\ e = KeyError a
  end.
Proof.
  apply (featurize_training_examples_spec no_bilou no_label rasa_constants
           [message] ["text"; "intent"] None None false (Some "sentence")).
  - reflexivity.
  - apply (bool_decide_unpack _). vm_compute. exact I.
Defined.

(** The example data are two examples of one turn, so a response, which
    they lack, is given one turn in each of two examples: its mask is
    [0.0] twice, and its sentence features are the fake matrix twice. *)
Lemma convert_absent_attribute_witness :
  match fst (convert_to_data_format rasa_constants first_seen np_rule examples
               (Some [("response", [dense_sentence])]) true None) with
  | Ok (data, _) =>
      exists arrays,
        PyDict.get "response" data = Some arrays
        /\ PyDict.get "mask" arrays
           = Some [mask_array [[[0%Q]]; [[0%Q]]]]
        /\ PyDict.get "sentence" arrays
           = Some [feature_array true [[features dense_sentence];
                                       [features dense_sentence]]]
  | Raise _ => False
  end.
Proof.
  destruct (fst (convert_to_data_format rasa_constants first_seen np_rule examples
                   (Some [("response", [dense_sentence])]) true None))
    as [[data fake_features]|e] eqn:Hrun.
  - pose proof (convert_absent_attribute rasa_constants first_seen np_rule examples
                  [("response", [dense_sentence])] true None data
                  fake_features "response" [dense_sentence] Hrun eq_refl)
      as Habsent.
    destruct Habsent as (arrays & Hget & Hkeys).
    { apply (bool_decide_unpack _). vm_compute. exact I. }
    exists arrays. split; [exact Hget|].
    split; [exact (Hkeys "mask") | exact (Hkeys "sentence")].
  - vm_compute in Hrun. discriminate Hrun.
Defined.

(** The example message has three tokens, all labelled [O]: with a tag
    spec that knows the label, its entity features are one column of three
    tag ids; with a type filter nothing is left of them. *)
Lemma featurize_entities_spec_witness :
  match featurize_training_examples no_bilou no_label rasa_constants
          [message] ["entities"]
          (Some [{| tag_name := "entity"; tags_to_ids := [("O", 0%Z)] |}])
          None false (Some "sentence") with
  | Ok (output, sparse_feature_sizes) =>
      sparse_feature_sizes = [] /\ output = [[("entities", [])]]
  | Raise _ => False
  end.
Proof.
  pose proof (featurize_entities_spec no_bilou no_label rasa_constants
                [message]
                (Some [{| tag_name := "entity";
                          tags_to_ids := [("O", 0%Z)] |}])
                None false (Some "sentence") eq_refl) as Hspec.
  destruct (featurize_training_examples _ _ _ _ _ _ _ _ _)
    as [[output sizes]|e] eqn:Hrun.
  - destruct Hspec as (Hsizes & _ & _ & Hempty). split; [exact Hsizes|].
    specialize (Hempty eq_refl ltac:(discriminate)).
    vm_compute in Hrun. injection Hrun as <- _. reflexivity.
  - vm_compute in Hrun. discriminate Hrun.
Defined.

End PipelineExamples.

Section PolicyExamples.
Import Keras KerasPolicy.

(** Two more batches on the trained example policy, which is at epoch 3:
    the counter goes to 5, and the passes start at epochs 4 and 5. *)
Lemma continue_training_repeated_witness :
  let '(r, self') :=
    foldM (fun _ trackers =>
             continue_training Example.featurize Example.fit_error trackers
                               tt)
          tt [[tt]; [tt; tt]] Example.trained in
  r = Ok tt
  /\ current_epoch self' = 5%Z
  /\ exists m m' passes,
       model Example.trained = Some m
       /\ model self' = Some m'
       /\ arch m' = arch m
       /\ fitted m' = fitted m ++ passes
       /\ fit_kwargs <$> passes
          = [FitIncremental 5 1 0 4; FitIncremental 6 2 0 5].
Proof.
  pose proof (continue_training_repeated Example.featurize Example.fit_error
                [[tt]; [tt; tt]] tt Example.trained _ eq_refl) as Hrun.
  destruct (foldM _ tt [[tt]; [tt; tt]] Example.trained) as [r self']
    eqn:Hfold.
  vm_compute in Hfold. injection Hfold as <- <-.
  destruct Hrun as (Hepoch & m' & passes & Hm' & Harch & Hfitted & Hkw).
  split; [reflexivity|]. split; [exact Hepoch|].
  eexists _, m', passes. split; [reflexivity|].
  split; [exact Hm'|]. split; [exact Harch|]. split; [exact Hfitted|].
  exact Hkw.
Defined.

(** The single-step example model takes histories of 5 turns. *)
Lemma max_len_of_architecture_witness :
  max_len Scenario.single_step = Ok (Some 5%Z).
Proof.
  apply (max_len_of_architecture Example.add_error Scenario.single_step _
           [Some 5%Z; Some 10%Z] [Some 7%Z] eq_refl eq_refl).
Defined.

(** The featurizer reports two turns, so the per-turn model's row of the
    second turn is returned. *)
Lemma predict_action_probabilities_spec_witness :
  predict_action_probabilities Scenario.create_X Scenario.predict_per_turn
                               tt tt Scenario.single_step
  = Ok (Some [(1 # 4)%Q; (3 # 4)%Q]).
Proof.
  apply (predict_action_probabilities_spec Scenario.create_X
           Scenario.predict_per_turn Scenario.single_step tt tt _ _ _ _
           eq_refl eq_refl eq_refl).
Defined.

(** The untrained example policy cannot predict. *)
Lemma predict_untrained_witness :
  predict_action_probabilities Scenario.create_X Scenario.predict_per_turn
                               tt tt Example.untrained
  = Raise (AttributeError "'NoneType' object has no attribute 'predict'").
Proof.
  apply (predict_untrained Scenario.create_X Scenario.predict_per_turn
           Example.untrained tt tt eq_refl).
Defined.

(** The single-step example policy, persisted under [models] and loaded
    from there. *)
Lemma load_after_persist_witness :
  let '(r, w') :=
    persist Scenario.to_json Scenario.create_dir_for_file
            Scenario.dump_obj_as_str_to_file
            Scenario.dump_obj_as_json_to_file Scenario.super_persist
            "models" Scenario.single_step Scenario.disk in
  r = Ok tt
  /\ exists (loaded : instance unit (list Z) unit unit) m,
       load Scenario.model_from_json Scenario.Featurizer_load id true tt
            "models" w'
       = Returned loaded
       /\ featurizer loaded = Some tt
       /\ model Scenario.single_step = Some m
       /\ model (state loaded)
          = Some {| arch := {| layers := layers (arch m); compiled := None |};
                    fitted := fitted m |}
       /\ current_epoch (state loaded) = 3%Z.
Proof.
  pose proof (load_after_persist Scenario.to_json Scenario.model_from_json
                Scenario.create_dir_for_file Scenario.dump_obj_as_str_to_file
                Scenario.dump_obj_as_json_to_file Scenario.super_persist
                Scenario.Featurizer_load id true tt Scenario.single_step _
                "models" Scenario.disk tt eq_refl eq_refl
                (fun _ _ => eq_refl) (fun _ _ _ => eq_refl)
                (fun _ _ _ => eq_refl) eq_refl) as Hload.
  vm_compute in Hload. vm_compute.
  destruct (Hload eq_refl eq_refl)
    as (Hr & loaded & Hloaded & Hfeaturizer & Hmodel & Hepoch).
  split; [exact Hr|]. eexists loaded, _. split; [exact Hloaded|].
  split; [exact Hfeaturizer|]. split; [reflexivity|].
  split; [exact Hmodel | exact Hepoch].
Defined.

(** The untrained example policy, whose counter could be anything,
    persisted under [models] and loaded from there. *)
Lemma load_after_persist_untrained_witness :
  let '(r, w') :=
    persist Scenario.to_json Scenario.create_dir_for_file
            Scenario.dump_obj_as_str_to_file
            Scenario.dump_obj_as_json_to_file Scenario.super_persist
            "models" Example.untrained Scenario.disk in
  r = Ok tt
  /\ length (warnings w') = 1
  /\ exists loaded : instance unit (list Z) unit unit,
       load Scenario.model_from_json Scenario.Featurizer_load id true tt
            "models" w'
       = Returned loaded
       /\ model (state loaded) = None
       /\ current_epoch (state loaded) = 0%Z.
Proof.
  pose proof (load_after_persist_untrained Scenario.to_json
                Scenario.model_from_json Scenario.create_dir_for_file
                Scenario.dump_obj_as_str_to_file
                Scenario.dump_obj_as_json_to_file Scenario.super_persist
                Scenario.Featurizer_load id true tt Example.untrained
                "models" Scenario.disk tt eq_refl eq_refl) as Hload.
  vm_compute in Hload. vm_compute.
  destruct (Hload eq_refl eq_refl eq_refl)
    as (Hr & _ & _ & Hwarn & loaded & Hloaded & _ & Hmodel & Hepoch).
  split; [exact Hr|]. split; [exact Hwarn|].
  exists loaded. split; [exact Hloaded|]. split; [exact Hmodel | exact Hepoch].
Defined.

End PolicyExamples.
